(** * feedback_server: the routes and their SQL, embedded in Rocq

    The server is a Hono application (main.ts) whose routes (routes/tags.ts,
    routes/ideas.ts, routes/users.ts, routes/groups.ts, routes/feedbacks.ts)
    each run one or two statements against a PostgreSQL store through the
    [sql] tagged template and turn the returned rows into a response.

    The embedding has three layers:
    - [Js]: the JavaScript values the handlers build and inspect;
    - [Pg]: the tables of the schema file and every statement of the routes,
      written as a function on the tables;
    - one module per route file, in a small exception-and-state monad, and
      [Main] for the validators and the error handler of main.ts.

    Conventions.  INTEGER and SERIAL columns are carried as [Z].  Where a
    number of the caller or a counter computed by a statement meets an
    INTEGER column, the store's 32-bit range check is part of the
    statement; an id drawn from a sequence is taken to be in range.  A
    [z.number()] field is carried as [Z] once validated (a fraction, which
    the store would refuse as well, is left out).  Columns the routes
    always fill from validated strings are not nullable in the model.
    Neither store fails for a reason outside the request (a lost
    connection, a full disk).  The store promises no order for rows
    returned without ORDER BY; the model lists them in table order, and
    what is stated of a listing is stated up to that order.  A schema of
    a route is a partial decoder of its input ([Main.schemas]); [Zod]
    gives the decoders the schemas of the source stand for, with zod's
    two format tests as a parameter.  Statements hold for every decoder
    where they can, and for those of [Zod] where the answer depends on
    what is accepted. *)

From Stdlib Require Import List String Ascii ZArith Bool Lia DecimalString.
From Stdlib Require Import Permutation Sorted.
Import ListNotations.
Set Warnings "-register-all".
Open Scope string_scope.
Open Scope Z_scope.

(* ================================================================== *)
(** * JavaScript values *)

Module Js.

Inductive value : Type :=
| Undefined
| Null
| Bool (b : bool)
| Num (n : Z)
| Str (s : string)
| Arr (items : list value)
| Obj (fields : list (string * value)).

(** [if (x)] / [x ? a : b] on a string: the empty string is falsy. *)
Definition truthy_string (s : string) : bool :=
  match s with EmptyString => false | _ => true end.

(** [x ? ... : ...] on an optional string ([undefined] is falsy). *)
Definition truthy (o : option string) : bool :=
  match o with Some s => truthy_string s | None => false end.

(** [!n] on a number is true for 0. *)
Definition truthy_num (n : Z) : bool := negb (n =? 0).

Fixpoint lookup (k : string) (fs : list (string * value)) : value :=
  match fs with
  | [] => Undefined
  | (k', v) :: fs' => if String.eqb k k' then v else lookup k fs'
  end.

(** [Object(v)]: objects (arrays included) are returned as they are,
    [null] and [undefined] give a fresh empty object, a primitive is
    boxed; a boxed primitive has none of the properties read here, so it
    is kept as the primitive. *)
Definition Object_ (v : value) : value :=
  match v with
  | Undefined | Null => Obj []
  | _ => v
  end.

(** [v.items] for the property name [items]: an own field of a plain
    object; arrays, strings, numbers and booleans have no such property
    (their prototypes define none), so the read gives [undefined]. *)
Definition get_items (v : value) : value :=
  match v with
  | Obj fs => lookup "items" fs
  | _ => Undefined
  end.

(** [a ?? b] *)
Definition nullish (a b : value) : value :=
  match a with
  | Undefined | Null => b
  | _ => a
  end.

(** [{ ...o, k: v }]: an existing key keeps its place and takes the new
    value, a new key goes last. *)
Fixpoint set_field (k : string) (v : value) (fs : list (string * value))
  : list (string * value) :=
  match fs with
  | [] => [(k, v)]
  | (k', v') :: fs' =>
      if String.eqb k k' then (k', v) :: fs' else (k', v') :: set_field k v fs'
  end.

Definition spread_with (o : value) (k : string) (v : value) : value :=
  match o with
  | Obj fs => Obj (set_field k v fs)
  | _ => Obj [(k, v)]
  end.

Definition strings (l : list string) : value := Arr (map Str l).
Definition nums (l : list Z) : value := Arr (map Num l).

Definition opt_string (o : option string) : value :=
  match o with Some s => Str s | None => Null end.

End Js.

(* ================================================================== *)
(** * Relational operators used by the statements *)

Module Rel.

Section Operators.
Context {A B K : Type}.

(** [a LEFT JOIN b ON on]: every left row once per matching right row,
    and once with NULLs when nothing matches. *)
Definition left_join (on : A -> B -> bool) (l : list A) (r : list B)
  : list (A * option B) :=
  flat_map
    (fun a =>
       match filter (on a) r with
       | [] => [(a, None)]
       | bs => map (fun b => (a, Some b)) bs
       end) l.

Variable K_dec : forall x y : K, {x = y} + {x <> y}.

Definition same (k k' : K) : bool := if K_dec k k' then true else false.

(** The keys of a list, each once, in order of first appearance. *)
Fixpoint distinct (ks : list K) : list K :=
  match ks with
  | [] => []
  | k :: ks' => k :: filter (fun k' => negb (same k' k)) (distinct ks')
  end.

(** [GROUP BY key]: one group per distinct key, holding the rows with
    that key.  The store promises no order of the groups; here they come
    in the order in which their keys first appear. *)
Definition group_by (key : A -> K) (rows : list A) : list (K * list A) :=
  map (fun k => (k, filter (fun r => same (key r) k) rows))
      (distinct (map key rows)).

(** [ARRAY_AGG(e)] over the rows of one group: NULL over no row at all,
    otherwise the array of the values, NULLs included. *)
Definition array_agg (vals : list (option B)) : option (list (option B)) :=
  match vals with
  | [] => None
  | _ => Some vals
  end.

(** [COALESCE(x, d)] *)
Definition coalesce (x : option B) (d : B) : B :=
  match x with Some v => v | None => d end.

(** [COALESCE(x, y)] with a nullable second argument. *)
Definition coalesce2 (x y : option B) : option B :=
  match x with Some v => Some v | None => y end.

End Operators.

(** [array_append(a, x)] and [array_remove(a, x)] on a TEXT[] column. *)
Definition array_append (a : list string) (x : string) : list string := a ++ [x].

Definition array_remove (a : list string) (x : string) : list string :=
  filter (fun y => negb (String.eqb y x)) a.

End Rel.

(* ================================================================== *)
(** * The store: tables of the schema file and the statements *)

Module Pg.

(** ** Tables (CREATE TABLE statements of the schema file) *)

Record user := mk_user {
  u_id : string;            (* TEXT PRIMARY KEY *)
  u_name : string;
  u_email : string;
  u_role : string;
  u_image_url : string }.

Record tag := mk_tag {
  t_id : Z;                 (* SERIAL PRIMARY KEY *)
  t_name : string;          (* TEXT UNIQUE *)
  t_upvotes : Z;            (* INTEGER DEFAULT 0 *)
  t_downvotes : Z }.        (* INTEGER DEFAULT 0 *)

Record user_group := mk_group {
  g_id : Z;                 (* SERIAL PRIMARY KEY *)
  g_title : string;
  g_description : string;
  g_user_id : list string;  (* TEXT [] *)
  g_likes : Z }.

Record idea := mk_idea {
  i_id : Z;                 (* SERIAL PRIMARY KEY *)
  i_title : string;
  i_content : string;
  i_user_id : string;       (* REFERENCES users(id) ON DELETE CASCADE *)
  i_files_url : list string;
  i_access : string;        (* 'public', 'private:user_id', 'group:group_id' *)
  i_upvotes : Z;
  i_downvotes : Z;
  i_created_at : Z }.       (* TIMESTAMP DEFAULT CURRENT_TIMESTAMP *)

Record feedback := mk_feedback {
  f_id : Z;                 (* SERIAL PRIMARY KEY *)
  f_idea_id : Z;            (* REFERENCES ideas(id) ON DELETE CASCADE *)
  f_user_id : string;       (* REFERENCES users(id) ON DELETE CASCADE *)
  f_content : string;
  f_files_url : list string;
  f_feedback_links : list Z;
  f_user_tag : option string;  (* TEXT NULL *)
  f_upvotes : Z;
  f_downvotes : Z;
  f_created_at : Z }.

(** A junction row is the pair of its two key columns:
    [users_pinned_tags (user_id, tag_id)], [ideas_tags (idea_id, tag_id)],
    [ideas_feedbacks (idea_id, feedback_id)]. *)
Record database := mk_db {
  users : list user;
  tags : list tag;
  users_pinned_tags : list (string * Z);
  user_groups : list user_group;
  ideas : list idea;
  ideas_tags : list (Z * Z);
  feedbacks : list feedback;
  ideas_feedbacks : list (Z * Z);
  (* the next value of each SERIAL sequence *)
  tags_id_seq : Z;
  user_groups_id_seq : Z;
  ideas_id_seq : Z;
  feedbacks_id_seq : Z;
  (* what CURRENT_TIMESTAMP gives *)
  clock : Z }.

Definition empty : database :=
  mk_db [] [] [] [] [] [] [] [] 1 1 1 1 0.

Definition with_users (v : list user) (d : database) : database :=
  mk_db v (tags d) (users_pinned_tags d) (user_groups d) (ideas d) (ideas_tags d)
        (feedbacks d) (ideas_feedbacks d) (tags_id_seq d) (user_groups_id_seq d)
        (ideas_id_seq d) (feedbacks_id_seq d) (clock d).

Definition with_tags (v : list tag) (d : database) : database :=
  mk_db (users d) v (users_pinned_tags d) (user_groups d) (ideas d) (ideas_tags d)
        (feedbacks d) (ideas_feedbacks d) (tags_id_seq d) (user_groups_id_seq d)
        (ideas_id_seq d) (feedbacks_id_seq d) (clock d).

Definition with_users_pinned_tags (v : list (string * Z)) (d : database) : database :=
  mk_db (users d) (tags d) v (user_groups d) (ideas d) (ideas_tags d)
        (feedbacks d) (ideas_feedbacks d) (tags_id_seq d) (user_groups_id_seq d)
        (ideas_id_seq d) (feedbacks_id_seq d) (clock d).

Definition with_user_groups (v : list user_group) (d : database) : database :=
  mk_db (users d) (tags d) (users_pinned_tags d) v (ideas d) (ideas_tags d)
        (feedbacks d) (ideas_feedbacks d) (tags_id_seq d) (user_groups_id_seq d)
        (ideas_id_seq d) (feedbacks_id_seq d) (clock d).

Definition with_ideas (v : list idea) (d : database) : database :=
  mk_db (users d) (tags d) (users_pinned_tags d) (user_groups d) v (ideas_tags d)
        (feedbacks d) (ideas_feedbacks d) (tags_id_seq d) (user_groups_id_seq d)
        (ideas_id_seq d) (feedbacks_id_seq d) (clock d).

Definition with_ideas_tags (v : list (Z * Z)) (d : database) : database :=
  mk_db (users d) (tags d) (users_pinned_tags d) (user_groups d) (ideas d) v
        (feedbacks d) (ideas_feedbacks d) (tags_id_seq d) (user_groups_id_seq d)
        (ideas_id_seq d) (feedbacks_id_seq d) (clock d).

Definition with_feedbacks (v : list feedback) (d : database) : database :=
  mk_db (users d) (tags d) (users_pinned_tags d) (user_groups d) (ideas d) (ideas_tags d)
        v (ideas_feedbacks d) (tags_id_seq d) (user_groups_id_seq d)
        (ideas_id_seq d) (feedbacks_id_seq d) (clock d).

Definition with_ideas_feedbacks (v : list (Z * Z)) (d : database) : database :=
  mk_db (users d) (tags d) (users_pinned_tags d) (user_groups d) (ideas d) (ideas_tags d)
        (feedbacks d) v (tags_id_seq d) (user_groups_id_seq d)
        (ideas_id_seq d) (feedbacks_id_seq d) (clock d).

Definition with_tags_id_seq (v : Z) (d : database) : database :=
  mk_db (users d) (tags d) (users_pinned_tags d) (user_groups d) (ideas d) (ideas_tags d)
        (feedbacks d) (ideas_feedbacks d) v (user_groups_id_seq d)
        (ideas_id_seq d) (feedbacks_id_seq d) (clock d).

Definition with_user_groups_id_seq (v : Z) (d : database) : database :=
  mk_db (users d) (tags d) (users_pinned_tags d) (user_groups d) (ideas d) (ideas_tags d)
        (feedbacks d) (ideas_feedbacks d) (tags_id_seq d) v
        (ideas_id_seq d) (feedbacks_id_seq d) (clock d).

Definition with_ideas_id_seq (v : Z) (d : database) : database :=
  mk_db (users d) (tags d) (users_pinned_tags d) (user_groups d) (ideas d) (ideas_tags d)
        (feedbacks d) (ideas_feedbacks d) (tags_id_seq d) (user_groups_id_seq d)
        v (feedbacks_id_seq d) (clock d).

Definition with_feedbacks_id_seq (v : Z) (d : database) : database :=
  mk_db (users d) (tags d) (users_pinned_tags d) (user_groups d) (ideas d) (ideas_tags d)
        (feedbacks d) (ideas_feedbacks d) (tags_id_seq d) (user_groups_id_seq d)
        (ideas_id_seq d) v (clock d).

(** ** Statements

    A statement either fails, leaving every table as it was (a sequence
    value it drew stays drawn), or succeeds with its rows.  Each statement
    of the routes is written out as the function it computes on the
    tables, with the constraints of the schema file checked where the
    store checks them: NOT NULL and uniqueness as a row goes in, foreign
    keys at the end of the statement, ON DELETE CASCADE with the delete. *)

Inductive error : Type :=
| unique_violation (constraint : string)
| foreign_key_violation (constraint : string)
| not_null_violation (column : string)
| cardinality_violation
| numeric_value_out_of_range
| syntax_error (near : string).

Definition stmt (A : Type) : Type := database -> (error + A) * database.

Definition reading {A} (f : database -> A) : stmt A :=
  fun d => (inr (f d), d).

Definition failing {A} (e : error) : stmt A :=
  fun d => (inl e, d).

(** The range of an INTEGER column. *)
Definition int4 (z : Z) : bool := (-2147483648 <=? z) && (z <=? 2147483647).

(** A number of the caller bound where the statement expects an INTEGER
    (compared with an INTEGER column or stored in one): out of range, the
    statement fails before it reads or writes anything. *)
Definition integer {A} (z : Z) (q : stmt A) : stmt A :=
  fun d => if int4 z then q d else (inl numeric_value_out_of_range, d).

Definition integers {A} (zs : list Z) (q : stmt A) : stmt A :=
  fun d => if forallb int4 zs then q d else (inl numeric_value_out_of_range, d).

Inductive counter : Type := upvotes | downvotes.

Definition has_user (id : string) (d : database) : bool :=
  existsb (fun u => String.eqb (u_id u) id) (users d).

Definition has_tag (id : Z) (d : database) : bool :=
  existsb (fun t => t_id t =? id) (tags d).

Definition has_idea (id : Z) (d : database) : bool :=
  existsb (fun i => i_id i =? id) (ideas d).

Definition has_feedback (id : Z) (d : database) : bool :=
  existsb (fun f => f_id f =? id) (feedbacks d).

Definition pair_eqb (p q : Z * Z) : bool :=
  (fst p =? fst q) && (snd p =? snd q).

Definition pin_eqb (p q : string * Z) : bool :=
  String.eqb (fst p) (fst q) && (snd p =? snd q).

(** [(SELECT id FROM tags WHERE name = $1 LIMIT 1)] as a scalar: NULL when
    no tag has the name. *)
Definition tag_id_of (name : string) (d : database) : option Z :=
  option_map t_id (find (fun t => String.eqb (t_name t) name) (tags d)).

(** A scalar subquery [(SELECT id FROM tags WHERE name = $1)] without
    LIMIT fails when it finds more than one row. *)
Definition scalar_tag_id (name : string) (d : database) : error + option Z :=
  match filter (fun t => String.eqb (t_name t) name) (tags d) with
  | [] => inr None
  | [t] => inr (Some (t_id t))
  | _ => inl cardinality_violation
  end.

Definition mem (x : Z) (l : list Z) : bool := existsb (Z.eqb x) l.
Definition mem_string (x : string) (l : list string) : bool := existsb (String.eqb x) l.

(** [rows] can be added to [table] without breaking its primary key. *)
Fixpoint insertable {A} (eqb : A -> A -> bool) (rows table : list A) : bool :=
  match rows with
  | [] => true
  | r :: rest => negb (existsb (eqb r) table) && insertable eqb rest (table ++ [r])
  end.

(** *** ON DELETE CASCADE *)

Definition cascade_feedbacks (gone : feedback -> bool) (d : database) : database :=
  let removed := map f_id (filter gone (feedbacks d)) in
  with_ideas_feedbacks
    (filter (fun r => negb (mem (snd r) removed)) (ideas_feedbacks d))
    (with_feedbacks (filter (fun f => negb (gone f)) (feedbacks d)) d).

Definition cascade_ideas (gone : idea -> bool) (d : database) : database :=
  let removed := map i_id (filter gone (ideas d)) in
  let d1 := with_ideas (filter (fun i => negb (gone i)) (ideas d)) d in
  let d2 := with_ideas_tags
              (filter (fun r => negb (mem (fst r) removed)) (ideas_tags d1)) d1 in
  let d3 := cascade_feedbacks (fun f => mem (f_idea_id f) removed) d2 in
  with_ideas_feedbacks
    (filter (fun r => negb (mem (fst r) removed)) (ideas_feedbacks d3)) d3.

Definition cascade_users (gone : user -> bool) (d : database) : database :=
  let removed := map u_id (filter gone (users d)) in
  let d1 := with_users (filter (fun u => negb (gone u)) (users d)) d in
  let d2 := with_users_pinned_tags
              (filter (fun r => negb (mem_string (fst r) removed))
                      (users_pinned_tags d1)) d1 in
  let d3 := cascade_ideas (fun i => mem_string (i_user_id i) removed) d2 in
  cascade_feedbacks (fun f => mem_string (f_user_id f) removed) d3.

(** *** routes/tags.ts *)

(** SELECT name FROM tags *)
Definition select_tag_names : stmt (list string) :=
  reading (fun d => map t_name (tags d)).

(** SELECT * FROM tags WHERE name = $1 *)
Definition select_tag (name : string) : stmt (list tag) :=
  reading (fun d => filter (fun t => String.eqb (t_name t) name) (tags d)).

Definition tag_counter (c : counter) (t : tag) : Z :=
  match c with upvotes => t_upvotes t | downvotes => t_downvotes t end.

(** [SET c = c + delta] on one row *)
Definition bump_tag (c : counter) (delta : Z) (t : tag) : tag :=
  match c with
  | upvotes => mk_tag (t_id t) (t_name t) (t_upvotes t + delta) (t_downvotes t)
  | downvotes => mk_tag (t_id t) (t_name t) (t_upvotes t) (t_downvotes t + delta)
  end.

(** UPDATE tags SET c = c + delta WHERE name = $1 RETURNING *
    The sum is an INTEGER: out of range, the statement fails. *)
Definition update_tags_vote (c : counter) (delta : Z) (name : string)
  : stmt (list tag) :=
  fun d =>
    let hit t := String.eqb (t_name t) name in
    if forallb (fun t => int4 (tag_counter c t + delta)) (filter hit (tags d))
    then (inr (map (bump_tag c delta) (filter hit (tags d))),
          with_tags (map (fun t => if hit t then bump_tag c delta t else t) (tags d)) d)
    else (inl numeric_value_out_of_range, d).

(** *** routes/ideas.ts *)

(** The columns of [ideas] that the aggregate query selects and groups by. *)
Record idea_cols := mk_cols {
  c_id : Z;
  c_title : string;
  c_content : string;
  c_user_id : string;
  c_files_url : list string;
  c_access : string;
  c_upvotes : Z;
  c_downvotes : Z }.

Definition cols_of (i : idea) : idea_cols :=
  mk_cols (i_id i) (i_title i) (i_content i) (i_user_id i) (i_files_url i)
          (i_access i) (i_upvotes i) (i_downvotes i).

Definition idea_cols_dec (x y : idea_cols) : {x = y} + {x <> y}.
Proof.
  decide equality;
    solve [apply Z.eq_dec | apply string_dec | apply (list_eq_dec string_dec)].
Defined.

(** One row of the aggregate query: the grouped columns and [tags]. *)
Record idea_with_tags := mk_iwt {
  iw_cols : idea_cols;
  iw_tags : list (option string) }.

(** A row of [ideas i LEFT JOIN ideas_tags it ... LEFT JOIN tags t ...]. *)
Definition idea_joined : Type := (idea * option (Z * Z)) * option tag.

Definition joined_idea (r : idea_joined) : idea := fst (fst r).
Definition joined_tag_name {X} (r : X * option tag) : option string :=
  option_map t_name (snd r).

(** FROM ideas i
    LEFT JOIN ideas_tags it ON i.id = it.idea_id
    LEFT JOIN tags t ON it.tag_id = t.id *)
Definition ideas_joined (d : database) : list idea_joined :=
  Rel.left_join
    (fun (l : idea * option (Z * Z)) (t : tag) =>
       match snd l with
       | Some it => snd it =? t_id t
       | None => false
       end)
    (Rel.left_join (fun (i : idea) (it : Z * Z) => i_id i =? fst it)
                   (ideas d) (ideas_tags d))
    (tags d).

(** SELECT i.id, i.title, i.content, i.user_id,
      COALESCE(ARRAY_AGG(t.name), ARRAY[]::VARCHAR[]) AS tags,
      i.files_url, i.access, i.upvotes, i.downvotes
    FROM (the join above) WHERE [where_]
    GROUP BY i.id, i.title, i.content, i.user_id, i.files_url, i.access,
             i.upvotes, i.downvotes *)
Definition select_ideas_with_tags (where_ : idea_joined -> bool)
  : database -> list idea_with_tags :=
  fun d =>
    map (fun g =>
           mk_iwt (fst g)
                  (Rel.coalesce (Rel.array_agg (map joined_tag_name (snd g))) []))
        (Rel.group_by idea_cols_dec (fun r => cols_of (joined_idea r))
                      (filter where_ (ideas_joined d))).

(** [WHERE t.name = $1]: a NULL name (no tag joined) does not pass. *)
Definition tag_name_is (name : string) (r : idea_joined) : bool :=
  match joined_tag_name r with
  | Some n => String.eqb n name
  | None => false
  end.

(** [(i.access = $1 OR i.access = 'public')] *)
Definition access_is (access : string) (r : idea_joined) : bool :=
  String.eqb (i_access (joined_idea r)) access
  || String.eqb (i_access (joined_idea r)) "public".

(** The WHERE clause that [filter_sql] and [access_sql] put together:
    nothing, [WHERE t.name = ..], [WHERE (i.access ..)] or
    [WHERE t.name = .. AND (i.access ..)]. *)
Definition ideas_where (filter_sql access_sql : option string)
  (r : idea_joined) : bool :=
  match filter_sql, access_sql with
  | None, None => true
  | Some f, None => tag_name_is f r
  | None, Some a => access_is a r
  | Some f, Some a => tag_name_is f r && access_is a r
  end.

(** The listing statement of GET /ideas.  [sort_by_sql] is the fragment
    [ORDER BY i.$n]: its value is a bound parameter, and a parameter is
    not a column reference after [i.], so the statement is rejected. *)
Definition select_ideas_listing (filter_sql access_sql sort_by_sql : option string)
  : stmt (list idea_with_tags) :=
  match sort_by_sql with
  | Some _ => failing (syntax_error "$")
  | None => reading (select_ideas_with_tags (ideas_where filter_sql access_sql))
  end.

(** The same SELECT with [WHERE i.id = $1]. *)
Definition select_idea_with_tags (id : Z) : stmt (list idea_with_tags) :=
  integer id (reading (select_ideas_with_tags (fun r => i_id (joined_idea r) =? id))).

(** INSERT INTO tags (name) VALUES ($1), ($2), ... ON CONFLICT (name) DO NOTHING.
    Every candidate row draws its id from the sequence before the
    conflict check; a row whose name is there already is skipped. *)
Fixpoint insert_tags_rows (names : list string) (ts : list tag) (seq : Z)
  : (error + list tag) * Z :=
  match names with
  | [] => (inr ts, seq)
  | n :: rest =>
      if existsb (fun t => String.eqb (t_name t) n) ts
      then insert_tags_rows rest ts (seq + 1)
      else if existsb (fun t => t_id t =? seq) ts
      then (inl (unique_violation "tags_pkey"), seq + 1)
      else insert_tags_rows rest (ts ++ [mk_tag seq n 0 0]) (seq + 1)
  end.

Definition insert_tags (names : list string) : stmt unit :=
  fun d =>
    let r := insert_tags_rows names (tags d) (tags_id_seq d) in
    match fst r with
    | inl e => (inl e, with_tags_id_seq (snd r) d)
    | inr ts => (inr tt, with_tags ts (with_tags_id_seq (snd r) d))
    end.

(** SELECT id FROM tags WHERE name IN ($1, $2, ...) *)
Definition select_tag_ids (names : list string) : stmt (list Z) :=
  reading (fun d => map t_id (filter (fun t => mem_string (t_name t) names) (tags d))).

(** INSERT INTO ideas (title, content, user_id, files_url, access)
    VALUES ($1, $2, $3, $4, $5) RETURNING * *)
Definition insert_idea (title content user_id : string)
  (files_url : list string) (access : string) : stmt (list idea) :=
  fun d =>
    let id := ideas_id_seq d in
    let d1 := with_ideas_id_seq (id + 1) d in
    let row := mk_idea id title content user_id files_url access 0 0 (clock d) in
    if has_idea id d then (inl (unique_violation "ideas_pkey"), d1)
    else if negb (has_user user_id d)
    then (inl (foreign_key_violation "ideas_user_id_fkey"), d1)
    else (inr [row], with_ideas (ideas d ++ [row]) d1).

(** INSERT INTO ideas_tags (idea_id, tag_id) VALUES ($1, $2), ... *)
Definition insert_ideas_tags (rows : list (Z * Z)) : stmt unit :=
  fun d =>
    if negb (insertable pair_eqb rows (ideas_tags d))
    then (inl (unique_violation "ideas_tags_pkey"), d)
    else if negb (forallb (fun r => has_idea (fst r) d) rows)
    then (inl (foreign_key_violation "ideas_tags_idea_id_fkey"), d)
    else if negb (forallb (fun r => has_tag (snd r) d) rows)
    then (inl (foreign_key_violation "ideas_tags_tag_id_fkey"), d)
    else (inr tt, with_ideas_tags (ideas_tags d ++ rows) d).

(** DELETE FROM ideas WHERE id = $1 RETURNING * *)
Definition delete_idea (id : Z) : stmt (list idea) :=
  integer id (fun d =>
    let gone i := i_id i =? id in
    (inr (filter gone (ideas d)), cascade_ideas gone d)).

Definition idea_counter (c : counter) (i : idea) : Z :=
  match c with upvotes => i_upvotes i | downvotes => i_downvotes i end.

Definition bump_idea (c : counter) (delta : Z) (i : idea) : idea :=
  match c with
  | upvotes =>
      mk_idea (i_id i) (i_title i) (i_content i) (i_user_id i) (i_files_url i)
              (i_access i) (i_upvotes i + delta) (i_downvotes i) (i_created_at i)
  | downvotes =>
      mk_idea (i_id i) (i_title i) (i_content i) (i_user_id i) (i_files_url i)
              (i_access i) (i_upvotes i) (i_downvotes i + delta) (i_created_at i)
  end.

(** UPDATE ideas SET c = c + delta WHERE id = $1 RETURNING * *)
Definition update_ideas_vote (c : counter) (delta : Z) (id : Z) : stmt (list idea) :=
  integer id (fun d =>
    let hit i := i_id i =? id in
    if forallb (fun i => int4 (idea_counter c i + delta)) (filter hit (ideas d))
    then (inr (map (bump_idea c delta) (filter hit (ideas d))),
          with_ideas (map (fun i => if hit i then bump_idea c delta i else i) (ideas d)) d)
    else (inl numeric_value_out_of_range, d)).

Definition set_files_url (v : list string) (i : idea) : idea :=
  mk_idea (i_id i) (i_title i) (i_content i) (i_user_id i) v
          (i_access i) (i_upvotes i) (i_downvotes i) (i_created_at i).

(** UPDATE ideas SET files_url = f(files_url, $1) WHERE id = $2 RETURNING *
    with [f] one of [array_append], [array_remove]. *)
Definition update_ideas_files (f : list string -> string -> list string)
  (file_url : string) (id : Z) : stmt (list idea) :=
  integer id (fun d =>
    let hit i := i_id i =? id in
    let upd i := set_files_url (f (i_files_url i) file_url) i in
    (inr (map upd (filter hit (ideas d))),
     with_ideas (map (fun i => if hit i then upd i else i) (ideas d)) d)).

(** SELECT * FROM ideas WHERE user_id = $1 ORDER BY created_at DESC *)
Fixpoint insert_desc {A} (at_ : A -> Z) (x : A) (l : list A) : list A :=
  match l with
  | [] => [x]
  | y :: l' => if at_ y <? at_ x then x :: l else y :: insert_desc at_ x l'
  end.

Definition order_desc {A} (at_ : A -> Z) (l : list A) : list A :=
  fold_right (insert_desc at_) [] l.

Definition select_ideas_by_user (user_id : string) : stmt (list idea) :=
  reading (fun d =>
    order_desc i_created_at
      (filter (fun i => String.eqb (i_user_id i) user_id) (ideas d))).

(** INSERT INTO ideas_tags VALUES ($1, (SELECT id FROM tags WHERE name = $2))
    RETURNING * *)
Definition insert_idea_tag (id : Z) (name : string) : stmt (list (Z * Z)) :=
  integer id (fun d =>
    match scalar_tag_id name d with
    | inl e => (inl e, d)
    | inr None => (inl (not_null_violation "tag_id"), d)
    | inr (Some tid) =>
        if existsb (pair_eqb (id, tid)) (ideas_tags d)
        then (inl (unique_violation "ideas_tags_pkey"), d)
        else if negb (has_idea id d)
        then (inl (foreign_key_violation "ideas_tags_idea_id_fkey"), d)
        else (inr [(id, tid)], with_ideas_tags (ideas_tags d ++ [(id, tid)]) d)
    end).

(** DELETE FROM ideas_tags
    WHERE idea_id = $1 AND tag_id = (SELECT id FROM tags WHERE name = $2) *)
Definition delete_idea_tag (id : Z) (name : string) : stmt unit :=
  integer id (fun d =>
    match scalar_tag_id name d with
    | inl e => (inl e, d)
    | inr None => (inr tt, d)
    | inr (Some tid) =>
        (inr tt,
         with_ideas_tags
           (filter (fun r => negb (pair_eqb r (id, tid))) (ideas_tags d)) d)
    end).

(** *** routes/users.ts *)

Definition user_dec (x y : user) : {x = y} + {x <> y}.
Proof. decide equality; apply string_dec. Defined.

Record user_with_tags := mk_uwt {
  uw_user : user;
  uw_pinned_tags : list (option string) }.

Definition user_joined : Type := (user * option (string * Z)) * option tag.

(** FROM users u
    LEFT JOIN users_pinned_tags upt ON u.id = upt.user_id
    LEFT JOIN tags t ON upt.tag_id = t.id *)
Definition users_joined (d : database) : list user_joined :=
  Rel.left_join
    (fun (l : user * option (string * Z)) (t : tag) =>
       match snd l with
       | Some upt => snd upt =? t_id t
       | None => false
       end)
    (Rel.left_join (fun (u : user) (upt : string * Z) => String.eqb (u_id u) (fst upt))
                   (users d) (users_pinned_tags d))
    (tags d).

(** SELECT u.id, u.name, u.email, u.role, u.image_url,
      COALESCE(ARRAY_AGG(t.name), ARRAY[]::VARCHAR[]) AS pinned_tags
    FROM (the join above) WHERE [where_]
    GROUP BY u.id, u.name, u.email, u.role, u.image_url *)
Definition select_users_with_tags (where_ : user_joined -> bool)
  : database -> list user_with_tags :=
  fun d =>
    map (fun g =>
           mk_uwt (fst g)
                  (Rel.coalesce (Rel.array_agg (map joined_tag_name (snd g))) []))
        (Rel.group_by user_dec (fun r : user_joined => fst (fst r))
                      (filter where_ (users_joined d))).

Definition select_users : stmt (list user_with_tags) :=
  reading (select_users_with_tags (fun _ => true)).

(** ... WHERE u.id = $1 ... *)
Definition select_user (id : string) : stmt (list user_with_tags) :=
  reading (select_users_with_tags (fun r => String.eqb (u_id (fst (fst r))) id)).

(** INSERT INTO users (id, name, email, role, image_url)
    VALUES ($1, $2, $3, $4, $5) RETURNING * *)
Definition insert_user (u : user) : stmt (list user) :=
  fun d =>
    if has_user (u_id u) d then (inl (unique_violation "users_pkey"), d)
    else (inr [u], with_users (users d ++ [u]) d).

(** UPDATE users SET name = $1, email = $2, role = $3, image_url = $4
    WHERE id = $5 RETURNING * *)
Definition update_user (id name email role image_url : string) : stmt (list user) :=
  fun d =>
    let hit u := String.eqb (u_id u) id in
    let upd u := mk_user (u_id u) name email role image_url in
    (inr (map upd (filter hit (users d))),
     with_users (map (fun u => if hit u then upd u else u) (users d)) d).

(** DELETE FROM users WHERE id = $1 RETURNING * *)
Definition delete_user (id : string) : stmt (list user) :=
  fun d =>
    let gone u := String.eqb (u_id u) id in
    (inr (filter gone (users d)), cascade_users gone d).

(** WITH inserted_tag AS (
      INSERT INTO tags (name) VALUES ($1) ON CONFLICT DO NOTHING RETURNING id)
    INSERT INTO users_pinned_tags (user_id, tag_id)
    SELECT $2, COALESCE((SELECT id FROM inserted_tag),
                        (SELECT id FROM tags WHERE name = $1 LIMIT 1))
    WHERE NOT EXISTS (
      SELECT 1 FROM users_pinned_tags
      WHERE user_id = $2
        AND tag_id = (SELECT id FROM tags WHERE name = $1 LIMIT 1))
    RETURNING *

    The WITH insert draws its id first and is skipped on any conflict.
    The outer statement reads [tags] as it was before the WITH insert
    (both parts run on one snapshot); what the WITH part inserted reaches
    it through [inserted_tag] only. *)
Definition link_user_tag (user_id name : string) : stmt (list (string * Z)) :=
  fun d =>
    let seq := tags_id_seq d in
    let d0 := with_tags_id_seq (seq + 1) d in
    let conflict :=
      existsb (fun t => String.eqb (t_name t) name || (t_id t =? seq)) (tags d) in
    let inserted_tag := if conflict then [] else [mk_tag seq name 0 0] in
    let existing := tag_id_of name d in
    let tag_id := Rel.coalesce2 (option_map t_id (head inserted_tag)) existing in
    let not_exists :=
      match existing with
      | None => true
      | Some tid => negb (existsb (pin_eqb (user_id, tid)) (users_pinned_tags d))
      end in
    if not_exists then
      match tag_id with
      | None => (inl (not_null_violation "tag_id"), d0)
      | Some tid =>
          if existsb (pin_eqb (user_id, tid)) (users_pinned_tags d)
          then (inl (unique_violation "users_pinned_tags_pkey"), d0)
          else if negb (has_user user_id d)
          then (inl (foreign_key_violation "users_pinned_tags_user_id_fkey"), d0)
          else (inr [(user_id, tid)],
                with_users_pinned_tags (users_pinned_tags d ++ [(user_id, tid)])
                  (with_tags (tags d ++ inserted_tag) d0))
      end
    else (inr [], with_tags (tags d ++ inserted_tag) d0).

(** DELETE FROM users_pinned_tags
    WHERE user_id = $1
      AND tag_id = (SELECT id FROM tags WHERE name = $2 LIMIT 1)
    RETURNING * *)
Definition unlink_user_tag (user_id name : string) : stmt (list (string * Z)) :=
  fun d =>
    match tag_id_of name d with
    | None => (inr [], d)
    | Some tid =>
        let hit r := pin_eqb r (user_id, tid) in
        (inr (filter hit (users_pinned_tags d)),
         with_users_pinned_tags
           (filter (fun r => negb (hit r)) (users_pinned_tags d)) d)
    end.

(** *** routes/groups.ts *)

(** SELECT * FROM user_groups $1 -- the handler hands its ORDER BY text
    (or the empty string) to the template as a value, so it travels as
    the parameter $1; a parameter cannot follow the table name. *)
Definition select_groups_listing (sort_by_sql : string) : stmt (list user_group) :=
  failing (syntax_error "$1").

(** INSERT INTO user_groups (title, description, user_id, likes)
    VALUES ($1, $2, $3, $4) RETURNING * *)
Definition insert_group (title description : string) (user_id : list string)
  (likes : Z) : stmt (list user_group) :=
  integer likes (fun d =>
    let id := user_groups_id_seq d in
    let d1 := with_user_groups_id_seq (id + 1) d in
    let row := mk_group id title description user_id likes in
    if existsb (fun g => g_id g =? id) (user_groups d)
    then (inl (unique_violation "user_groups_pkey"), d1)
    else (inr [row], with_user_groups (user_groups d ++ [row]) d1)).

(** SELECT * FROM user_groups WHERE id = $1 *)
Definition select_group (id : Z) : stmt (list user_group) :=
  integer id (reading (fun d => filter (fun g => g_id g =? id) (user_groups d))).

(** UPDATE user_groups SET title = $1, description = $2, user_id = $3,
    likes = $4 WHERE id = $5 RETURNING * *)
Definition update_group (id : Z) (title description : string)
  (user_id : list string) (likes : Z) : stmt (list user_group) :=
  integers [likes; id] (fun d =>
    let hit g := g_id g =? id in
    let upd g := mk_group (g_id g) title description user_id likes in
    (inr (map upd (filter hit (user_groups d))),
     with_user_groups (map (fun g => if hit g then upd g else g) (user_groups d)) d)).

(** DELETE FROM user_groups WHERE id = $1 *)
Definition delete_group (id : Z) : stmt unit :=
  integer id (fun d =>
    (inr tt, with_user_groups (filter (fun g => negb (g_id g =? id)) (user_groups d)) d)).

Definition set_members (v : list string) (g : user_group) : user_group :=
  mk_group (g_id g) (g_title g) (g_description g) v (g_likes g).

(** UPDATE user_groups SET user_id = f(user_id, $1) WHERE id = $2
    with [f] one of [array_append], [array_remove]. *)
Definition update_group_members (f : list string -> string -> list string)
  (user_id : string) (id : Z) : stmt unit :=
  integer id (fun d =>
    (inr tt,
     with_user_groups
       (map (fun g => if g_id g =? id then set_members (f (g_user_id g) user_id) g else g)
            (user_groups d)) d)).

(** *** routes/feedbacks.ts *)

(** SELECT * FROM feedbacks *)
Definition select_feedbacks : stmt (list feedback) := reading feedbacks.

(** SELECT * FROM feedbacks WHERE id = $1 *)
Definition select_feedback (id : Z) : stmt (list feedback) :=
  integer id (reading (fun d => filter (fun f => f_id f =? id) (feedbacks d))).

(** INSERT INTO feedbacks (idea_id, user_id, content, files_url,
      feedback_links, user_tag, upvotes, downvotes)
    VALUES ($1, ..., $8) RETURNING * *)
Definition insert_feedback (idea_id : Z) (user_id content : string)
  (files_url : list string) (feedback_links : list Z) (user_tag : option string)
  (up down : Z) : stmt (list feedback) :=
  integers (idea_id :: feedback_links ++ [up; down]) (fun d =>
    let id := feedbacks_id_seq d in
    let d1 := with_feedbacks_id_seq (id + 1) d in
    let row := mk_feedback id idea_id user_id content files_url feedback_links
                           user_tag up down (clock d) in
    if has_feedback id d then (inl (unique_violation "feedbacks_pkey"), d1)
    else if negb (has_idea idea_id d)
    then (inl (foreign_key_violation "feedbacks_idea_id_fkey"), d1)
    else if negb (has_user user_id d)
    then (inl (foreign_key_violation "feedbacks_user_id_fkey"), d1)
    else (inr [row], with_feedbacks (feedbacks d ++ [row]) d1)).

(** INSERT INTO ideas_feedbacks (idea_id, feedback_id) VALUES ($1, $2) *)
Definition insert_ideas_feedbacks (idea_id feedback_id : Z) : stmt unit :=
  integers [idea_id; feedback_id] (fun d =>
    if existsb (pair_eqb (idea_id, feedback_id)) (ideas_feedbacks d)
    then (inl (unique_violation "ideas_feedbacks_pkey"), d)
    else if negb (has_idea idea_id d)
    then (inl (foreign_key_violation "ideas_feedbacks_idea_id_fkey"), d)
    else if negb (has_feedback feedback_id d)
    then (inl (foreign_key_violation "ideas_feedbacks_feedback_id_fkey"), d)
    else (inr tt, with_ideas_feedbacks (ideas_feedbacks d ++ [(idea_id, feedback_id)]) d)).

(** UPDATE feedbacks SET idea_id = $1, user_id = $2, content = $3,
      files_url = $4, feedback_links = $5, user_tag = $6, upvotes = $7,
      downvotes = $8 WHERE id = $9 RETURNING * *)
Definition update_feedback (id idea_id : Z) (user_id content : string)
  (files_url : list string) (feedback_links : list Z) (user_tag : option string)
  (up down : Z) : stmt (list feedback) :=
  integers (idea_id :: feedback_links ++ [up; down; id]) (fun d =>
    let hit f := f_id f =? id in
    let upd f := mk_feedback (f_id f) idea_id user_id content files_url
                             feedback_links user_tag up down (f_created_at f) in
    if negb (existsb hit (feedbacks d)) then (inr [], d)
    else if negb (has_idea idea_id d)
    then (inl (foreign_key_violation "feedbacks_idea_id_fkey"), d)
    else if negb (has_user user_id d)
    then (inl (foreign_key_violation "feedbacks_user_id_fkey"), d)
    else (inr (map upd (filter hit (feedbacks d))),
          with_feedbacks (map (fun f => if hit f then upd f else f) (feedbacks d)) d)).

(** DELETE FROM feedbacks WHERE id = $1 *)
Definition delete_feedback (id : Z) : stmt unit :=
  integer id (fun d => (inr tt, cascade_feedbacks (fun f => f_id f =? id) d)).

(** DELETE FROM ideas_feedbacks WHERE feedback_id = $1 *)
Definition delete_ideas_feedbacks (feedback_id : Z) : stmt unit :=
  integer feedback_id (fun d =>
    (inr tt,
     with_ideas_feedbacks
       (filter (fun r => negb (snd r =? feedback_id)) (ideas_feedbacks d)) d)).

(** SELECT * FROM feedbacks WHERE user_id = $1 ORDER BY created_at DESC *)
Definition select_feedbacks_by_user (user_id : string) : stmt (list feedback) :=
  reading (fun d =>
    order_desc f_created_at
      (filter (fun f => String.eqb (f_user_id f) user_id) (feedbacks d))).

Definition feedback_counter (c : counter) (f : feedback) : Z :=
  match c with upvotes => f_upvotes f | downvotes => f_downvotes f end.

Definition bump_feedback (c : counter) (delta : Z) (f : feedback) : feedback :=
  match c with
  | upvotes =>
      mk_feedback (f_id f) (f_idea_id f) (f_user_id f) (f_content f) (f_files_url f)
                  (f_feedback_links f) (f_user_tag f) (f_upvotes f + delta)
                  (f_downvotes f) (f_created_at f)
  | downvotes =>
      mk_feedback (f_id f) (f_idea_id f) (f_user_id f) (f_content f) (f_files_url f)
                  (f_feedback_links f) (f_user_tag f) (f_upvotes f)
                  (f_downvotes f + delta) (f_created_at f)
  end.

(** UPDATE feedbacks SET c = c + delta WHERE id = $1 *)
Definition update_feedbacks_vote (c : counter) (delta : Z) (id : Z) : stmt unit :=
  integer id (fun d =>
    let hit f := f_id f =? id in
    if forallb (fun f => int4 (feedback_counter c f + delta)) (filter hit (feedbacks d))
    then (inr tt,
          with_feedbacks
            (map (fun f => if hit f then bump_feedback c delta f else f) (feedbacks d)) d)
    else (inl numeric_value_out_of_range, d)).

End Pg.

(* ================================================================== *)
(** * Handlers: exceptions, the two stores, responses *)

Module Hono.

(** What a handler can throw. *)
Inductive exn : Type :=
| HTTPException (status : Z) (message : string)
| PostgresError (e : Pg.error)
| TypeError (message : string)
| Error_ (message : string).

(** What [parseBody()] gives for an uploaded file: a [File], or for an
    empty upload a Blob that has no [name]. *)
Record file := mk_file { file_name : option string; file_bytes : string }.

(** Everything outside the process: the entity store, the object store
    (key to content), the bucket name of the environment, and the list of
    requests sent to either store so far. *)
Record world := mk_world {
  db : Pg.database;
  s3 : list (string * string);
  AWS_BUCKET_NAME : string;
  sent : list string }.

Record response := mk_response {
  status : Z;
  body : option Js.value }.   (* [None]: [c.body(null, ..)] *)

Definition handler (A : Type) : Type := world -> (exn + A) * world.

Definition ret {A} (a : A) : handler A := fun w => (inr a, w).

Definition throw {A} (e : exn) : handler A := fun w => (inl e, w).

Definition bind {A B} (m : handler A) (k : A -> handler B) : handler B :=
  fun w =>
    match m w with
    | (inl e, w') => (inl e, w')
    | (inr a, w') => k a w'
    end.

Declare Scope handler_scope.
Delimit Scope handler_scope with handler.
Notation "x <- m ;; k" := (bind m (fun x => k))
  (at level 61, m at next level, right associativity) : handler_scope.
Notation "m ;; k" := (bind m (fun _ => k))
  (at level 61, right associativity) : handler_scope.
Open Scope handler_scope.

(** [await sql`...`]: the statement goes to the store; a store error is
    thrown as an exception. *)
Definition sql {A} (text : string) (q : Pg.stmt A) : handler A :=
  fun w =>
    let r := q (db w) in
    let w' := mk_world (snd r) (s3 w) (AWS_BUCKET_NAME w) (sent w ++ [text]) in
    match fst r with
    | inl e => (inl (PostgresError e), w')
    | inr a => (inr a, w')
    end.

(** A statement built with the [sql(rows)] helper: the helper reads the
    column names off the first row, so with no row at all building the
    statement throws and nothing is sent. *)
Definition sql_rows {A B} (text : string) (rows : list A)
  (q : list A -> Pg.stmt B) : handler B :=
  match rows with
  | [] => throw (TypeError "Cannot convert undefined or null to object")
  | _ => sql text (q rows)
  end.

Fixpoint put (k v : string) (o : list (string * string)) : list (string * string) :=
  match o with
  | [] => [(k, v)]
  | (k', v') :: o' => if String.eqb k k' then (k, v) :: o' else (k', v') :: put k v o'
  end.

(** [await s3.file(key).write(bytes)] *)
Definition s3_write (key bytes : string) : handler unit :=
  fun w => (inr tt, mk_world (db w) (put key bytes (s3 w)) (AWS_BUCKET_NAME w)
                             (sent w ++ ["s3 write"])).

(** [await s3.file(key).delete()] *)
Definition s3_delete (key : string) : handler unit :=
  fun w => (inr tt,
            mk_world (db w) (filter (fun o => negb (String.eqb (fst o) key)) (s3 w))
                     (AWS_BUCKET_NAME w) (sent w ++ ["s3 delete"])).

(** [env(c).AWS_BUCKET_NAME] *)
Definition env_bucket : handler string := fun w => (inr (AWS_BUCKET_NAME w), w).

(** ** The [sql] tagged template

    A template is its literal text and the values of its [${...}] holes.
    A hole holding a string or a number is sent as a bound parameter
    ([$1], [$2], ...); a hole holding another [sql`...`] fragment is
    spliced in, its own holes following the same rule. *)
Inductive piece : Type :=
| Lit (text : string)
| Bound (v : string).

Definition template : Type := list piece.

Fixpoint text_from (n : nat) (t : template) : string :=
  match t with
  | [] => ""
  | Lit s :: t' => s ++ text_from n t'
  | Bound _ :: t' =>
      "$" ++ NilZero.string_of_uint (Nat.to_uint n) ++ text_from (S n) t'
  end.

(** The statement text that reaches the store. *)
Definition text (t : template) : string := text_from 1 t.

(** The parameter values sent next to it. *)
Fixpoint parameters (t : template) : list string :=
  match t with
  | [] => []
  | Lit _ :: t' => parameters t'
  | Bound v :: t' => v :: parameters t'
  end.

(** [c.json(v)], [c.body(null, 200)] *)
Definition json (v : Js.value) : handler response := ret (mk_response 200 (Some v)).
Definition empty200 : handler response := ret (mk_response 200 None).

(** [rows[0]] once encoded: [undefined] on no row. *)
Definition first {A} (enc : A -> Js.value) (rows : list A) : Js.value :=
  match rows with
  | [] => Js.Undefined
  | r :: _ => enc r
  end.

(** ** Rows as the objects the driver returns *)

Definition tag_json (t : Pg.tag) : Js.value :=
  Js.Obj [("id", Js.Num (Pg.t_id t)); ("name", Js.Str (Pg.t_name t));
          ("upvotes", Js.Num (Pg.t_upvotes t));
          ("downvotes", Js.Num (Pg.t_downvotes t))].

Definition idea_json (i : Pg.idea) : Js.value :=
  Js.Obj [("id", Js.Num (Pg.i_id i)); ("title", Js.Str (Pg.i_title i));
          ("content", Js.Str (Pg.i_content i));
          ("user_id", Js.Str (Pg.i_user_id i));
          ("files_url", Js.strings (Pg.i_files_url i));
          ("access", Js.Str (Pg.i_access i));
          ("upvotes", Js.Num (Pg.i_upvotes i));
          ("downvotes", Js.Num (Pg.i_downvotes i));
          ("created_at", Js.Num (Pg.i_created_at i))].

(** A TEXT[] value as the driver parses it: the text of an unquoted
    element is returned as it stands, so a NULL element arrives as the
    string "NULL". *)
Definition array_element (o : option string) : Js.value :=
  Js.Str (match o with Some s => s | None => "NULL" end).

Definition names_json (l : list (option string)) : Js.value :=
  Js.Arr (map array_element l).

Definition idea_with_tags_json (r : Pg.idea_with_tags) : Js.value :=
  let c := Pg.iw_cols r in
  Js.Obj [("id", Js.Num (Pg.c_id c)); ("title", Js.Str (Pg.c_title c));
          ("content", Js.Str (Pg.c_content c));
          ("user_id", Js.Str (Pg.c_user_id c));
          ("tags", names_json (Pg.iw_tags r));
          ("files_url", Js.strings (Pg.c_files_url c));
          ("access", Js.Str (Pg.c_access c));
          ("upvotes", Js.Num (Pg.c_upvotes c));
          ("downvotes", Js.Num (Pg.c_downvotes c))].

Definition user_json (u : Pg.user) : Js.value :=
  Js.Obj [("id", Js.Str (Pg.u_id u)); ("name", Js.Str (Pg.u_name u));
          ("email", Js.Str (Pg.u_email u)); ("role", Js.Str (Pg.u_role u));
          ("image_url", Js.Str (Pg.u_image_url u))].

Definition user_with_tags_json (r : Pg.user_with_tags) : Js.value :=
  let u := Pg.uw_user r in
  Js.Obj [("id", Js.Str (Pg.u_id u)); ("name", Js.Str (Pg.u_name u));
          ("email", Js.Str (Pg.u_email u)); ("role", Js.Str (Pg.u_role u));
          ("image_url", Js.Str (Pg.u_image_url u));
          ("pinned_tags", names_json (Pg.uw_pinned_tags r))].

Definition group_json (g : Pg.user_group) : Js.value :=
  Js.Obj [("id", Js.Num (Pg.g_id g)); ("title", Js.Str (Pg.g_title g));
          ("description", Js.Str (Pg.g_description g));
          ("user_id", Js.strings (Pg.g_user_id g));
          ("likes", Js.Num (Pg.g_likes g))].

Definition feedback_json (f : Pg.feedback) : Js.value :=
  Js.Obj [("id", Js.Num (Pg.f_id f)); ("idea_id", Js.Num (Pg.f_idea_id f));
          ("user_id", Js.Str (Pg.f_user_id f));
          ("content", Js.Str (Pg.f_content f));
          ("files_url", Js.strings (Pg.f_files_url f));
          ("feedback_links", Js.nums (Pg.f_feedback_links f));
          ("user_tag", Js.opt_string (Pg.f_user_tag f));
          ("upvotes", Js.Num (Pg.f_upvotes f));
          ("downvotes", Js.Num (Pg.f_downvotes f));
          ("created_at", Js.Num (Pg.f_created_at f))].

End Hono.

Import Hono.
Open Scope handler_scope.

(* ================================================================== *)
(** * routes/tags.ts *)

Module Tags.

(** GET /tags *)
Definition all : handler response :=
  rows <- sql "SELECT name FROM tags" Pg.select_tag_names ;;
  json (Js.Arr (map (fun n => Js.Obj [("name", Js.Str n)]) rows)).

(** GET /tags/:name *)
Definition get (name : string) : handler response :=
  rows <- sql "SELECT * FROM tags WHERE name = $1" (Pg.select_tag name) ;;
  match rows with
  | [] => throw (HTTPException 404 "Tag not found")
  | _ => json (first tag_json rows)
  end.

(** The four vote routes have one body, up to the column and the sign. *)
Definition vote (c : Pg.counter) (delta : Z) (name : string) : handler response :=
  rows <- sql "UPDATE tags SET c = c + d WHERE name = $1 RETURNING *"
              (Pg.update_tags_vote c delta name) ;;
  match rows with
  | [] => throw (HTTPException 404 "Tag not found")
  | _ => empty200
  end.

(** POST /tags/up/:name, POST /tags/down/:name,
    DELETE /tags/up/:name, DELETE /tags/down/:name *)
Definition up := vote Pg.upvotes 1.
Definition down := vote Pg.downvotes 1.
Definition remove_up := vote Pg.upvotes (-1).
Definition remove_down := vote Pg.downvotes (-1).

End Tags.

(* ================================================================== *)
(** * routes/ideas.ts *)

Module Ideas.

(** The body accepted by [ideasSchemaWithTags] (the optional [id] is not
    read by any handler). *)
Record body := mk_body {
  title : string;
  content : string;
  user_id : string;
  files_url : list string;
  access : string;
  upvotes : Z;
  downvotes : Z;
  tags : list string }.

(** The examples the query schema documents for [sort_by]. *)
Definition sort_by_examples : list string := ["upvotes"; "downvotes"; "title"].

(** [access?.startsWith("private:") || access?.startsWith("group:")] *)
Definition restricted (access : option string) : bool :=
  match access with
  | Some a => String.prefix "private:" a || String.prefix "group:" a
  | None => false
  end.

(** [sort_by ? sql`ORDER BY i.${sort_by}` : sql``] *)
Definition sort_by_sql (sort_by : option string) : template :=
  match sort_by with
  | Some s => if Js.truthy_string s then [Lit "ORDER BY i."; Bound s] else []
  | None => []
  end.

(** [filter ? sql`WHERE t.name = ${filter}` : sql``] *)
Definition filter_sql (filter : option string) : template :=
  match filter with
  | Some f => if Js.truthy_string f then [Lit "WHERE t.name = "; Bound f] else []
  | None => []
  end.

Definition access_sql (filter access : option string) : template :=
  match access with
  | Some a =>
      if restricted access then
        if Js.truthy filter
        then [Lit "AND (i.access = "; Bound a; Lit " OR i.access = 'public')"]
        else [Lit "WHERE (i.access = "; Bound a; Lit " OR i.access = 'public')"]
      else []
  | None => []
  end.

(** The fixed text of the statement, its line breaks written as blanks. *)
Definition select_from : string :=
  "SELECT i.id, i.title, i.content, i.user_id, COALESCE( ARRAY_AGG(t.name), ARRAY[]::VARCHAR[] ) AS tags, i.files_url, i.access, i.upvotes, i.downvotes FROM ideas i LEFT JOIN ideas_tags it ON i.id = it.idea_id LEFT JOIN tags t ON it.tag_id = t.id ".

Definition group_by_clause : string :=
  " GROUP BY i.id, i.title, i.content, i.user_id, i.files_url, i.access, i.upvotes, i.downvotes ".

(** The template of GET /ideas. *)
Definition listing_sql (sort_by filter access : option string) : template :=
  ([Lit select_from] ++ filter_sql filter ++ [Lit " "] ++ access_sql filter access
   ++ [Lit group_by_clause] ++ sort_by_sql sort_by ++ [Lit ";"])%list.

Definition given (o : option string) : option string :=
  match o with
  | Some s => if Js.truthy_string s then Some s else None
  | None => None
  end.

(** GET /ideas *)
Definition all (sort_by filter access : option string) : handler response :=
  rows <- sql (text (listing_sql sort_by filter access))
              (Pg.select_ideas_listing (given filter)
                 (if restricted access then access else None)
                 (given sort_by)) ;;
  json (Js.Arr (map idea_with_tags_json rows)).

(** POST /ideas *)
Definition create (b : body) : handler response :=
  sql_rows "INSERT INTO tags (name) VALUES .. ON CONFLICT (name) DO NOTHING"
           (tags b) Pg.insert_tags ;;
  rows1 <- sql "SELECT id FROM tags WHERE name IN (..)" (Pg.select_tag_ids (tags b)) ;;
  rows2 <- sql "INSERT INTO ideas (title, content, user_id, files_url, access) VALUES ($1, $2, $3, $4, $5) RETURNING *"
               (Pg.insert_idea (title b) (content b) (user_id b) (files_url b) (access b)) ;;
  match rows2 with
  | row :: _ =>
      if Js.truthy_num (Pg.i_id row) then
        let tagIds := map (fun tag_id => (Pg.i_id row, tag_id)) rows1 in
        sql_rows "INSERT INTO ideas_tags (idea_id, tag_id) VALUES .."
                 tagIds Pg.insert_ideas_tags ;;
        json (Js.spread_with (idea_json row) "tags" (Js.strings (tags b)))
      else throw (HTTPException 400 "Failed to create idea")
  | [] => throw (HTTPException 400 "Failed to create idea")
  end.

(** GET /ideas/:id *)
Definition get (id : Z) : handler response :=
  rows <- sql "SELECT .. WHERE i.id = $1 GROUP BY .." (Pg.select_idea_with_tags id) ;;
  json (first idea_with_tags_json rows).

(** DELETE /ideas/:id *)
Definition delete (id : Z) : handler response :=
  rows <- sql "DELETE FROM ideas WHERE id = $1 RETURNING *" (Pg.delete_idea id) ;;
  json (first idea_json rows).

(** POST and DELETE on /ideas/up/:id and /ideas/down/:id have one body,
    up to the column and the sign. *)
Definition vote (c : Pg.counter) (delta : Z) (id : Z) : handler response :=
  rows <- sql "UPDATE ideas SET c = c + d WHERE id = $1 RETURNING *"
              (Pg.update_ideas_vote c delta id) ;;
  json (first idea_json rows).

Definition up := vote Pg.upvotes 1.
Definition down := vote Pg.downvotes 1.
Definition remove_up := vote Pg.upvotes (-1).
Definition remove_down := vote Pg.downvotes (-1).

(** GET /ideas/user/:user_id *)
Definition by_user (user_id : string) : handler response :=
  rows <- sql "SELECT * FROM ideas WHERE user_id = $1 ORDER BY created_at DESC"
              (Pg.select_ideas_by_user user_id) ;;
  json (Js.Arr (map idea_json rows)).

(** [`${id}/${file.name}`]: a missing [name] is written [undefined];
    reading [name] off a missing file throws. *)
Definition file_key (id : Z) (f : option file) : handler string :=
  match f with
  | Some f =>
      ret (NilZero.string_of_int (Z.to_int id) ++ "/"
           ++ match file_name f with Some n => n | None => "undefined" end)
  | None => throw (TypeError "undefined is not an object")
  end.

Definition file_url (bucket key : string) : string :=
  "https://" ++ bucket ++ ".fly.storage.tigris.dev/" ++ key.

(** POST /ideas/file/:id *)
Definition add_file (id : Z) (f : option file) : handler response :=
  bucket <- env_bucket ;;
  key <- file_key id f ;;
  s3_write key (match f with Some f => file_bytes f | None => "" end) ;;
  rows <- sql "UPDATE ideas SET files_url = array_append(files_url, $1) WHERE id = $2 RETURNING *"
              (Pg.update_ideas_files Rel.array_append (file_url bucket key) id) ;;
  json (first idea_json rows).

(** DELETE /ideas/file/:id *)
Definition remove_file (id : Z) (f : option file) : handler response :=
  bucket <- env_bucket ;;
  key <- file_key id f ;;
  s3_delete key ;;
  rows <- sql "UPDATE ideas SET files_url = array_remove(files_url, $1) WHERE id = $2 RETURNING *"
              (Pg.update_ideas_files Rel.array_remove (file_url bucket key) id) ;;
  json (first idea_json rows).

(** POST /ideas/:id/:tag *)
Definition add_tag (id : Z) (tag : string) : handler response :=
  sql "INSERT INTO ideas_tags VALUES ($1, (SELECT id FROM tags WHERE name = $2 )) RETURNING *"
      (Pg.insert_idea_tag id tag) ;;
  empty200.

(** DELETE /ideas/tag/:id *)
Definition remove_tag (id : Z) (tag : string) : handler response :=
  sql "DELETE FROM ideas_tags WHERE idea_id = $1 AND tag_id = (SELECT id FROM tags WHERE name = $2)"
      (Pg.delete_idea_tag id tag) ;;
  empty200.

End Ideas.

(* ================================================================== *)
(** * routes/users.ts *)

Module Users.

(** GET /users *)
Definition all : handler response :=
  rows <- sql "SELECT .. FROM users u LEFT JOIN .. GROUP BY .." Pg.select_users ;;
  json (Js.Arr (map user_with_tags_json rows)).

(** POST /users *)
Definition create (u : Pg.user) : handler response :=
  rows <- sql "INSERT INTO users (id, name, email, role, image_url) VALUES ($1, $2, $3, $4, $5) RETURNING *"
              (Pg.insert_user u) ;;
  json (first user_json rows).

(** PUT /users/:id ([id] of the path, the other fields of the body) *)
Definition update (id : string) (u : Pg.user) : handler response :=
  rows <- sql "UPDATE users SET name = $1, email = $2, role = $3, image_url = $4 WHERE id = $5 RETURNING *"
              (Pg.update_user id (Pg.u_name u) (Pg.u_email u) (Pg.u_role u)
                              (Pg.u_image_url u)) ;;
  match rows with
  | [] => throw (HTTPException 404 "User not found")
  | _ => json (first user_json rows)
  end.

(** DELETE /users/:id *)
Definition delete (id : string) : handler response :=
  rows <- sql "DELETE FROM users WHERE id = $1 RETURNING *" (Pg.delete_user id) ;;
  match rows with
  | [] => throw (HTTPException 404 "User not found")
  | _ => empty200
  end.

(** [{ ...rows[0], pinned_tags: Object(rows[0]?.pinned_tags).items ?? [] }] *)
Definition transformedUser (row : Js.value) : Js.value :=
  Js.spread_with row "pinned_tags"
    (Js.nullish
       (Js.get_items
          (Js.Object_
             (match row with
              | Js.Obj fs => Js.lookup "pinned_tags" fs
              | _ => Js.Undefined
              end)))
       (Js.Arr [])).

(** GET /users/:id *)
Definition get (id : string) : handler response :=
  rows <- sql "SELECT .. FROM users u LEFT JOIN .. WHERE u.id = $1 GROUP BY .."
              (Pg.select_user id) ;;
  match rows with
  | [] => throw (HTTPException 404 "User not found")
  | _ => json (transformedUser (first user_with_tags_json rows))
  end.

(** POST /user/:user_id/:tag *)
Definition add_tag (user_id tag : string) : handler response :=
  rows <- sql "WITH inserted_tag AS (INSERT INTO tags ..) INSERT INTO users_pinned_tags .. WHERE NOT EXISTS (..) RETURNING *"
              (Pg.link_user_tag user_id tag) ;;
  match rows with
  | [] => throw (HTTPException 404 "Either user or tag not found")
  | _ => empty200
  end.

(** DELETE /user/:user_id/:tag *)
Definition remove_tag (user_id tag : string) : handler response :=
  rows <- sql "DELETE FROM users_pinned_tags WHERE user_id = $1 AND tag_id = (..) RETURNING *"
              (Pg.unlink_user_tag user_id tag) ;;
  match rows with
  | [] => throw (HTTPException 404 "Either user or tag not found")
  | _ => empty200
  end.

End Users.

(* ================================================================== *)
(** * routes/groups.ts *)

Module Groups.

(** The body accepted by [groupsSchema]. *)
Record body := mk_body {
  title : string;
  description : string;
  user_id : list string;
  likes : Z }.

(** [sort_by ? `ORDER BY ${sort_by}` : ""], an ordinary string *)
Definition sort_by_sql (sort_by : option string) : string :=
  match sort_by with
  | Some s => if Js.truthy_string s then "ORDER BY " ++ s else ""
  | None => ""
  end.

(** [sql`SELECT * FROM user_groups ${sort_by_sql}`] *)
Definition listing_sql (sort_by : option string) : template :=
  [Lit "SELECT * FROM user_groups "; Bound (sort_by_sql sort_by)].

(** GET /groups *)
Definition all (sort_by : option string) : handler response :=
  rows <- sql (text (listing_sql sort_by))
              (Pg.select_groups_listing (sort_by_sql sort_by)) ;;
  json (Js.Arr (map group_json rows)).

(** POST /groups *)
Definition create (b : body) : handler response :=
  rows <- sql "INSERT INTO user_groups (title, description, user_id, likes) VALUES ($1, $2, $3, $4) RETURNING *"
              (Pg.insert_group (title b) (description b) (user_id b) (likes b)) ;;
  json (first group_json rows).

(** GET /groups/:id *)
Definition get (id : Z) : handler response :=
  rows <- sql "SELECT * FROM user_groups WHERE id = $1" (Pg.select_group id) ;;
  json (first group_json rows).

(** PUT /groups/:id *)
Definition update (id : Z) (b : body) : handler response :=
  rows <- sql "UPDATE user_groups SET title = $1, description = $2, user_id = $3, likes = $4 WHERE id = $5 RETURNING *"
              (Pg.update_group id (title b) (description b) (user_id b) (likes b)) ;;
  json (first group_json rows).

(** DELETE /groups/:id *)
Definition delete (id : Z) : handler response :=
  sql "DELETE FROM user_groups WHERE id = $1" (Pg.delete_group id) ;;
  empty200.

(** POST /groups/:id/:user_id *)
Definition add_user (id : Z) (user_id : string) : handler response :=
  sql "UPDATE user_groups SET user_id = array_append(user_id, $1) WHERE id = $2"
      (Pg.update_group_members Rel.array_append user_id id) ;;
  empty200.

(** DELETE /groups/:id/:user_id *)
Definition remove_user (id : Z) (user_id : string) : handler response :=
  sql "UPDATE user_groups SET user_id = array_remove(user_id, $1) WHERE id = $2"
      (Pg.update_group_members Rel.array_remove user_id id) ;;
  empty200.

End Groups.

(* ================================================================== *)
(** * routes/feedbacks.ts *)

Module Feedbacks.

(** The fields of [feedbackSchema] that the handlers read (the schema
    also requires an [id], which no handler uses). *)
Record body := mk_body {
  idea_id : Z;
  user_id : string;
  content : string;
  files_url : list string;
  feedback_links : list Z;
  user_tag : option string;
  upvotes : Z;
  downvotes : Z }.

(** GET /feedbacks *)
Definition all : handler response :=
  rows <- sql "SELECT * FROM feedbacks" Pg.select_feedbacks ;;
  json (Js.Arr (map feedback_json rows)).

(** GET /feedbacks/:id *)
Definition get (id : Z) : handler response :=
  rows <- sql "SELECT * FROM feedbacks WHERE id = $1" (Pg.select_feedback id) ;;
  match rows with
  | [] => throw (HTTPException 404 "Feedback not found")
  | _ => json (first feedback_json rows)
  end.

(** POST /feedbacks *)
Definition create (b : body) : handler response :=
  rows <- sql "INSERT INTO feedbacks (idea_id, user_id, content, files_url, feedback_links, user_tag, upvotes, downvotes) VALUES ($1, $2, $3, $4, $5, $6, $7, $8) RETURNING *"
              (Pg.insert_feedback (idea_id b) (user_id b) (content b) (files_url b)
                 (feedback_links b) (user_tag b) (upvotes b) (downvotes b)) ;;
  match rows with
  | [] => throw (HTTPException 400 "Feedback not created")
  | row :: _ =>
      sql "INSERT INTO ideas_feedbacks (idea_id, feedback_id) VALUES ($1, $2)"
          (Pg.insert_ideas_feedbacks (idea_id b) (Pg.f_id row)) ;;
      json (feedback_json row)
  end.

(** PUT /feedbacks/:id *)
Definition update (id : Z) (b : body) : handler response :=
  rows <- sql "UPDATE feedbacks SET idea_id = $1, .. , downvotes = $8 WHERE id = $9 RETURNING *"
              (Pg.update_feedback id (idea_id b) (user_id b) (content b) (files_url b)
                 (feedback_links b) (user_tag b) (upvotes b) (downvotes b)) ;;
  json (first feedback_json rows).

(** DELETE /feedbacks/:id *)
Definition delete (id : Z) : handler response :=
  sql "DELETE FROM feedbacks WHERE id = $1" (Pg.delete_feedback id) ;;
  sql "DELETE FROM ideas_feedbacks WHERE feedback_id = $1" (Pg.delete_ideas_feedbacks id) ;;
  empty200.

(** GET /feedbacks/user/:user_id *)
Definition by_user (user_id : string) : handler response :=
  rows <- sql "SELECT * FROM feedbacks WHERE user_id = $1 ORDER BY created_at DESC"
              (Pg.select_feedbacks_by_user user_id) ;;
  json (Js.Arr (map feedback_json rows)).

(** POST and DELETE on /feedbacks/up/:id and /feedbacks/down/:id have one
    body, up to the column and the sign. *)
Definition vote (c : Pg.counter) (delta : Z) (id : Z) : handler response :=
  sql "UPDATE feedbacks SET c = c + d WHERE id = $1" (Pg.update_feedbacks_vote c delta id) ;;
  empty200.

Definition up := vote Pg.upvotes 1.
Definition down := vote Pg.downvotes 1.
Definition remove_up := vote Pg.upvotes (-1).
Definition remove_down := vote Pg.downvotes (-1).

End Feedbacks.

(* ================================================================== *)
(** * main.ts: validators, routes, error handler *)

Module Main.

(** What the router hands to a route. *)
Record request := mk_request {
  param : list (string * string);     (* path parameters *)
  query : list (string * string);     (* query string *)
  json_body : Js.value;               (* the parsed JSON body *)
  form_file : option file }.          (* [(await c.req.parseBody()).file] *)

(** The zod schemas of the routes.  What zod accepts is the library's
    business; a schema is taken as a partial decoder of the raw input. *)
Record schemas := mk_schemas {
  (* z.object({ id: z.number() }) *)
  id_number : list (string * string) -> option Z;
  (* z.object({ id: z.number(), tag: z.string() }) *)
  id_number_tag : list (string * string) -> option (Z * string);
  (* z.object({ id: z.number(), user_id: z.string() }) *)
  id_number_user_id : list (string * string) -> option (Z * string);
  (* z.object({ id: z.string() }) *)
  id_string : list (string * string) -> option string;
  (* z.object({ user_id: z.string() }) *)
  user_id_string : list (string * string) -> option string;
  (* z.object({ user_id: z.string(), tag: z.string() }) *)
  user_id_tag : list (string * string) -> option (string * string);
  (* z.object({ name: z.string() }) *)
  name_string : list (string * string) -> option string;
  (* z.object({ sort_by, filter, access }) *)
  ideas_query : list (string * string)
                -> option (option string * option string * option string);
  (* z.object({ sort_by }) *)
  groups_query : list (string * string) -> option (option string);
  (* querySchema *)
  querySchema : list (string * string) -> option (option string);
  ideasSchemaWithTags : Js.value -> option Ideas.body;
  userSchema : Js.value -> option Pg.user;
  groupsSchema : Js.value -> option Groups.body;
  feedbackSchema : Js.value -> option Feedbacks.body }.

(** [zValidator(target, schema)]: a rejected input is answered with 400
    on the spot and the rest of the route does not run. *)
Definition zValidator {R A} (schema : R -> option A) (raw : R)
  (next : A -> handler response) : handler response :=
  match schema raw with
  | Some v => next v
  | None => ret (mk_response 400 (Some (Js.Obj [("success", Js.Bool false)])))
  end.

Definition message (e : Pg.error) : string :=
  match e with
  | Pg.unique_violation c => "duplicate key value violates unique constraint " ++ c
  | Pg.foreign_key_violation c => "violates foreign key constraint " ++ c
  | Pg.not_null_violation c => "null value in column " ++ c
  | Pg.cardinality_violation => "more than one row returned by a subquery"
  | Pg.numeric_value_out_of_range => "value is out of range for type integer"
  | Pg.syntax_error n => "syntax error at or near " ++ n
  end.

Definition error_body (name message : string) : option Js.value :=
  Some (Js.Obj [("name", Js.Str name); ("message", Js.Str message)]).

(** [app.onError]: an HTTPException keeps its status, anything else is 500. *)
Definition onError (e : exn) : response :=
  match e with
  | HTTPException st m => mk_response st (error_body "Error" m)
  | PostgresError e => mk_response 500 (error_body "PostgresError" (message e))
  | TypeError m => mk_response 500 (error_body "TypeError" m)
  | Error_ m => mk_response 500 (error_body "Error" m)
  end.

Inductive endpoint : Type :=
| GET_tags | GET_tags_name | POST_tags_up | POST_tags_down
| DELETE_tags_up | DELETE_tags_down
| GET_ideas | POST_ideas | GET_ideas_id | DELETE_ideas_id
| POST_ideas_up | POST_ideas_down | DELETE_ideas_up | DELETE_ideas_down
| GET_ideas_user | POST_ideas_file | DELETE_ideas_file
| POST_ideas_id_tag | DELETE_ideas_tag
| GET_users | POST_users | PUT_users_id | DELETE_users_id | GET_users_id
| POST_user_tag | DELETE_user_tag
| GET_groups | POST_groups | GET_groups_id | PUT_groups_id | DELETE_groups_id
| POST_groups_user | DELETE_groups_user
| GET_feedbacks | GET_feedbacks_id | POST_feedbacks | PUT_feedbacks_id
| DELETE_feedbacks_id | GET_feedbacks_user
| POST_feedbacks_up | DELETE_feedbacks_up | POST_feedbacks_down | DELETE_feedbacks_down
| GET_health | GET_root.

Fixpoint raw (k : string) (ps : list (string * string)) : option string :=
  match ps with
  | [] => None
  | (k', v) :: ps' => if String.eqb k k' then Some v else raw k ps'
  end.

Section Routes.
Variable V : schemas.

(** PUT /users/:id reads [id] with [c.req.param()], not from the
    validated value; an undefined parameter is refused by the driver. *)
Definition put_user (r : request) (u : Pg.user) : handler response :=
  match raw "id" (param r) with
  | Some id => Users.update id u
  | None => throw (Error_ "UNDEFINED_VALUE: Undefined values are not allowed")
  end.

(** Each route: its validators in the order they are registered, then
    its handler. *)
Definition route (e : endpoint) (r : request) : handler response :=
  match e with
  | GET_tags => Tags.all
  | GET_tags_name => zValidator (name_string V) (param r) Tags.get
  | POST_tags_up => zValidator (name_string V) (param r) Tags.up
  | POST_tags_down => zValidator (name_string V) (param r) Tags.down
  | DELETE_tags_up => zValidator (name_string V) (param r) Tags.remove_up
  | DELETE_tags_down => zValidator (name_string V) (param r) Tags.remove_down
  | GET_ideas =>
      zValidator (ideas_query V) (query r)
        (fun q => Ideas.all (fst (fst q)) (snd (fst q)) (snd q))
  | POST_ideas => zValidator (ideasSchemaWithTags V) (json_body r) Ideas.create
  | GET_ideas_id => zValidator (id_number V) (param r) Ideas.get
  | DELETE_ideas_id => zValidator (id_number V) (param r) Ideas.delete
  | POST_ideas_up => zValidator (id_number V) (param r) Ideas.up
  | POST_ideas_down => zValidator (id_number V) (param r) Ideas.down
  | DELETE_ideas_up => zValidator (id_number V) (param r) Ideas.remove_up
  | DELETE_ideas_down => zValidator (id_number V) (param r) Ideas.remove_down
  | GET_ideas_user => zValidator (user_id_string V) (param r) Ideas.by_user
  | POST_ideas_file =>
      zValidator (id_number V) (param r) (fun id => Ideas.add_file id (form_file r))
  | DELETE_ideas_file =>
      zValidator (id_number V) (param r) (fun id => Ideas.remove_file id (form_file r))
  | POST_ideas_id_tag =>
      zValidator (id_number_tag V) (param r) (fun p => Ideas.add_tag (fst p) (snd p))
  | DELETE_ideas_tag =>
      zValidator (id_number_tag V) (param r) (fun p => Ideas.remove_tag (fst p) (snd p))
  | GET_users => Users.all
  | POST_users => zValidator (userSchema V) (json_body r) Users.create
  | PUT_users_id =>
      zValidator (id_string V) (param r)
        (fun _ => zValidator (userSchema V) (json_body r) (put_user r))
  | DELETE_users_id => zValidator (id_string V) (param r) Users.delete
  | GET_users_id => zValidator (id_string V) (param r) Users.get
  | POST_user_tag =>
      zValidator (user_id_tag V) (param r) (fun p => Users.add_tag (fst p) (snd p))
  | DELETE_user_tag =>
      zValidator (user_id_tag V) (param r) (fun p => Users.remove_tag (fst p) (snd p))
  | GET_groups => zValidator (groups_query V) (query r) Groups.all
  | POST_groups => zValidator (groupsSchema V) (json_body r) Groups.create
  | GET_groups_id => zValidator (id_number V) (param r) Groups.get
  | PUT_groups_id =>
      zValidator (id_number V) (param r)
        (fun id => zValidator (groupsSchema V) (json_body r) (Groups.update id))
  | DELETE_groups_id => zValidator (id_number V) (param r) Groups.delete
  | POST_groups_user =>
      zValidator (id_number_user_id V) (param r)
        (fun p => Groups.add_user (fst p) (snd p))
  | DELETE_groups_user =>
      zValidator (id_number_user_id V) (param r)
        (fun p => Groups.remove_user (fst p) (snd p))
  | GET_feedbacks => Feedbacks.all
  | GET_feedbacks_id => zValidator (id_number V) (param r) Feedbacks.get
  | POST_feedbacks => zValidator (feedbackSchema V) (json_body r) Feedbacks.create
  | PUT_feedbacks_id =>
      zValidator (id_number V) (param r)
        (fun id => zValidator (feedbackSchema V) (json_body r) (Feedbacks.update id))
  | DELETE_feedbacks_id => zValidator (id_number V) (param r) Feedbacks.delete
  | GET_feedbacks_user => zValidator (user_id_string V) (param r) Feedbacks.by_user
  | POST_feedbacks_up => zValidator (id_number V) (param r) Feedbacks.up
  | DELETE_feedbacks_up => zValidator (id_number V) (param r) Feedbacks.remove_up
  | POST_feedbacks_down => zValidator (id_number V) (param r) Feedbacks.down
  | DELETE_feedbacks_down => zValidator (id_number V) (param r) Feedbacks.remove_down
  | GET_health => ret (mk_response 200 (Some (Js.Str "OK")))
  | GET_root =>
      zValidator (querySchema V) (query r)
        (fun _ =>
           ret (mk_response 200
                  (Some (Js.Str ("Hello "
                                 ++ match raw "name" (query r) with
                                    | Some n => n
                                    | None => "Hono"
                                    end ++ "!")))))
  end.

(** [app.fetch]: run the route, hand what it throws to [onError]. *)
Definition fetch (e : endpoint) (r : request) (w : world) : response * world :=
  match route e r w with
  | (inr resp, w') => (resp, w')
  | (inl x, w') => (onError x, w')
  end.

End Routes.

(** Running a handler on its own, with the error handler of the app. *)
Definition run (h : handler response) (w : world) : response * world :=
  match h w with
  | (inr resp, w') => (resp, w')
  | (inl x, w') => (onError x, w')
  end.

(** The response of a handler and the world it leaves. *)
Definition answer (h : handler response) (w : world) : response := fst (run h w).
Definition after (h : handler response) (w : world) : world := snd (run h w).

End Main.

Import Main.

(* ================================================================== *)
(** * The schemas of the routes, as zod reads them

    Hono hands the path parameters to a validator as strings and a query
    parameter as a string, or as an array of strings when the key comes
    more than once; a JSON body is handed over as parsed.  zod does not
    coerce: [z.number()] accepts a number and nothing else.  The two
    format tests of the schemas, [.email()] and [.url()], are zod's own
    and stay a parameter. *)

Module Zod.

Record formats := mk_formats {
  email : string -> bool;
  url : string -> bool }.

(** [z.number()], [z.string()] *)
Definition number (v : Js.value) : option Z :=
  match v with Js.Num n => Some n | _ => None end.

Definition string_ (v : Js.value) : option string :=
  match v with Js.Str s => Some s | _ => None end.

(** [z.string().email()], [z.string().url()] *)
Definition formatted (test : string -> bool) (v : Js.value) : option string :=
  match v with
  | Js.Str s => if test s then Some s else None
  | _ => None
  end.

(** [.optional()], [.nullable()], [.default(d)] *)
Definition optional {A} (z : Js.value -> option A) (v : Js.value) : option (option A) :=
  match v with
  | Js.Undefined => Some None
  | _ => option_map Some (z v)
  end.

Definition nullable {A} (z : Js.value -> option A) (v : Js.value) : option (option A) :=
  match v with
  | Js.Null => Some None
  | _ => option_map Some (z v)
  end.

Definition default {A} (d : A) (z : Js.value -> option A) (v : Js.value) : option A :=
  match v with
  | Js.Undefined => Some d
  | _ => z v
  end.

(** [z.array(item)] *)
Fixpoint items {A} (z : Js.value -> option A) (l : list Js.value) : option (list A) :=
  match l with
  | [] => Some []
  | v :: l' =>
      match z v, items z l' with
      | Some a, Some l'' => Some (a :: l'')
      | _, _ => None
      end
  end.

Definition array {A} (z : Js.value -> option A) (v : Js.value) : option (list A) :=
  match v with Js.Arr l => items z l | _ => None end.

(** A key of [z.object({...})]: the input has to be an object, a key
    it lacks reads [undefined]. *)
Definition key {A} (k : string) (z : Js.value -> option A) (v : Js.value) : option A :=
  match v with
  | Js.Obj fs => z (Js.lookup k fs)
  | _ => None
  end.

Definition both {A B} (a : option A) (b : option B) : option (A * B) :=
  match a, b with
  | Some x, Some y => Some (x, y)
  | _, _ => None
  end.

(** [c.req.param()] as the object the validator gets. *)
Definition params (ps : list (string * string)) : Js.value :=
  Js.Obj (map (fun p => (fst p, Js.Str (snd p))) ps).

(** The query string as the object the validator gets: a key that comes
    once has its value, a key that comes more often the array of its
    values. *)
Definition values (k : string) (q : list (string * string)) : list string :=
  map snd (filter (fun p => String.eqb k (fst p)) q).

Definition query_value (k : string) (q : list (string * string)) : Js.value :=
  match values k q with
  | [] => Js.Undefined
  | [v] => Js.Str v
  | vs => Js.strings vs
  end.

Definition queries (keys : list string) (q : list (string * string)) : Js.value :=
  Js.Obj (map (fun k => (k, query_value k q)) keys).

Section Schemas.
Variable F : formats.

(* zValidator("param", z.object({ id: z.number() })) *)
Definition id_number (ps : list (string * string)) : option Z :=
  key "id" number (params ps).

(* z.object({ id: z.number(), tag: z.string() }) *)
Definition id_number_tag (ps : list (string * string)) : option (Z * string) :=
  both (key "id" number (params ps)) (key "tag" string_ (params ps)).

(* z.object({ id: z.number(), user_id: z.string() }) *)
Definition id_number_user_id (ps : list (string * string)) : option (Z * string) :=
  both (key "id" number (params ps)) (key "user_id" string_ (params ps)).

(* z.object({ id: z.string() }) *)
Definition id_string (ps : list (string * string)) : option string :=
  key "id" string_ (params ps).

(* z.object({ user_id: z.string() }) *)
Definition user_id_string (ps : list (string * string)) : option string :=
  key "user_id" string_ (params ps).

(* z.object({ user_id: z.string(), tag: z.string() }) *)
Definition user_id_tag (ps : list (string * string)) : option (string * string) :=
  both (key "user_id" string_ (params ps)) (key "tag" string_ (params ps)).

(* z.object({ name: z.string() }) *)
Definition name_string (ps : list (string * string)) : option string :=
  key "name" string_ (params ps).

(* z.object({ sort_by, filter, access }), each z.string().optional() *)
Definition ideas_query (q : list (string * string))
  : option (option string * option string * option string) :=
  let v := queries ["sort_by"; "filter"; "access"] q in
  both (both (key "sort_by" (optional string_) v) (key "filter" (optional string_) v))
       (key "access" (optional string_) v).

(* z.object({ sort_by }) *)
Definition groups_query (q : list (string * string)) : option (option string) :=
  key "sort_by" (optional string_) (queries ["sort_by"] q).

(* querySchema: z.object({ name: z.string().optional() }) *)
Definition querySchema (q : list (string * string)) : option (option string) :=
  key "name" (optional string_) (queries ["name"] q).

Definition userSchema (v : Js.value) : option Pg.user :=
  match both (key "id" string_ v) (key "name" string_ v),
        both (key "email" (formatted (email F)) v) (key "role" string_ v),
        key "image_url" string_ v with
  | Some (i, n), Some (e, r), Some u => Some (Pg.mk_user i n e r u)
  | _, _, _ => None
  end.

Definition ideasSchemaWithTags (v : Js.value) : option Ideas.body :=
  match both (key "id" (optional number) v)
             (both (key "title" string_ v) (key "content" string_ v)),
        both (key "user_id" string_ v) (key "files_url" (array (formatted (url F))) v),
        both (key "access" string_ v) (key "upvotes" number v),
        both (key "downvotes" number v) (key "tags" (array string_) v) with
  | Some (_, (t, c)), Some (u, f), Some (a, up), Some (down, tags) =>
      Some (Ideas.mk_body t c u f a up down tags)
  | _, _, _, _ => None
  end.

Definition groupsSchema (v : Js.value) : option Groups.body :=
  match both (key "id" (optional number) v)
             (both (key "title" string_ v) (key "description" string_ v)),
        both (key "user_id" (array string_) v) (key "likes" (default 0 number) v) with
  | Some (_, (t, d)), Some (u, l) => Some (Groups.mk_body t d u l)
  | _, _ => None
  end.

Definition feedbackSchema (v : Js.value) : option Feedbacks.body :=
  match both (key "id" number v) (key "idea_id" number v),
        both (key "user_id" string_ v) (key "content" string_ v),
        both (key "files_url" (array (formatted (url F))) v)
             (key "feedback_links" (array number) v),
        both (key "user_tag" (nullable string_) v)
             (both (key "upvotes" number v) (key "downvotes" number v)) with
  | Some (_, i), Some (u, c), Some (f, l), Some (t, (up, down)) =>
      Some (Feedbacks.mk_body i u c f l t up down)
  | _, _, _, _ => None
  end.

(** The schemas of the routes, for the format tests [F]. *)
Definition validators : schemas :=
  mk_schemas id_number id_number_tag id_number_user_id id_string user_id_string
             user_id_tag name_string ideas_query groups_query querySchema
             ideasSchemaWithTags userSchema groupsSchema feedbackSchema.

End Schemas.

End Zod.

(* ================================================================== *)
(** * Vocabulary of the statements below *)

(** The four vote routes of an entity. *)
Inductive vote_route : Type := post_up | post_down | delete_up | delete_down.

Definition column (r : vote_route) : Pg.counter :=
  match r with
  | post_up | delete_up => Pg.upvotes
  | post_down | delete_down => Pg.downvotes
  end.

Definition amount (r : vote_route) : Z :=
  match r with
  | post_up | post_down => 1
  | delete_up | delete_down => -1
  end.

Definition idea_vote (r : vote_route) : Z -> handler response :=
  match r with
  | post_up => Ideas.up
  | post_down => Ideas.down
  | delete_up => Ideas.remove_up
  | delete_down => Ideas.remove_down
  end.

Definition tag_vote (r : vote_route) : string -> handler response :=
  match r with
  | post_up => Tags.up
  | post_down => Tags.down
  | delete_up => Tags.remove_up
  | delete_down => Tags.remove_down
  end.

Definition feedback_vote (r : vote_route) : Z -> handler response :=
  match r with
  | post_up => Feedbacks.up
  | post_down => Feedbacks.down
  | delete_up => Feedbacks.remove_up
  | delete_down => Feedbacks.remove_down
  end.




(** The vote stays within INTEGER: the id is one, and so is the new
    counter of every row the statement updates. *)
Definition idea_vote_fits (c : Pg.counter) (delta id : Z) (d : Pg.database) : bool :=
  Pg.int4 id
  && forallb (fun i => Pg.int4 (Pg.idea_counter c i + delta))
             (filter (fun i => Pg.i_id i =? id) (Pg.ideas d)).

Definition tag_vote_fits (c : Pg.counter) (delta : Z) (name : string)
  (d : Pg.database) : bool :=
  forallb (fun t => Pg.int4 (Pg.tag_counter c t + delta))
          (filter (fun t => String.eqb (Pg.t_name t) name) (Pg.tags d)).

Definition feedback_vote_fits (c : Pg.counter) (delta id : Z) (d : Pg.database) : bool :=
  Pg.int4 id
  && forallb (fun f => Pg.int4 (Pg.feedback_counter c f + delta))
             (filter (fun f => Pg.f_id f =? id) (Pg.feedbacks d)).

(** What an upsert may add next to the rows [ts] for the names [names]:
    rows with fresh names among [names], their counters at 0. *)
Definition added_by_upsert (names : list string) (ts added : list Pg.tag) : Prop :=
  Forall (fun t => ~ In (Pg.t_name t) (map Pg.t_name ts)
                   /\ In (Pg.t_name t) names
                   /\ Pg.t_upvotes t = 0 /\ Pg.t_downvotes t = 0) added.

(** A handler that may only add upserted rows to [tags]. *)
Definition upserting {A} (names : list string) (h : handler A) : Prop :=
  forall w, exists added,
    Pg.tags (db (snd (h w))) = (Pg.tags (db w) ++ added)%list
    /\ added_by_upsert names (Pg.tags (db w)) added.

(** A statement that leaves [tags] alone. *)
Definition keeps_tags {A} (q : Pg.stmt A) : Prop :=
  forall d, Pg.tags (snd (q d)) = Pg.tags d.

(** The tags sequence is ahead of every tag id in use. *)
Definition tags_seq_ahead (d : Pg.database) : Prop :=
  Forall (fun t => Pg.t_id t < Pg.tags_id_seq d) (Pg.tags d)
  /\ Forall (fun p : string * Z => snd p < Pg.tags_id_seq d) (Pg.users_pinned_tags d).

Definition accepted {R A} (schema : R -> option A) (raw : R) : bool :=
  match schema raw with Some _ => true | None => false end.

(** Every validator registered on the route accepts the request. *)
Definition valid (V : schemas) (e : endpoint) (r : request) : bool :=
  match e with
  | GET_tags | GET_users | GET_feedbacks | GET_health => true
  | GET_tags_name | POST_tags_up | POST_tags_down | DELETE_tags_up | DELETE_tags_down =>
      accepted (name_string V) (param r)
  | GET_ideas => accepted (ideas_query V) (query r)
  | POST_ideas => accepted (ideasSchemaWithTags V) (json_body r)
  | GET_ideas_id | DELETE_ideas_id | POST_ideas_up | POST_ideas_down
  | DELETE_ideas_up | DELETE_ideas_down | POST_ideas_file | DELETE_ideas_file
  | GET_groups_id | DELETE_groups_id | GET_feedbacks_id | DELETE_feedbacks_id
  | POST_feedbacks_up | DELETE_feedbacks_up | POST_feedbacks_down
  | DELETE_feedbacks_down =>
      accepted (id_number V) (param r)
  | GET_ideas_user | GET_feedbacks_user => accepted (user_id_string V) (param r)
  | POST_ideas_id_tag | DELETE_ideas_tag => accepted (id_number_tag V) (param r)
  | POST_users => accepted (userSchema V) (json_body r)
  | PUT_users_id =>
      accepted (id_string V) (param r) && accepted (userSchema V) (json_body r)
  | DELETE_users_id | GET_users_id => accepted (id_string V) (param r)
  | POST_user_tag | DELETE_user_tag => accepted (user_id_tag V) (param r)
  | GET_groups => accepted (groups_query V) (query r)
  | POST_groups => accepted (groupsSchema V) (json_body r)
  | PUT_groups_id =>
      accepted (id_number V) (param r) && accepted (groupsSchema V) (json_body r)
  | POST_groups_user | DELETE_groups_user => accepted (id_number_user_id V) (param r)
  | POST_feedbacks => accepted (feedbackSchema V) (json_body r)
  | PUT_feedbacks_id =>
      accepted (id_number V) (param r) && accepted (feedbackSchema V) (json_body r)
  | GET_root => accepted (querySchema V) (query r)
  end.

Definition rejection : response :=
  mk_response 400 (Some (Js.Obj [("success", Js.Bool false)])).



(** The literal text of a template, a hole left for each bound value. *)
Definition shape (t : template) : list (option string) :=
  map (fun p => match p with Lit s => Some s | Bound _ => None end) t.

(** The constraints of the schema file that the tag workflow rests on:
    tags.name UNIQUE, the primary keys of tags and of the two tag
    junctions, and the tags sequence ahead of the ids in use. *)
Definition consistent (d : Pg.database) : Prop :=
  NoDup (map Pg.t_name (Pg.tags d))
  /\ NoDup (map Pg.t_id (Pg.tags d))
  /\ NoDup (Pg.users_pinned_tags d)
  /\ NoDup (Pg.ideas_tags d)
  /\ tags_seq_ahead d.

(** A statement, a handler that keeps the store consistent. *)
Definition carries {A} (q : Pg.stmt A) : Prop :=
  forall d, consistent d -> consistent (snd (q d)).

Definition handles {A} (h : handler A) : Prop :=
  forall w, consistent (db w) -> consistent (db (snd (h w))).

(** [d'] has the tags and the tags sequence of [d], and of the two tag
    junctions a selection of the rows of [d]. *)
Definition narrowed (d d' : Pg.database) : Prop :=
  Pg.tags d' = Pg.tags d
  /\ Pg.tags_id_seq d' = Pg.tags_id_seq d
  /\ (exists f, Pg.users_pinned_tags d' = filter f (Pg.users_pinned_tags d))
  /\ (exists g, Pg.ideas_tags d' = filter g (Pg.ideas_tags d)).

(** Requests served one after the other. *)
Fixpoint serve (V : schemas) (reqs : list (endpoint * request)) (w : world) : world :=
  match reqs with
  | [] => w
  | (e, r) :: reqs' => serve V reqs' (snd (fetch V e r w))
  end.

(** The store before the first request. *)
Definition start (bucket : string) : world := mk_world Pg.empty [] bucket [].

(** ** Sample data *)

Module Sample.

Definition alice : Pg.user :=
  Pg.mk_user "u1" "Alice" "alice@example.com" "admin" "https://example.com/a.jpg".

(** One user, nothing else. *)
Definition w0 : world :=
  mk_world (Pg.with_users [alice] Pg.empty) [] "bucket" [].

Definition idea_T : Ideas.body :=
  Ideas.mk_body "T" "C" "u1" [] "public" 0 0 ["x"; "y"].

(** [w0] after POST /ideas with tags x and y. *)
Definition w1 : world := after (Ideas.create idea_T) w0.

(** [w0] after POST /user/u1/x and POST /tags/up/x. *)
Definition w_voted : world :=
  after (Tags.up "x") (after (Users.add_tag "u1" "x") w0).

(** Format tests for the samples: they accept the address and the URL
    of the sample data and nothing else. *)
Definition formats : Zod.formats :=
  Zod.mk_formats (String.eqb "alice@example.com")
                 (String.eqb "https://example.com/a.jpg").

Definition parsers : schemas := Zod.validators formats.

(** A request without parameters and without a body; one with path
    parameters only; one with a JSON body only. *)
Definition no_input : request := mk_request [] [] Js.Undefined None.

Definition at_path (ps : list (string * string)) : request :=
  mk_request ps [] Js.Undefined None.

Definition sending (v : Js.value) : request := mk_request [] [] v None.

(** POST /users with Alice as the body. *)
Definition post_alice : request := sending (user_json alice).

(** POST /ideas with a body that has no [tags]. *)
Definition bad_request : request :=
  mk_request [] []
    (Js.Obj [("title", Js.Str "T"); ("content", Js.Str "C"); ("user_id", Js.Str "u1");
             ("files_url", Js.Arr []); ("access", Js.Str "public");
             ("upvotes", Js.Num 0); ("downvotes", Js.Num 0)])
    None.


Definition post_group : request :=
  sending
    (Js.Obj [("title", Js.Str "G"); ("description", Js.Str "D");
             ("user_id", Js.strings ["u1"]); ("likes", Js.Num 0)]).


(** The empty store after POST /users and POST /groups. *)
Definition w_group : world :=
  serve parsers [(POST_users, post_alice); (POST_groups, post_group)]
        (start "bucket").




End Sample.

(** ** Further vocabulary: what every route does and leaves alone *)

(** The routes whose handler tests [rows.length === 0]. *)
Definition may_answer_404 (e : endpoint) : bool :=
  match e with
  | GET_tags_name | POST_tags_up | POST_tags_down | DELETE_tags_up | DELETE_tags_down
  | PUT_users_id | DELETE_users_id | GET_users_id | POST_user_tag | DELETE_user_tag
  | GET_feedbacks_id => true
  | _ => false
  end.

(** The status a route may answer with: 200, 500, 404 where the handler
    tests its rows, 400 from a validator, or from POST /ideas when the
    new idea has the id 0. *)
Definition answered (V : schemas) (e : endpoint) (r : request) (w : world)
  (st : Z) : Prop :=
  st = 200 \/ st = 500
  \/ (st = 404 /\ may_answer_404 e = true)
  \/ (st = 400
      /\ (valid V e r = false \/ (e = POST_ideas /\ Pg.ideas_id_seq (db w) = 0))).

(** A handler whose exceptions, once through [onError], have a status in
    [S]; a handler whose answer, thrown or returned, has one. *)
Definition throws_within {A} (S : Z -> Prop) (h : handler A) : Prop :=
  forall w, match fst (h w) with
            | inl x => S (status (onError x))
            | inr _ => True
            end.

Definition replies_within (S : Z -> Prop) (h : handler response) : Prop :=
  forall w, S (status (fst (run h w))).

Definition is_get (e : endpoint) : bool :=
  match e with
  | GET_tags | GET_tags_name | GET_ideas | GET_ideas_id | GET_ideas_user
  | GET_users | GET_users_id | GET_groups | GET_groups_id
  | GET_feedbacks | GET_feedbacks_id | GET_feedbacks_user
  | GET_health | GET_root => true
  | _ => false
  end.

Definition is_file_route (e : endpoint) : bool :=
  match e with
  | POST_ideas_file | DELETE_ideas_file => true
  | _ => false
  end.

(** A handler that leaves the worlds related by [R], whether it returns
    or throws. *)
Definition preserves {A} (R : world -> world -> Prop) (h : handler A) : Prop :=
  forall w, R w (snd (h w)).

Definition same_db (w w' : world) : Prop := db w' = db w.
Definition same_s3 (w w' : world) : Prop := s3 w' = s3 w.

(** The identity of a tag: its id and its name. *)
Definition tag_key (t : Pg.tag) : Z * string := (Pg.t_id t, Pg.t_name t).

(** [d'] has the tags of [d], by id and name and in their order, and
    maybe more after them. *)
Definition tags_kept (d d' : Pg.database) : Prop :=
  exists added, map tag_key (Pg.tags d') = (map tag_key (Pg.tags d) ++ added)%list.

Definition keeps_tag_keys (w w' : world) : Prop := tags_kept (db w) (db w').

(** The route that takes back what [r] did. *)
Definition opposite (r : vote_route) : vote_route :=
  match r with
  | post_up => delete_up
  | post_down => delete_down
  | delete_up => post_up
  | delete_down => post_down
  end.

(** What GET /users/:id answers for the row [u]. *)
Definition user_read (u : Pg.user) : Js.value :=
  Js.Obj [("id", Js.Str (Pg.u_id u)); ("name", Js.Str (Pg.u_name u));
          ("email", Js.Str (Pg.u_email u)); ("role", Js.Str (Pg.u_role u));
          ("image_url", Js.Str (Pg.u_image_url u)); ("pinned_tags", Js.Arr [])].

(** The sequences of ideas, feedbacks and groups are ahead of every id
    in use, in the tables and in the junctions; ids start at 1. *)
Definition ahead (d : Pg.database) : Prop :=
  0 < Pg.ideas_id_seq d
  /\ Forall (fun i => Pg.i_id i < Pg.ideas_id_seq d) (Pg.ideas d)
  /\ Forall (fun p : Z * Z => fst p < Pg.ideas_id_seq d) (Pg.ideas_tags d)
  /\ 0 < Pg.feedbacks_id_seq d
  /\ Forall (fun f => Pg.f_id f < Pg.feedbacks_id_seq d) (Pg.feedbacks d)
  /\ Forall (fun p : Z * Z => snd p < Pg.feedbacks_id_seq d) (Pg.ideas_feedbacks d)
  /\ 0 < Pg.user_groups_id_seq d
  /\ Forall (fun g => Pg.g_id g < Pg.user_groups_id_seq d) (Pg.user_groups d).

(** [d'] has no id that [d] has not, and its sequences are not behind. *)
Definition no_new_id (d d' : Pg.database) : Prop :=
  Pg.ideas_id_seq d <= Pg.ideas_id_seq d'
  /\ Pg.feedbacks_id_seq d <= Pg.feedbacks_id_seq d'
  /\ Pg.user_groups_id_seq d <= Pg.user_groups_id_seq d'
  /\ incl (map Pg.i_id (Pg.ideas d')) (map Pg.i_id (Pg.ideas d))
  /\ incl (map fst (Pg.ideas_tags d')) (map fst (Pg.ideas_tags d))
  /\ incl (map Pg.f_id (Pg.feedbacks d')) (map Pg.f_id (Pg.feedbacks d))
  /\ incl (map snd (Pg.ideas_feedbacks d')) (map snd (Pg.ideas_feedbacks d))
  /\ incl (map Pg.g_id (Pg.user_groups d')) (map Pg.g_id (Pg.user_groups d)).

Definition stays_ahead (w w' : world) : Prop := ahead (db w) -> ahead (db w').

(** The row POST /ideas stores for the body [b]: the next id of the
    sequence, the body's fields, both counters 0. *)
Definition new_idea (b : Ideas.body) (d : Pg.database) : Pg.idea :=
  Pg.mk_idea (Pg.ideas_id_seq d) (Ideas.title b) (Ideas.content b) (Ideas.user_id b)
             (Ideas.files_url b) (Ideas.access b) 0 0 (Pg.clock d).

(** The row POST /feedbacks stores for the body [b]. *)
Definition new_feedback (b : Feedbacks.body) (d : Pg.database) : Pg.feedback :=
  Pg.mk_feedback (Pg.feedbacks_id_seq d) (Feedbacks.idea_id b) (Feedbacks.user_id b)
                 (Feedbacks.content b) (Feedbacks.files_url b)
                 (Feedbacks.feedback_links b) (Feedbacks.user_tag b)
                 (Feedbacks.upvotes b) (Feedbacks.downvotes b) (Pg.clock d).

(** The numbers of a feedback body that meet INTEGER columns. *)
Definition feedback_integers (b : Feedbacks.body) : list Z :=
  Feedbacks.idea_id b
  :: Feedbacks.feedback_links b ++ [Feedbacks.upvotes b; Feedbacks.downvotes b].

(** The row POST /groups stores for the body [b]. *)
Definition new_group (b : Groups.body) (d : Pg.database) : Pg.user_group :=
  Pg.mk_group (Pg.user_groups_id_seq d) (Groups.title b) (Groups.description b)
              (Groups.user_id b) (Groups.likes b).

(** An optional value as the parameters it contributes. *)
Definition bound (o : option string) : list string :=
  match o with Some v => [v] | None => [] end.

(** The primary keys of users, ideas, feedbacks and groups. *)
Definition keyed (d : Pg.database) : Prop :=
  NoDup (map Pg.u_id (Pg.users d))
  /\ NoDup (map Pg.i_id (Pg.ideas d))
  /\ NoDup (map Pg.f_id (Pg.feedbacks d))
  /\ NoDup (map Pg.g_id (Pg.user_groups d)).

Definition stays_keyed (w w' : world) : Prop := keyed (db w) -> keyed (db w').

(** ** Further vocabulary: what the schemas let through *)

(** The routes whose path carries an id validated with [z.number()]. *)
Definition takes_number (e : endpoint) : bool :=
  match e with
  | GET_ideas_id | DELETE_ideas_id | POST_ideas_up | POST_ideas_down
  | DELETE_ideas_up | DELETE_ideas_down | POST_ideas_file | DELETE_ideas_file
  | POST_ideas_id_tag | DELETE_ideas_tag
  | GET_groups_id | PUT_groups_id | DELETE_groups_id
  | POST_groups_user | DELETE_groups_user
  | GET_feedbacks_id | PUT_feedbacks_id | DELETE_feedbacks_id
  | POST_feedbacks_up | DELETE_feedbacks_up | POST_feedbacks_down
  | DELETE_feedbacks_down => true
  | _ => false
  end.

(** The routes that name a tag in their path. *)
Definition names_a_tag (e : endpoint) : bool :=
  match e with
  | GET_tags_name | POST_tags_up | POST_tags_down | DELETE_tags_up | DELETE_tags_down =>
      true
  | _ => false
  end.




(** A query parameter, when it is given. *)
Definition pairs (k : string) (o : option string) : list (string * string) :=
  match o with Some v => [(k, v)] | None => [] end.

(** GET /ideas with the query parameters that are given. *)
Definition listing_request (sort_by filter access : option string) : request :=
  mk_request []
    (pairs "sort_by" sort_by ++ pairs "filter" filter ++ pairs "access" access)
    Js.Undefined None.

(** The answer that lists [rows]. *)
Definition listed (rows : list Pg.idea_with_tags) : response :=
  mk_response 200 (Some (Js.Arr (map idea_with_tags_json rows))).




(** [d'] against [d]: every idea, feedback and junction row of [d'] whose
    id was handed out in [d] is a row of [d] as it was, and the groups of
    [d] are the first groups of [d'] as they were. *)
Definition settled (d d' : Pg.database) : Prop :=
  Pg.ideas_id_seq d <= Pg.ideas_id_seq d'
  /\ Pg.feedbacks_id_seq d <= Pg.feedbacks_id_seq d'
  /\ (forall i, In i (Pg.ideas d') -> Pg.i_id i < Pg.ideas_id_seq d -> In i (Pg.ideas d))
  /\ (forall p, In p (Pg.ideas_tags d') -> fst p < Pg.ideas_id_seq d ->
        In p (Pg.ideas_tags d))
  /\ (forall f, In f (Pg.feedbacks d') -> Pg.f_id f < Pg.feedbacks_id_seq d ->
        In f (Pg.feedbacks d))
  /\ (forall p, In p (Pg.ideas_feedbacks d') -> snd p < Pg.feedbacks_id_seq d ->
        In p (Pg.ideas_feedbacks d))
  /\ (exists added, Pg.user_groups d' = (Pg.user_groups d ++ added)%list).

Definition stays_settled (w w' : world) : Prop :=
  settled (db w) (db w') /\ s3 w' = s3 w.

(* ================================================================== *)
(** * Vote counters *)

Section VoteCounters.

Lemma idea_vote_unfold r id :
  idea_vote r id = Ideas.vote (column r) (amount r) id.
Proof. destruct r; reflexivity. Qed.

Lemma tag_vote_unfold r name :
  tag_vote r name = Tags.vote (column r) (amount r) name.
Proof. destruct r; reflexivity. Qed.

Lemma feedback_vote_unfold r id :
  feedback_vote r id = Feedbacks.vote (column r) (amount r) id.
Proof. destruct r; reflexivity. Qed.


Lemma ideas_after_vote c delta id w :
  idea_vote_fits c delta id (db w) = true ->
  Pg.ideas (db (after (Ideas.vote c delta id) w))
  = map (fun i => if Pg.i_id i =? id then Pg.bump_idea c delta i else i)
        (Pg.ideas (db w)).
Proof.
  intros F. apply andb_prop in F. destruct F as [Fi Fc].
  unfold after, run, Ideas.vote, bind, sql, Pg.update_ideas_vote, Pg.integer.
  simpl. rewrite Fi, Fc. reflexivity.
Qed.


Lemma feedbacks_after_vote c delta id w :
  feedback_vote_fits c delta id (db w) = true ->
  Pg.feedbacks (db (after (Feedbacks.vote c delta id) w))
  = map (fun f => if Pg.f_id f =? id then Pg.bump_feedback c delta f else f)
        (Pg.feedbacks (db w)).
Proof.
  intros F. apply andb_prop in F. destruct F as [Fi Fc].
  unfold after, run, Feedbacks.vote, bind, sql, Pg.update_feedbacks_vote, Pg.integer.
  simpl. rewrite Fi, Fc. reflexivity.
Qed.

(** Out of range the statement fails: the answer is 500 and the store is
    as it was. *)
Lemma idea_vote_refused c delta id w :
  idea_vote_fits c delta id (db w) = false ->
  status (answer (Ideas.vote c delta id) w) = 500
  /\ db (after (Ideas.vote c delta id) w) = db w.
Proof.
  unfold idea_vote_fits. intros F.
  unfold answer, after, run, Ideas.vote, bind, sql, Pg.update_ideas_vote, Pg.integer.
  simpl. destruct (Pg.int4 id); simpl in F |- *; [rewrite F|]; split; reflexivity.
Qed.

Lemma tag_vote_refused c delta name w :
  tag_vote_fits c delta name (db w) = false ->
  status (answer (Tags.vote c delta name) w) = 500
  /\ db (after (Tags.vote c delta name) w) = db w.
Proof.
  unfold tag_vote_fits. intros F.
  unfold answer, after, run, Tags.vote, bind, sql, Pg.update_tags_vote.
  simpl. rewrite F. split; reflexivity.
Qed.

Lemma feedback_vote_refused c delta id w :
  feedback_vote_fits c delta id (db w) = false ->
  status (answer (Feedbacks.vote c delta id) w) = 500
  /\ db (after (Feedbacks.vote c delta id) w) = db w.
Proof.
  unfold feedback_vote_fits. intros F.
  unfold answer, after, run, Feedbacks.vote, bind, sql, Pg.update_feedbacks_vote,
    Pg.integer.
  simpl. destruct (Pg.int4 id); simpl in F |- *; [rewrite F|]; split; reflexivity.
Qed.


(** Where the id is a key, the row that has it decides. *)
Lemma key_row {A} (key : A -> Z) (l : list A) a b :
  NoDup (map key l) -> In a l -> In b l -> key a = key b -> a = b.
Proof.
  induction l as [|x l IH]; simpl; [tauto|].
  intros N Ia Ib E. inversion N as [|? ? Nx Nl]; subst.
  destruct Ia as [->|Ia], Ib as [->|Ib]; auto.
  - exfalso. apply Nx. rewrite E. now apply in_map.
  - exfalso. apply Nx. rewrite <- E. now apply in_map.
Qed.

Lemma bump_idea_id c delta i : Pg.i_id (Pg.bump_idea c delta i) = Pg.i_id i.
Proof. destruct c; reflexivity. Qed.

End VoteCounters.

(* ================================================================== *)
(** * Joins and groups *)

Section JoinFacts.
Context {A B K : Type}.
Variable K_dec : forall x y : K, {x = y} + {x <> y}.

Lemma left_join_keeps_left (on : A -> B -> bool) l r a :
  In a l -> exists ob, In (a, ob) (Rel.left_join on l r).
Proof.
  intros H. unfold Rel.left_join.
  destruct (filter (on a) r) as [|b bs] eqn:E.
  - exists None. apply in_flat_map. exists a. rewrite E. simpl; auto.
  - exists (Some b). apply in_flat_map. exists a. rewrite E. simpl; auto.
Qed.

Lemma left_join_from_left (on : A -> B -> bool) l r a ob :
  In (a, ob) (Rel.left_join on l r) -> In a l.
Proof.
  unfold Rel.left_join. intros H. apply in_flat_map in H.
  destruct H as (a' & Ha & H).
  destruct (filter (on a') r) as [|b bs].
  - simpl in H. destruct H as [H|[]]. now inversion H; subst.
  - apply in_map_iff in H. destruct H as (b' & H & _). now inversion H; subst.
Qed.

Lemma same_refl (k : K) : Rel.same K_dec k k = true.
Proof. unfold Rel.same. destruct (K_dec k k); congruence. Qed.

Lemma same_true (k k' : K) : Rel.same K_dec k k' = true <-> k = k'.
Proof. unfold Rel.same. destruct (K_dec k k'); split; congruence. Qed.

Lemma group_by_cons (key : A -> K) r rows :
  exists gs,
    Rel.group_by K_dec key (r :: rows)
    = (key r, r :: filter (fun x => Rel.same K_dec (key x) (key r)) rows) :: gs.
Proof.
  unfold Rel.group_by. simpl. rewrite same_refl. eexists. reflexivity.
Qed.

End JoinFacts.

(* ================================================================== *)
(** * GET /users/:id *)

Section GetUser.

Lemma users_joined_has d u :
  In u (Pg.users d) -> exists x y, In (u, x, y) (Pg.users_joined d).
Proof.
  intros H. unfold Pg.users_joined.
  destruct (left_join_keeps_left
              (fun (u : Pg.user) (upt : string * Z) => String.eqb (Pg.u_id u) (fst upt))
              (Pg.users d) (Pg.users_pinned_tags d) u H) as (x & Hx).
  exists x.
  now apply left_join_keeps_left.
Qed.

Lemma has_user_in id d :
  Pg.has_user id d = true -> exists u, In u (Pg.users d) /\ Pg.u_id u = id.
Proof.
  unfold Pg.has_user. intros H. apply existsb_exists in H.
  destruct H as (u & Hu & E). exists u. split; [exact Hu|]. now apply String.eqb_eq.
Qed.

(** The row that GET /users/:id reads is there exactly when the user is,
    and it is a row of that user. *)
Lemma select_user_of_existing id d :
  Pg.has_user id d = true ->
  exists row rest,
    Pg.select_users_with_tags
      (fun r => String.eqb (Pg.u_id (fst (fst r))) id) d = row :: rest
    /\ Pg.u_id (Pg.uw_user row) = id.
Proof.
  intros H. apply has_user_in in H. destruct H as (u & Hu & E).
  destruct (users_joined_has d u Hu) as (x & y & Hj).
  unfold Pg.select_users_with_tags.
  destruct (filter (fun r : Pg.user_joined => String.eqb (Pg.u_id (fst (fst r))) id)
                   (Pg.users_joined d)) as [|r rs] eqn:F.
  - exfalso.
    assert (In (u, x, y) (@nil Pg.user_joined)) as [].
    rewrite <- F. apply filter_In. split; [exact Hj|]. simpl. now apply String.eqb_eq.
  - destruct (group_by_cons Pg.user_dec (fun r : Pg.user_joined => fst (fst r)) r rs)
      as (gs & G).
    rewrite G. simpl. eexists; eexists; split; [reflexivity|]. simpl.
    assert (In r (r :: rs)) as Hr by (simpl; auto).
    rewrite <- F in Hr. apply filter_In in Hr. destruct Hr as [_ Hr].
    now apply String.eqb_eq.
Qed.

End GetUser.

(** C9.  GET /users/:id of an existing user answers 200 with the user's
    columns and with [pinned_tags] the empty array, whatever tags are
    pinned: the handler replaces the aggregated array by its [items]
    property, which an array does not have, and falls back to []. *)
Theorem get_user_pinned_tags_always_empty :
  forall (w : world) (id : string),
    Pg.has_user id (db w) = true ->
    exists fields,
      answer (Users.get id) w = mk_response 200 (Some (Js.Obj fields))
      /\ Js.lookup "pinned_tags" fields = Js.Arr []
      /\ Js.lookup "id" fields = Js.Str id.
Proof.
  intros w id H.
  destruct (select_user_of_existing id (db w) H) as (row & rest & E & Hid).
  unfold answer, run, Users.get, bind, sql, Pg.select_user, Pg.reading. simpl.
  rewrite E. simpl.
  eexists. split; [reflexivity|]. simpl. rewrite Hid. split; reflexivity.
Qed.

(** A user with a pinned tag: the listing shows the tag, GET /users/:id
    does not. *)
Lemma get_user_pinned_tags_always_empty_witness :
  let w := after (Users.add_tag "u1" "x") Sample.w0 in
  Pg.users_pinned_tags (db w) = [("u1", 1)]
  /\ exists fields,
      answer (Users.get "u1") w = mk_response 200 (Some (Js.Obj fields))
      /\ Js.lookup "pinned_tags" fields = Js.Arr []
      /\ Js.lookup "id" fields = Js.Str "u1".
Proof.
  intros w. split; [reflexivity|].
  exact (get_user_pinned_tags_always_empty w "u1" eq_refl).
Defined.

(* ================================================================== *)
(** * The tag upsert *)

Section TagUpsert.

Lemma existsb_name_false n ts :
  existsb (fun t => String.eqb (Pg.t_name t) n) ts = false ->
  ~ In n (map Pg.t_name ts).
Proof.
  intros H I. apply in_map_iff in I. destruct I as (t & E & I).
  assert (existsb (fun t => String.eqb (Pg.t_name t) n) ts = true) as T.
  { apply existsb_exists. exists t. split; [exact I|]. now apply String.eqb_eq. }
  congruence.
Qed.

Lemma insert_tags_rows_appends names :
  forall ts seq ts',
    fst (Pg.insert_tags_rows names ts seq) = inr ts' ->
    exists added, ts' = (ts ++ added)%list /\ added_by_upsert names ts added.
Proof.
  induction names as [|n names IH]; intros ts seq ts' H; simpl in H.
  - inversion H; subst. exists []. split; [now rewrite app_nil_r | constructor].
  - destruct (existsb (fun t => String.eqb (Pg.t_name t) n) ts) eqn:E.
    + destruct (IH _ _ _ H) as (added & -> & F). exists added. split; [reflexivity|].
      eapply Forall_impl; [|exact F]. simpl. intros t (A & B & C). auto.
    + destruct (existsb (fun t => Pg.t_id t =? seq) ts); [discriminate|].
      destruct (IH _ _ _ H) as (added & -> & F).
      exists (Pg.mk_tag seq n 0 0 :: added). split; [now rewrite <- app_assoc|].
      constructor.
      * simpl. repeat split; auto. now apply existsb_name_false.
      * eapply Forall_impl; [|exact F]. simpl. intros t (A & B & C).
        repeat split; auto; try tauto.
        intros I. apply A. rewrite map_app. apply in_or_app. now left.
Qed.

Lemma added_nothing names ts :
  exists added, ts = (ts ++ added)%list /\ added_by_upsert names ts added.
Proof. exists []. split; [now rewrite app_nil_r | constructor]. Qed.

Lemma upserting_ret {A} names (a : A) : upserting names (ret a).
Proof. intros w. apply added_nothing. Qed.

Lemma upserting_throw {A} names e : upserting names (@throw A e).
Proof. intros w. apply added_nothing. Qed.

Lemma upserting_bind {A B} names (m : handler A) (k : A -> handler B) :
  upserting names m -> (forall a, upserting names (k a)) ->
  upserting names (bind m k).
Proof.
  intros Hm Hk w. unfold bind. destruct (Hm w) as (a1 & E1 & F1).
  destruct (m w) as [[e|a] w1]; simpl in *.
  - exists a1. auto.
  - destruct (Hk a w1) as (a2 & E2 & F2). exists (a1 ++ a2)%list.
    rewrite E2, E1, <- app_assoc. split; [reflexivity|].
    apply Forall_app. split; [exact F1|].
    eapply Forall_impl; [|exact F2]. simpl. intros t (N & R).
    split; [|exact R]. intros I. apply N. rewrite E1, map_app.
    apply in_or_app. now left.
Qed.

Lemma upserting_sql_keeps {A} names text (q : Pg.stmt A) :
  keeps_tags q -> upserting names (sql text q).
Proof.
  intros K w. unfold sql. specialize (K (db w)).
  destruct (q (db w)) as [[e|a] d']; simpl in *; rewrite K; apply added_nothing.
Qed.

Lemma upserting_sql_insert_tags names text :
  upserting names (sql text (Pg.insert_tags names)).
Proof.
  intros w. unfold sql, Pg.insert_tags.
  destruct (Pg.insert_tags_rows names (Pg.tags (db w)) (Pg.tags_id_seq (db w)))
    as [[e|ts'] seq] eqn:R; simpl.
  - apply added_nothing.
  - eapply insert_tags_rows_appends. rewrite R. reflexivity.
Qed.

Lemma keeps_tags_reading {A} (f : Pg.database -> A) : keeps_tags (Pg.reading f).
Proof. intros d. reflexivity. Qed.

Lemma keeps_tags_insert_idea t c u f a : keeps_tags (Pg.insert_idea t c u f a).
Proof.
  intros d. unfold Pg.insert_idea.
  destruct (Pg.has_idea _ d); [reflexivity|].
  destruct (Pg.has_user _ d); reflexivity.
Qed.

Lemma keeps_tags_insert_ideas_tags rows : keeps_tags (Pg.insert_ideas_tags rows).
Proof.
  intros d. unfold Pg.insert_ideas_tags.
  destruct (Pg.insertable _ _ _); [|reflexivity]. simpl.
  destruct (forallb _ rows); [|reflexivity]. simpl.
  destruct (forallb _ rows); reflexivity.
Qed.

Lemma upserting_create b : upserting (Ideas.tags b) (Ideas.create b).
Proof.
  unfold Ideas.create. apply upserting_bind.
  - unfold sql_rows. destruct (Ideas.tags b) eqn:T.
    + apply upserting_throw.
    + rewrite <- T. apply upserting_sql_insert_tags.
  - intros _. apply upserting_bind.
    + apply upserting_sql_keeps, keeps_tags_reading.
    + intros rows1. apply upserting_bind.
      * apply upserting_sql_keeps, keeps_tags_insert_idea.
      * intros [|row rows2]; [apply upserting_throw|].
        destruct (Js.truthy_num _); [|apply upserting_throw].
        apply upserting_bind; [|intros; apply upserting_ret].
        unfold sql_rows. destruct (map _ rows1); [apply upserting_throw|].
        apply upserting_sql_keeps, keeps_tags_insert_ideas_tags.
Qed.

Lemma link_user_tag_tags uid name d :
  exists added,
    Pg.tags (snd (Pg.link_user_tag uid name d)) = (Pg.tags d ++ added)%list
    /\ added_by_upsert [name] (Pg.tags d) added.
Proof.
  unfold Pg.link_user_tag.
  destruct (existsb (fun t => String.eqb (Pg.t_name t) name || (Pg.t_id t =? _))
                    (Pg.tags d)) eqn:C.
  - assert (Same := added_nothing [name] (Pg.tags d)).
    repeat match goal with
           | |- context [match ?c with _ => _ end] => destruct c; simpl
           end; rewrite ?app_nil_r; exact Same.
  - assert (Same := added_nothing [name] (Pg.tags d)).
    assert (New : exists added,
               (Pg.tags d ++ [Pg.mk_tag (Pg.tags_id_seq d) name 0 0])%list
               = (Pg.tags d ++ added)%list
               /\ added_by_upsert [name] (Pg.tags d) added).
    { eexists. split; [reflexivity|]. constructor; [|constructor]. simpl.
      repeat split; auto. apply existsb_name_false.
      apply not_true_is_false. intros T. apply existsb_exists in T.
      destruct T as (t & I & T).
      assert (existsb (fun t => String.eqb (Pg.t_name t) name
                                || (Pg.t_id t =? Pg.tags_id_seq d))
                      (Pg.tags d) = true) as X.
      { apply existsb_exists. exists t. split; [exact I|]. now rewrite T. }
      congruence. }
    repeat match goal with
           | |- context [match ?c with _ => _ end] => destruct c; simpl
           end; first [exact Same | exact New].
Qed.

Lemma upserting_add_tag uid name : upserting [name] (Users.add_tag uid name).
Proof.
  unfold Users.add_tag. apply upserting_bind.
  - intros w. unfold sql.
    destruct (link_user_tag_tags uid name (db w)) as (added & E & F).
    exists added. split; [|exact F].
    destruct (Pg.link_user_tag uid name (db w)) as [[e|a] d']; simpl in *; exact E.
  - intros [|r rs]; [apply upserting_throw | apply upserting_ret].
Qed.

End TagUpsert.

(** C7.  The tag upsert of POST /ideas and of POST /user/:user_id/:tag
    inserts or ignores: whether the request succeeds or not, every row of
    [tags] that was there is still there unchanged, at its place (same id,
    same counters), and the rows added have names that were not there,
    taken from the request, with both counters 0. *)
Theorem tag_upsert_keeps_existing_rows :
  forall w : world,
    (forall b : Ideas.body,
        exists added,
          Pg.tags (db (after (Ideas.create b) w)) = (Pg.tags (db w) ++ added)%list
          /\ added_by_upsert (Ideas.tags b) (Pg.tags (db w)) added)
    /\ (forall uid name : string,
        exists added,
          Pg.tags (db (after (Users.add_tag uid name) w))
          = (Pg.tags (db w) ++ added)%list
          /\ added_by_upsert [name] (Pg.tags (db w)) added).
Proof.
  intros w. split.
  - intros b. destruct (upserting_create b w) as (added & E & F).
    exists added. split; [|exact F].
    unfold after, run. destruct (Ideas.create b w) as [[e|r] w']; exact E.
  - intros uid name. destruct (upserting_add_tag uid name w) as (added & E & F).
    exists added. split; [|exact F].
    unfold after, run. destruct (Users.add_tag uid name w) as [[e|r] w']; exact E.
Qed.

(** The tag x with one upvote keeps its row through POST /ideas with the
    tags x and y; y is the one row added. *)
Lemma tag_upsert_keeps_existing_rows_witness :
  Pg.tags (db Sample.w_voted) = [Pg.mk_tag 1 "x" 1 0]
  /\ exists added,
      Pg.tags (db (after (Ideas.create Sample.idea_T) Sample.w_voted))
      = (Pg.tags (db Sample.w_voted) ++ added)%list
      /\ added_by_upsert ["x"; "y"] (Pg.tags (db Sample.w_voted)) added.
Proof.
  split; [reflexivity|].
  exact (proj1 (tag_upsert_keeps_existing_rows Sample.w_voted) Sample.idea_T).
Defined.

(* ================================================================== *)
(** * Linking a tag twice *)

Section Relink.

Lemma find_some_existsb {A} (p : A -> bool) l x :
  find p l = Some x -> existsb p l = true.
Proof.
  intros H. apply find_some in H. apply existsb_exists. exists x. exact H.
Qed.

Lemma find_none_existsb {A} (p : A -> bool) l :
  find p l = None -> existsb p l = false.
Proof.
  intros H. apply not_true_is_false. intros T. apply existsb_exists in T.
  destruct T as (x & I & T). rewrite (find_none _ _ H x I) in T. discriminate.
Qed.

Lemma find_app_none {A} (p : A -> bool) l l' :
  find p l = None -> find p (l ++ l') = find p l'.
Proof.
  induction l as [|a l IH]; simpl; [reflexivity|].
  destruct (p a); [discriminate | exact IH].
Qed.

Lemma tag_id_of_with_tags name ts d :
  Pg.tag_id_of name (Pg.with_tags ts d)
  = option_map Pg.t_id (find (fun t => String.eqb (Pg.t_name t) name) ts).
Proof. reflexivity. Qed.

(** Linking when the pair is there: no row comes back and both tables
    stay as they are. *)
Lemma link_when_linked uid name tid d :
  Pg.tag_id_of name d = Some tid ->
  existsb (Pg.pin_eqb (uid, tid)) (Pg.users_pinned_tags d) = true ->
  fst (Pg.link_user_tag uid name d) = inr []
  /\ Pg.tags (snd (Pg.link_user_tag uid name d)) = Pg.tags d
  /\ Pg.users_pinned_tags (snd (Pg.link_user_tag uid name d))
     = Pg.users_pinned_tags d.
Proof.
  intros T P. unfold Pg.link_user_tag. rewrite T, P. simpl.
  unfold Pg.tag_id_of in T.
  destruct (find (fun t => String.eqb (Pg.t_name t) name) (Pg.tags d)) as [t|] eqn:F;
    [|discriminate].
  assert (C : existsb (fun t => String.eqb (Pg.t_name t) name
                                || (Pg.t_id t =? Pg.tags_id_seq d)) (Pg.tags d) = true).
  { apply find_some in F. apply existsb_exists. exists t.
    destruct F as [I E]. split; [exact I|]. now rewrite E. }
  rewrite C. simpl. now rewrite app_nil_r.
Qed.

(** After a link by an existing user the pair is there, whatever the
    call answered. *)
Lemma link_then_linked uid name d :
  Pg.has_user uid d = true ->
  tags_seq_ahead d ->
  exists tid,
    Pg.tag_id_of name (snd (Pg.link_user_tag uid name d)) = Some tid
    /\ existsb (Pg.pin_eqb (uid, tid))
               (Pg.users_pinned_tags (snd (Pg.link_user_tag uid name d))) = true.
Proof.
  intros U [Ht Hp].
  destruct (Pg.tag_id_of name d) as [tid|] eqn:T.
  - exists tid.
    destruct (existsb (Pg.pin_eqb (uid, tid)) (Pg.users_pinned_tags d)) eqn:P.
    + destruct (link_when_linked uid name tid d T P) as (_ & E1 & E2).
      rewrite E2. split; [|exact P].
      unfold Pg.tag_id_of in *. now rewrite E1.
    + unfold Pg.link_user_tag. rewrite T, P, U. simpl.
      unfold Pg.tag_id_of in T.
      destruct (find (fun t => String.eqb (Pg.t_name t) name) (Pg.tags d))
        as [t|] eqn:F; [|discriminate].
      assert (C : existsb (fun t => String.eqb (Pg.t_name t) name
                                    || (Pg.t_id t =? Pg.tags_id_seq d))
                          (Pg.tags d) = true).
      { apply find_some in F. apply existsb_exists. exists t.
        destruct F as [I E]. split; [exact I|]. now rewrite E. }
      rewrite C. simpl. rewrite P. simpl. split.
      * unfold Pg.tag_id_of. simpl. rewrite app_nil_r, F. exact T.
      * rewrite existsb_app. simpl. unfold Pg.pin_eqb at 2. simpl.
        now rewrite String.eqb_refl, Z.eqb_refl, orb_true_r.
  - exists (Pg.tags_id_seq d).
    unfold Pg.link_user_tag. rewrite T. simpl.
    unfold Pg.tag_id_of in T.
    destruct (find (fun t => String.eqb (Pg.t_name t) name) (Pg.tags d))
      as [t|] eqn:F; [discriminate|].
    assert (C : existsb (fun t => String.eqb (Pg.t_name t) name
                                  || (Pg.t_id t =? Pg.tags_id_seq d))
                        (Pg.tags d) = false).
    { apply not_true_is_false. intros X. apply existsb_exists in X.
      destruct X as (t & I & X). apply orb_true_iff in X. destruct X as [X|X].
      - rewrite (find_none _ _ F t I) in X. discriminate.
      - rewrite Forall_forall in Ht. specialize (Ht t I).
        apply Z.eqb_eq in X. lia. }
    rewrite C. simpl.
    assert (P : existsb (Pg.pin_eqb (uid, Pg.tags_id_seq d))
                        (Pg.users_pinned_tags d) = false).
    { apply not_true_is_false. intros X. apply existsb_exists in X.
      destruct X as (p & I & X). rewrite Forall_forall in Hp. specialize (Hp p I).
      unfold Pg.pin_eqb in X. apply andb_true_iff in X. destruct X as [_ X].
      simpl in X. apply Z.eqb_eq in X. lia. }
    rewrite P, U. simpl. split.
    + unfold Pg.tag_id_of. simpl. rewrite (find_app_none _ _ _ F). simpl.
      now rewrite String.eqb_refl.
    + rewrite existsb_app. simpl. unfold Pg.pin_eqb at 2. simpl.
      now rewrite String.eqb_refl, Z.eqb_refl, orb_true_r.
Qed.

(** POST /ideas/:id/:tag: whatever the first call did, a second call with
    the same pair is rejected by the store. *)
Lemma insert_idea_tag_twice id name d :
  exists e, fst (Pg.insert_idea_tag id name (snd (Pg.insert_idea_tag id name d))) = inl e.
Proof.
  unfold Pg.insert_idea_tag, Pg.integer.
  destruct (Pg.int4 id); [|simpl; eauto].
  destruct (Pg.scalar_tag_id name d) as [e|[tid|]] eqn:S.
  - simpl. rewrite S. simpl. eauto.
  - destruct (existsb (Pg.pair_eqb (id, tid)) (Pg.ideas_tags d)) eqn:P.
    + simpl. rewrite S, P. simpl. eauto.
    + destruct (Pg.has_idea id d) eqn:I; simpl.
      * replace (Pg.scalar_tag_id name (Pg.with_ideas_tags _ d))
          with (Pg.scalar_tag_id name d) by reflexivity.
        rewrite S. simpl. rewrite existsb_app. simpl.
        unfold Pg.pair_eqb at 2. simpl. rewrite !Z.eqb_refl. simpl.
        rewrite orb_true_r. simpl. eauto.
      * rewrite S, P, I. simpl. eauto.
  - simpl. rewrite S. simpl. eauto.
Qed.

End Relink.

(** C1, as the code has it.  Linking a tag to an existing user a second
    time creates no second tag row and no second junction row, and the
    second call is answered 404 "Either user or tag not found": the
    statement returns no row when the pair is there, and the handler
    reads no row as an absent user or tag.  On an idea
    (POST /ideas/:id/:tag) the second call is answered 500. *)
Theorem relink_is_an_error :
  forall w : world,
    (forall uid name : string,
        Pg.has_user uid (db w) = true ->
        tags_seq_ahead (db w) ->
        let w1 := after (Users.add_tag uid name) w in
        let w2 := after (Users.add_tag uid name) w1 in
        status (answer (Users.add_tag uid name) w1) = 404
        /\ Pg.tags (db w2) = Pg.tags (db w1)
        /\ Pg.users_pinned_tags (db w2) = Pg.users_pinned_tags (db w1))
    /\ (forall (id : Z) (name : string),
        status (answer (Ideas.add_tag id name) (after (Ideas.add_tag id name) w)) = 500).
Proof.
  intros w. split.
  - intros uid name U S w1 w2.
    assert (L : exists tid,
               Pg.tag_id_of name (db w1) = Some tid
               /\ existsb (Pg.pin_eqb (uid, tid)) (Pg.users_pinned_tags (db w1)) = true).
    { destruct (link_then_linked uid name (db w) U S) as (tid & T & P).
      exists tid. unfold w1, after, run, Users.add_tag, bind, sql.
      destruct (Pg.link_user_tag uid name (db w)) as [[e|[|r rs]] d1]; simpl in *; auto. }
    destruct L as (tid & T & P).
    destruct (link_when_linked uid name tid (db w1) T P) as (R & E1 & E2).
    unfold w2, answer, after, run, Users.add_tag, bind, sql.
    destruct (Pg.link_user_tag uid name (db w1)) as [[e|rows] d2]; simpl in *;
      [discriminate|].
    inversion R; subst rows. simpl. auto.
  - intros id name.
    destruct (insert_idea_tag_twice id name (db w)) as (e & E).
    unfold answer, after, run, Ideas.add_tag, bind, sql.
    destruct (Pg.insert_idea_tag id name (db w)) as [[e1|r1] d1]; simpl in *;
      destruct (Pg.insert_idea_tag id name d1) as [[e2|r2] d2]; simpl in *;
      try discriminate; destruct e2; reflexivity.
Qed.

(** POST /user/u1/x twice for the existing user u1; and POST /ideas with
    the tag x named twice, the one way POST /ideas meets a pair again. *)
Lemma relink_is_an_error_witness :
  let w1 := after (Users.add_tag "u1" "x") Sample.w0 in
  let w2 := after (Users.add_tag "u1" "x") w1 in
  let twice := Ideas.mk_body "T" "C" "u1" [] "public" 0 0 ["x"; "x"] in
  (status (answer (Users.add_tag "u1" "x") Sample.w0) = 200
   /\ status (answer (Users.add_tag "u1" "x") w1) = 404
   /\ Pg.tags (db w2) = Pg.tags (db w1)
   /\ Pg.users_pinned_tags (db w2) = Pg.users_pinned_tags (db w1))
  /\ (status (answer (Ideas.create twice) Sample.w0) = 200
      /\ Pg.tags (db (after (Ideas.create twice) Sample.w0)) = [Pg.mk_tag 1 "x" 0 0]
      /\ Pg.ideas_tags (db (after (Ideas.create twice) Sample.w0)) = [(1, 1)]).
Proof.
  intros w1 w2 twice. split.
  - split; [reflexivity|].
    exact (proj1 (relink_is_an_error Sample.w0) "u1" "x" eq_refl
                 (conj (Forall_nil _) (Forall_nil _))).
  - repeat split.
Defined.

(* ================================================================== *)
(** * Validation comes first *)

Section Validation.
Variable V : schemas.

Lemma zValidator_rejects {R A} (schema : R -> option A) raw next w :
  accepted schema raw = false ->
  zValidator schema raw next w
  = (inr (mk_response 400 (Some (Js.Obj [("success", Js.Bool false)]))), w).
Proof.
  unfold accepted, zValidator. destruct (schema raw); [discriminate | reflexivity].
Qed.

Lemma zValidator_accepts {R A} (schema : R -> option A) raw next :
  accepted schema raw = true ->
  exists v, schema raw = Some v /\ zValidator schema raw next = next v.
Proof.
  unfold accepted, zValidator. destruct (schema raw) as [v|]; [|discriminate].
  intros _. exists v. split; reflexivity.
Qed.

Ltac first_rejects H := apply zValidator_rejects; exact H.

Ltac second_rejects H :=
  match goal with
  | |- zValidator ?s ?raw _ _ = _ =>
      let A := fresh "A" in
      destruct (accepted s raw) eqn:A;
      [ simpl in H; unfold zValidator at 1; unfold accepted in A;
        destruct (s raw); [first_rejects H | discriminate A]
      | first_rejects A ]
  end.

Lemma route_rejects e r w :
  valid V e r = false -> route V e r w = (inr rejection, w).
Proof.
  intros H. unfold rejection.
  destruct e; simpl in H; try discriminate H; unfold route;
    first [first_rejects H | second_rejects H].
Qed.

End Validation.

(** C8.  A request that one of its route's validators rejects is answered
    400 before the handler runs: the entity store and the object store
    are as they were, and nothing at all was sent to either. *)
Theorem rejected_before_any_store_access :
  forall (V : schemas) (e : endpoint) (r : request) (w : world),
    valid V e r = false ->
    status (fst (fetch V e r w)) = 400
    /\ db (snd (fetch V e r w)) = db w
    /\ s3 (snd (fetch V e r w)) = s3 w
    /\ sent (snd (fetch V e r w)) = sent w.
Proof.
  intros V e r w H. unfold fetch. rewrite (route_rejects V e r w H).
  simpl. repeat split.
Qed.

(** POST /ideas whose body lacks [tags], on the sample reading of the
    schemas. *)
Lemma rejected_before_any_store_access_witness :
  valid Sample.parsers POST_ideas Sample.bad_request = false
  /\ status (fst (fetch Sample.parsers POST_ideas Sample.bad_request Sample.w0)) = 400
  /\ db (snd (fetch Sample.parsers POST_ideas Sample.bad_request Sample.w0))
     = db Sample.w0
  /\ s3 (snd (fetch Sample.parsers POST_ideas Sample.bad_request Sample.w0))
     = s3 Sample.w0
  /\ sent (snd (fetch Sample.parsers POST_ideas Sample.bad_request Sample.w0))
     = sent Sample.w0.
Proof.
  split; [reflexivity|].
  exact (rejected_before_any_store_access
           Sample.parsers POST_ideas Sample.bad_request Sample.w0 eq_refl).
Defined.

(* ================================================================== *)
(** * Operations on a row that is not there *)

Section AbsentRow.

Lemma filter_absent {A} (p : A -> bool) l : existsb p l = false -> filter p l = [].
Proof.
  induction l as [|a l IH]; simpl; [reflexivity|].
  destruct (p a); simpl; [discriminate | exact IH].
Qed.

Lemma users_joined_from d r : In r (Pg.users_joined d) -> In (fst (fst r)) (Pg.users d).
Proof.
  destruct r as [[u x] y]. unfold Pg.users_joined. intros H.
  apply left_join_from_left in H. now apply left_join_from_left in H.
Qed.

Lemma filter_nil_of {A} (p : A -> bool) l :
  (forall x, In x l -> p x = false) -> filter p l = [].
Proof.
  induction l as [|a l IH]; simpl; intros H; [reflexivity|].
  rewrite (H a) by auto. apply IH. intros x I. apply H. auto.
Qed.

Lemma select_user_absent id d :
  Pg.has_user id d = false ->
  Pg.select_users_with_tags (fun r => String.eqb (Pg.u_id (fst (fst r))) id) d = [].
Proof.
  intros H. unfold Pg.select_users_with_tags.
  rewrite filter_nil_of; [reflexivity|].
  intros r I. apply users_joined_from in I.
  apply not_true_is_false. intros E.
  assert (Pg.has_user id d = true) as T; [|congruence].
  apply existsb_exists. eexists. split; [exact I | exact E].
Qed.

End AbsentRow.

(* ================================================================== *)
(** * Groups of joined rows *)

Section Groups.
Context {A K : Type}.
Variable K_dec : forall x y : K, {x = y} + {x <> y}.

Lemma distinct_in (k : K) ks : In k (Rel.distinct K_dec ks) <-> In k ks.
Proof.
  induction ks as [|k' ks IH]; simpl; [tauto|].
  rewrite filter_In, IH. split.
  - intros [E|[I _]]; auto.
  - intros [E|I]; [auto|].
    destruct (K_dec k k') as [->|N]; [auto|].
    right. split; [exact I|]. unfold Rel.same.
    destruct (K_dec k k'); [contradiction | reflexivity].
Qed.

End Groups.

Section NoTags.

Lemma filter_all {A} (l : list A) : filter (fun _ => true) l = l.
Proof. induction l as [|a l IH]; simpl; [reflexivity | now rewrite IH]. Qed.

End NoTags.

(* ================================================================== *)
(** * The access filter of GET /ideas *)

Section FilterFacts.


Lemma filter_swap {X} (p q : X -> bool) l :
  filter p (filter q l) = filter q (filter p l).
Proof.
  induction l as [|a l IH]; simpl; [reflexivity|].
  destruct (q a) eqn:Q, (p a) eqn:P; simpl; rewrite ?Q, ?P, IH; reflexivity.
Qed.

Lemma filter_redundant {X} (p q : X -> bool) l :
  (forall x, In x l -> p x = true -> q x = true) ->
  filter q (filter p l) = filter p l.
Proof.
  induction l as [|a l IH]; simpl; intros H; [reflexivity|].
  destruct (p a) eqn:P; simpl.
  - rewrite (H a) by auto. rewrite IH; [reflexivity|]. intros x I. apply H. auto.
  - apply IH. intros x I. apply H. auto.
Qed.

Lemma map_filter_through {X Y} (f : X -> Y) (p : X -> bool) (q : Y -> bool) l :
  (forall x, q (f x) = p x) -> map f (filter p l) = filter q (map f l).
Proof.
  intros H. induction l as [|a l IH]; simpl; [reflexivity|].
  rewrite H. destruct (p a); simpl; now rewrite IH.
Qed.

Context {A K : Type}.
Variable K_dec : forall x y : K, {x = y} + {x <> y}.

Lemma distinct_filter (p : K -> bool) ks :
  Rel.distinct K_dec (filter p ks) = filter p (Rel.distinct K_dec ks).
Proof.
  induction ks as [|k ks IH]; simpl; [reflexivity|].
  destruct (p k) eqn:P; simpl.
  - rewrite IH. f_equal. apply filter_swap.
  - rewrite IH, filter_swap. symmetry. apply filter_redundant.
    intros x _ Px. unfold Rel.same. destruct (K_dec x k); [congruence | reflexivity].
Qed.

(** A WHERE clause that reads grouped columns only keeps or drops whole
    groups. *)
Lemma group_by_filter_key (key : A -> K) (p : K -> bool) rows :
  Rel.group_by K_dec key (filter (fun r => p (key r)) rows)
  = filter (fun g => p (fst g)) (Rel.group_by K_dec key rows).
Proof.
  unfold Rel.group_by.
  rewrite (map_filter_through key (fun r => p (key r)) p) by reflexivity.
  rewrite distinct_filter.
  rewrite <- (map_filter_through
                (fun k => (k, filter (fun r => Rel.same K_dec (key r) k) rows))
                p (fun g => p (fst g))) by reflexivity.
  apply map_ext_in. intros k I. apply filter_In in I. destruct I as [_ Pk].
  f_equal. rewrite filter_swap. apply filter_redundant.
  intros x _ S. apply same_true in S. now rewrite S.
Qed.

End FilterFacts.

Section AccessFilter.



End AccessFilter.

(* ================================================================== *)
(** * The sort key of the listings *)

Section SortKey.

Lemma text_from_shape t : forall t' n,
  shape t = shape t' -> text_from n t = text_from n t'.
Proof.
  induction t as [|p t IH]; intros [|p' t'] n H; simpl in H; try discriminate;
    [reflexivity|].
  destruct p, p'; inversion H; subst; simpl; f_equal; auto.
  f_equal. auto.
Qed.

Lemma sort_by_sql_shape s s' :
  Js.truthy_string s' = Js.truthy_string s ->
  shape (Ideas.sort_by_sql (Some s')) = shape (Ideas.sort_by_sql (Some s)).
Proof. simpl. intros ->. destruct (Js.truthy_string s); reflexivity. Qed.

Lemma listing_sql_shape s s' f a :
  Js.truthy_string s' = Js.truthy_string s ->
  shape (Ideas.listing_sql (Some s') f a) = shape (Ideas.listing_sql (Some s) f a).
Proof.
  intros H. unfold Ideas.listing_sql, shape. rewrite !map_app.
  fold (shape (Ideas.sort_by_sql (Some s'))). fold (shape (Ideas.sort_by_sql (Some s))).
  now rewrite (sort_by_sql_shape s s' H).
Qed.

Lemma parameters_app (t t' : template) :
  parameters (t ++ t')%list = (parameters t ++ parameters t')%list.
Proof.
  induction t as [|[s|v] t IH]; simpl; [reflexivity | exact IH | now rewrite IH].
Qed.

Lemma given_truthy s : Js.truthy_string s = true -> Ideas.given (Some s) = Some s.
Proof. simpl. now intros ->. Qed.

Lemma given_falsy s : Js.truthy_string s = false -> Ideas.given (Some s) = None.
Proof. simpl. now intros ->. Qed.

End SortKey.

(** C4.  No sort value a caller supplies is used as a column name,
    whether it is one of the documented columns or not.  In GET /ideas the
    text of the statement is the same for every non-empty value, the value
    travels as a bound parameter, and the store rejects the statement
    (500); an empty value is dropped with the whole ORDER BY.  In
    GET /groups the text is [SELECT * FROM user_groups $1] for every
    value and the answer is 500. *)
Theorem sort_key_is_never_a_column :
  forall (w : world) (s : string) (filter access : option string),
    (forall s' : string,
        Js.truthy_string s' = Js.truthy_string s ->
        text (Ideas.listing_sql (Some s') filter access)
        = text (Ideas.listing_sql (Some s) filter access))
    /\ (Js.truthy_string s = true ->
        In s (parameters (Ideas.listing_sql (Some s) filter access))
        /\ status (answer (Ideas.all (Some s) filter access) w) = 500
        /\ db (after (Ideas.all (Some s) filter access) w) = db w)
    /\ (Js.truthy_string s = false ->
        Ideas.listing_sql (Some s) filter access = Ideas.listing_sql None filter access
        /\ answer (Ideas.all (Some s) filter access) w
           = answer (Ideas.all None filter access) w)
    /\ text (Groups.listing_sql (Some s)) = "SELECT * FROM user_groups $1"
    /\ In (Groups.sort_by_sql (Some s)) (parameters (Groups.listing_sql (Some s)))
    /\ status (answer (Groups.all (Some s)) w) = 500.
Proof.
  intros w s filter access. split; [|split; [|split; [|split; [|split]]]].
  - intros s' H. unfold text. apply text_from_shape. now apply listing_sql_shape.
  - intros T. split; [|split].
    + unfold Ideas.listing_sql. rewrite !parameters_app. simpl. rewrite T.
      apply in_or_app; right. apply in_or_app; right. simpl. auto.
    + unfold answer, run, Ideas.all, bind, sql. rewrite (given_truthy s T). reflexivity.
    + unfold after, run, Ideas.all, bind, sql. rewrite (given_truthy s T). reflexivity.
  - intros F.
    assert (E : Ideas.listing_sql (Some s) filter access
                = Ideas.listing_sql None filter access).
    { unfold Ideas.listing_sql. simpl. now rewrite F. }
    split; [exact E|].
    unfold answer, run, Ideas.all. rewrite E, (given_falsy s F). reflexivity.
  - reflexivity.
  - simpl. auto.
  - reflexivity.
Qed.

(** A value outside the documented columns and one of them: the same
    statement text, and 500 for both. *)
Lemma sort_key_is_never_a_column_witness :
  ~ In "id; DROP TABLE ideas" Ideas.sort_by_examples
  /\ In "upvotes" Ideas.sort_by_examples
  /\ text (Ideas.listing_sql (Some "id; DROP TABLE ideas") None None)
     = text (Ideas.listing_sql (Some "upvotes") None None)
  /\ status (answer (Ideas.all (Some "id; DROP TABLE ideas") None None) Sample.w1) = 500
  /\ status (answer (Ideas.all (Some "upvotes") None None) Sample.w1) = 500.
Proof.
  split; [|split; [|split; [|split]]].
  - simpl. intros [H|[H|[H|[]]]]; discriminate H.
  - simpl. auto.
  - exact (proj1 (sort_key_is_never_a_column Sample.w1 "upvotes" None None)
                 "id; DROP TABLE ideas" eq_refl).
  - exact (proj1 (proj2 (proj1 (proj2 (sort_key_is_never_a_column
             Sample.w1 "id; DROP TABLE ideas" None None)) eq_refl))).
  - exact (proj1 (proj2 (proj1 (proj2 (sort_key_is_never_a_column
             Sample.w1 "upvotes" None None)) eq_refl))).
Defined.

(* ================================================================== *)
(** * The schema's constraints on tags hold after every request *)

Section Consistency.

Lemma filter_true {X} (l : list X) : l = filter (fun _ => true) l.
Proof. induction l as [|a l IH]; simpl; [reflexivity | now rewrite <- IH]. Qed.

Lemma pair_eqb_eq p q : Pg.pair_eqb p q = true <-> p = q.
Proof.
  destruct p, q. unfold Pg.pair_eqb. simpl.
  rewrite andb_true_iff, !Z.eqb_eq. split; [intros [-> ->]; reflexivity|].
  intros E. inversion E. auto.
Qed.

Lemma pin_eqb_eq p q : Pg.pin_eqb p q = true <-> p = q.
Proof.
  destruct p, q. unfold Pg.pin_eqb. simpl.
  rewrite andb_true_iff, String.eqb_eq, Z.eqb_eq. split; [intros [-> ->]; reflexivity|].
  intros E. inversion E. auto.
Qed.

Lemma not_existsb_not_in {X} (eqb : X -> X -> bool) x l :
  (forall y, eqb x y = true <-> x = y) ->
  existsb (eqb x) l = false -> ~ In x l.
Proof.
  intros S H I.
  assert (existsb (eqb x) l = true) as T; [|congruence].
  apply existsb_exists. exists x. split; [exact I | now apply S].
Qed.

Lemma NoDup_snoc {X} (l : list X) x : NoDup l -> ~ In x l -> NoDup (l ++ [x]).
Proof.
  intros N I. apply NoDup_app; [exact N | repeat constructor; auto |].
  intros a Ia [<-|[]]. contradiction.
Qed.

Lemma insertable_NoDup {X} (eqb : X -> X -> bool) rows :
  (forall x y, eqb x y = true <-> x = y) ->
  forall table,
    Pg.insertable eqb rows table = true -> NoDup table -> NoDup (table ++ rows).
Proof.
  intros S. induction rows as [|r rows IH]; intros table H N; simpl in *.
  - now rewrite app_nil_r.
  - apply andb_true_iff in H. destruct H as [H1 H2].
    apply negb_true_iff in H1.
    replace (table ++ r :: rows)%list with ((table ++ [r]) ++ rows)%list
      by (now rewrite <- app_assoc).
    apply IH; [exact H2|]. apply NoDup_snoc; [exact N|].
    eapply not_existsb_not_in; [apply S | exact H1].
Qed.

Lemma consistent_narrowed d d' : narrowed d d' -> consistent d -> consistent d'.
Proof.
  intros (T & S & (f & P) & (g & I)) (N1 & N2 & N3 & N4 & A1 & A2).
  unfold consistent, tags_seq_ahead. rewrite T, S, P, I.
  repeat split; auto using NoDup_filter.
  apply Forall_forall. intros p Hp. apply filter_In in Hp.
  rewrite Forall_forall in A2. now apply A2.
Qed.

(** Solves [narrowed d (snd (q d))] for a statement that leaves the tag
    tables alone or deletes from the junctions. *)
Ltac narrowing :=
  unfold Pg.integer, Pg.integers; cbv beta;
  repeat match goal with
         | |- context [if ?c then _ else _] => destruct c
         | |- context [match ?c with _ => _ end] => destruct c
         end;
  simpl; repeat split;
  first [ eexists; reflexivity | exists (fun _ => true); apply filter_true ].

Lemma carries_narrowed {A} (q : Pg.stmt A) :
  (forall d, narrowed d (snd (q d))) -> carries q.
Proof. intros H d C. eapply consistent_narrowed; [apply H | exact C]. Qed.

Lemma carries_integer {A} z (q : Pg.stmt A) : carries q -> carries (Pg.integer z q).
Proof. intros H d C. unfold Pg.integer. destruct (Pg.int4 z); [now apply H | exact C]. Qed.

Lemma carries_reading {A} (f : Pg.database -> A) : carries (Pg.reading f).
Proof. apply carries_narrowed. intros d. unfold Pg.reading. narrowing. Qed.

Lemma carries_failing {A} e : carries (@Pg.failing A e).
Proof. apply carries_narrowed. intros d. unfold Pg.failing. narrowing. Qed.

Lemma carries_insert_idea t c u f a : carries (Pg.insert_idea t c u f a).
Proof. apply carries_narrowed. intros d. unfold Pg.insert_idea. narrowing. Qed.

Lemma carries_delete_idea id : carries (Pg.delete_idea id).
Proof.
  apply carries_narrowed. intros d.
  unfold Pg.delete_idea, Pg.cascade_ideas, Pg.cascade_feedbacks. narrowing.
Qed.

Lemma carries_update_ideas_vote c delta id : carries (Pg.update_ideas_vote c delta id).
Proof. apply carries_narrowed. intros d. unfold Pg.update_ideas_vote. narrowing. Qed.

Lemma carries_update_ideas_files f url id : carries (Pg.update_ideas_files f url id).
Proof. apply carries_narrowed. intros d. unfold Pg.update_ideas_files. narrowing. Qed.

Lemma carries_delete_idea_tag id name : carries (Pg.delete_idea_tag id name).
Proof.
  apply carries_narrowed. intros d. unfold Pg.delete_idea_tag.
  destruct (Pg.scalar_tag_id name d) as [e|[tid|]]; narrowing.
Qed.

Lemma carries_insert_user u : carries (Pg.insert_user u).
Proof. apply carries_narrowed. intros d. unfold Pg.insert_user. narrowing. Qed.

Lemma carries_update_user id n e r i : carries (Pg.update_user id n e r i).
Proof. apply carries_narrowed. intros d. unfold Pg.update_user. narrowing. Qed.

Lemma carries_delete_user id : carries (Pg.delete_user id).
Proof.
  apply carries_narrowed. intros d.
  unfold Pg.delete_user, Pg.cascade_users, Pg.cascade_ideas, Pg.cascade_feedbacks.
  narrowing.
Qed.

Lemma carries_unlink_user_tag uid name : carries (Pg.unlink_user_tag uid name).
Proof.
  apply carries_narrowed. intros d. unfold Pg.unlink_user_tag.
  destruct (Pg.tag_id_of name d); narrowing.
Qed.

Lemma carries_insert_group t de u l : carries (Pg.insert_group t de u l).
Proof. apply carries_narrowed. intros d. unfold Pg.insert_group. narrowing. Qed.

Lemma carries_update_group id t de u l : carries (Pg.update_group id t de u l).
Proof. apply carries_narrowed. intros d. unfold Pg.update_group. narrowing. Qed.

Lemma carries_delete_group id : carries (Pg.delete_group id).
Proof. apply carries_narrowed. intros d. unfold Pg.delete_group. narrowing. Qed.

Lemma carries_update_group_members f u id : carries (Pg.update_group_members f u id).
Proof. apply carries_narrowed. intros d. unfold Pg.update_group_members. narrowing. Qed.

Lemma carries_insert_feedback i u c f l t up down :
  carries (Pg.insert_feedback i u c f l t up down).
Proof. apply carries_narrowed. intros d. unfold Pg.insert_feedback. narrowing. Qed.

Lemma carries_insert_ideas_feedbacks i f : carries (Pg.insert_ideas_feedbacks i f).
Proof. apply carries_narrowed. intros d. unfold Pg.insert_ideas_feedbacks. narrowing. Qed.

Lemma carries_update_feedback id i u c f l t up down :
  carries (Pg.update_feedback id i u c f l t up down).
Proof. apply carries_narrowed. intros d. unfold Pg.update_feedback. narrowing. Qed.

Lemma carries_delete_feedback id : carries (Pg.delete_feedback id).
Proof.
  apply carries_narrowed. intros d. unfold Pg.delete_feedback, Pg.cascade_feedbacks.
  narrowing.
Qed.

Lemma carries_delete_ideas_feedbacks id : carries (Pg.delete_ideas_feedbacks id).
Proof. apply carries_narrowed. intros d. unfold Pg.delete_ideas_feedbacks. narrowing. Qed.

Lemma carries_update_feedbacks_vote c delta id :
  carries (Pg.update_feedbacks_vote c delta id).
Proof. apply carries_narrowed. intros d. unfold Pg.update_feedbacks_vote. narrowing. Qed.

Lemma carries_update_tags_vote c delta name : carries (Pg.update_tags_vote c delta name).
Proof.
  intros d C. unfold Pg.update_tags_vote. cbv zeta.
  destruct (forallb _ _); [|exact C].
  destruct C as (N1 & N2 & N3 & N4 & A1 & A2).
  set (hit := fun t => String.eqb (Pg.t_name t) name).
  set (f := fun t => if hit t then Pg.bump_tag c delta t else t).
  assert (Fn : forall t, Pg.t_name (f t) = Pg.t_name t).
  { intros t. unfold f. destruct (hit t); [destruct c|]; reflexivity. }
  assert (Fi : forall t, Pg.t_id (f t) = Pg.t_id t).
  { intros t. unfold f. destruct (hit t); [destruct c|]; reflexivity. }
  unfold consistent, tags_seq_ahead. simpl. rewrite !map_map.
  rewrite (map_ext _ _ Fn), (map_ext _ _ Fi). repeat split; auto.
  apply Forall_forall. intros t I. apply in_map_iff in I. destruct I as (t0 & <- & I).
  change (Pg.t_id (f t0) < Pg.tags_id_seq d).
  rewrite Fi. rewrite Forall_forall in A1. now apply A1.
Qed.

(** The upsert loop keeps names and ids unique and ids under the sequence,
    which only moves forward. *)
Lemma insert_tags_rows_consistent names :
  forall ts seq ts',
    fst (Pg.insert_tags_rows names ts seq) = inr ts' ->
    NoDup (map Pg.t_name ts) -> NoDup (map Pg.t_id ts) ->
    Forall (fun t => Pg.t_id t < seq) ts ->
    NoDup (map Pg.t_name ts') /\ NoDup (map Pg.t_id ts')
    /\ Forall (fun t => Pg.t_id t < snd (Pg.insert_tags_rows names ts seq)) ts'.
Proof.
  induction names as [|n names IH]; intros ts seq ts' H Nn Ni A; simpl in *.
  - inversion H; subst. auto.
  - assert (Up : Forall (fun t => Pg.t_id t < seq + 1) ts).
    { eapply Forall_impl; [|exact A]. simpl. intros. lia. }
    destruct (existsb (fun t => String.eqb (Pg.t_name t) n) ts) eqn:E.
    + now apply IH.
    + destruct (existsb (fun t => Pg.t_id t =? seq) ts) eqn:E2; [discriminate|].
      apply IH; [exact H | | |].
      * rewrite map_app. simpl. apply NoDup_snoc; [exact Nn|].
        now apply existsb_name_false.
      * rewrite map_app. simpl. apply NoDup_snoc; [exact Ni|].
        intros I. apply in_map_iff in I. destruct I as (t & Et & I).
        rewrite Forall_forall in A. specialize (A t I). lia.
      * apply Forall_app. split; [exact Up|]. repeat constructor. simpl. lia.
Qed.

Lemma insert_tags_rows_seq names : forall ts seq,
  seq <= snd (Pg.insert_tags_rows names ts seq).
Proof.
  induction names as [|n names IH]; intros ts seq; simpl; [lia|].
  destruct (existsb _ ts).
  - specialize (IH ts (seq + 1)). lia.
  - destruct (existsb _ ts); simpl; [lia|].
    specialize (IH (ts ++ [Pg.mk_tag seq n 0 0])%list (seq + 1)). lia.
Qed.

Lemma carries_insert_tags names : carries (Pg.insert_tags names).
Proof.
  intros d (N1 & N2 & N3 & N4 & A1 & A2). unfold Pg.insert_tags.
  assert (S := insert_tags_rows_seq names (Pg.tags d) (Pg.tags_id_seq d)).
  assert (A2' : Forall (fun p : string * Z =>
                          snd p < snd (Pg.insert_tags_rows names (Pg.tags d)
                                                           (Pg.tags_id_seq d)))
                       (Pg.users_pinned_tags d)).
  { eapply Forall_impl; [|exact A2]. simpl. intros. lia. }
  destruct (fst (Pg.insert_tags_rows names (Pg.tags d) (Pg.tags_id_seq d)))
    as [e|ts'] eqn:R.
  - unfold consistent, tags_seq_ahead. simpl. repeat split; auto.
    eapply Forall_impl; [|exact A1]. simpl. intros. lia.
  - destruct (insert_tags_rows_consistent names _ _ _ R N1 N2 A1) as (M1 & M2 & M3).
    unfold consistent, tags_seq_ahead. simpl. repeat split; auto.
Qed.

Lemma carries_insert_ideas_tags rows : carries (Pg.insert_ideas_tags rows).
Proof.
  intros d C. unfold Pg.insert_ideas_tags.
  destruct (Pg.insertable Pg.pair_eqb rows (Pg.ideas_tags d)) eqn:I; simpl;
    [|exact C].
  destruct (forallb _ rows); simpl; [|exact C].
  destruct (forallb _ rows); simpl; [|exact C].
  destruct C as (N1 & N2 & N3 & N4 & A).
  unfold consistent, tags_seq_ahead. simpl. repeat split; auto; try apply A.
  eapply insertable_NoDup; [apply pair_eqb_eq | exact I | exact N4].
Qed.

Lemma carries_insert_idea_tag id name : carries (Pg.insert_idea_tag id name).
Proof.
  intros d C. unfold Pg.insert_idea_tag, Pg.integer.
  destruct (Pg.int4 id); [|exact C].
  destruct (Pg.scalar_tag_id name d) as [e|[tid|]]; [exact C| |exact C].
  destruct (existsb (Pg.pair_eqb (id, tid)) (Pg.ideas_tags d)) eqn:E; [exact C|].
  destruct (Pg.has_idea id d); simpl; [|exact C].
  destruct C as (N1 & N2 & N3 & N4 & A).
  unfold consistent, tags_seq_ahead. simpl. repeat split; auto; try apply A.
  apply NoDup_snoc; [exact N4|].
  eapply not_existsb_not_in; [apply pair_eqb_eq | exact E].
Qed.

Lemma tag_id_of_in name d tid :
  Pg.tag_id_of name d = Some tid ->
  exists t, In t (Pg.tags d) /\ Pg.t_id t = tid /\ Pg.t_name t = name.
Proof.
  unfold Pg.tag_id_of. intros H.
  destruct (find _ (Pg.tags d)) as [t|] eqn:F; [|discriminate].
  inversion H; subst. apply find_some in F. destruct F as [I E].
  exists t. repeat split; auto. now apply String.eqb_eq.
Qed.

Lemma carries_link_user_tag uid name : carries (Pg.link_user_tag uid name).
Proof.
  intros d (N1 & N2 & N3 & N4 & A1 & A2).
  assert (U1 : Forall (fun t => Pg.t_id t < Pg.tags_id_seq d + 1) (Pg.tags d)).
  { eapply Forall_impl; [|exact A1]. simpl. intros. lia. }
  assert (U2 : Forall (fun p : string * Z => snd p < Pg.tags_id_seq d + 1)
                      (Pg.users_pinned_tags d)).
  { eapply Forall_impl; [|exact A2]. simpl. intros. lia. }
  assert (Old : consistent (Pg.with_tags_id_seq (Pg.tags_id_seq d + 1) d)).
  { unfold consistent, tags_seq_ahead. simpl. repeat split; auto. }
  unfold Pg.link_user_tag.
  destruct (existsb (fun t => String.eqb (Pg.t_name t) name
                              || (Pg.t_id t =? Pg.tags_id_seq d)) (Pg.tags d)) eqn:C.
  - (* the name is there: no row inserted into tags *)
    simpl. destruct (Pg.tag_id_of name d) as [tid|] eqn:T; simpl.
    + destruct (existsb (Pg.pin_eqb (uid, tid)) (Pg.users_pinned_tags d)) eqn:P; simpl.
      * unfold consistent, tags_seq_ahead. simpl. rewrite app_nil_r.
        repeat split; auto.
      * destruct (Pg.has_user uid d); simpl; [|exact Old].
        unfold consistent, tags_seq_ahead. simpl. rewrite app_nil_r.
        repeat split; auto.
        -- apply NoDup_snoc; [exact N3|].
           eapply not_existsb_not_in; [apply pin_eqb_eq | exact P].
        -- apply Forall_app. split; [exact U2|]. repeat constructor. simpl.
           destruct (tag_id_of_in name d tid T) as (t & I & <- & _).
           rewrite Forall_forall in U1. now apply U1.
    + exact Old.
  - (* a new tag row with the id drawn *)
    assert (Nn : ~ In name (map Pg.t_name (Pg.tags d))).
    { apply existsb_name_false. apply not_true_is_false. intros X.
      apply existsb_exists in X. destruct X as (t & I & X).
      assert (existsb (fun t => String.eqb (Pg.t_name t) name
                                || (Pg.t_id t =? Pg.tags_id_seq d))
                      (Pg.tags d) = true) as Y; [|congruence].
      apply existsb_exists. exists t. split; [exact I|]. now rewrite X. }
    assert (T : Pg.tag_id_of name d = None).
    { unfold Pg.tag_id_of.
      destruct (find _ (Pg.tags d)) as [t|] eqn:F; [|reflexivity].
      apply find_some in F. destruct F as [I E]. apply String.eqb_eq in E.
      exfalso. apply Nn. apply in_map_iff. eauto. }
    rewrite T. simpl.
    destruct (existsb (Pg.pin_eqb (uid, Pg.tags_id_seq d)) (Pg.users_pinned_tags d))
      eqn:P; simpl; [exact Old|].
    destruct (Pg.has_user uid d); simpl; [|exact Old].
    unfold consistent, tags_seq_ahead. simpl. rewrite !map_app. simpl.
    repeat split.
    + apply NoDup_snoc; [exact N1 | exact Nn].
    + apply NoDup_snoc; [exact N2|].
      intros I. apply in_map_iff in I. destruct I as (t & Et & I).
      rewrite Forall_forall in A1. specialize (A1 t I). lia.
    + apply NoDup_snoc; [exact N3|].
      eapply not_existsb_not_in; [apply pin_eqb_eq | exact P].
    + exact N4.
    + apply Forall_app. split; [exact U1|]. repeat constructor. simpl. lia.
    + apply Forall_app. split; [exact U2|]. repeat constructor. simpl. lia.
Qed.

(** ** From statements to handlers to routes *)

Lemma handles_ret {A} (a : A) : handles (ret a).
Proof. intros w C. exact C. Qed.

Lemma handles_throw {A} e : handles (@throw A e).
Proof. intros w C. exact C. Qed.

Lemma handles_bind {A B} (m : handler A) (k : A -> handler B) :
  handles m -> (forall a, handles (k a)) -> handles (bind m k).
Proof.
  intros Hm Hk w C. unfold bind. specialize (Hm w C).
  destruct (m w) as [[e|a] w1]; simpl in *; [exact Hm|]. now apply Hk.
Qed.

Lemma handles_sql {A} text (q : Pg.stmt A) : carries q -> handles (sql text q).
Proof.
  intros Hq w C. unfold sql. specialize (Hq (db w) C).
  destruct (q (db w)) as [[e|a] d']; simpl in *; exact Hq.
Qed.

Lemma handles_sql_rows {A B} text (rows : list A) (q : list A -> Pg.stmt B) :
  (forall rows, carries (q rows)) -> handles (sql_rows text rows q).
Proof.
  intros Hq. unfold sql_rows. destruct rows; [apply handles_throw|].
  apply handles_sql, Hq.
Qed.

Lemma handles_zValidator {R A} (schema : R -> option A) raw next :
  (forall v, handles (next v)) -> handles (zValidator schema raw next).
Proof.
  intros H. unfold zValidator. destruct (schema raw); [apply H | apply handles_ret].
Qed.

Lemma handles_json v : handles (json v).
Proof. apply handles_ret. Qed.

Lemma handles_empty200 : handles empty200.
Proof. apply handles_ret. Qed.

Lemma handles_env_bucket : handles env_bucket.
Proof. intros w C. exact C. Qed.

Lemma handles_s3_write k b : handles (s3_write k b).
Proof. intros w C. exact C. Qed.

Lemma handles_s3_delete k : handles (s3_delete k).
Proof. intros w C. exact C. Qed.

Lemma handles_file_key id f : handles (Ideas.file_key id f).
Proof. destruct f; [apply handles_ret | apply handles_throw]. Qed.

Lemma carries_select_ideas_listing f a s : carries (Pg.select_ideas_listing f a s).
Proof.
  unfold Pg.select_ideas_listing. destruct s; [apply carries_failing | apply carries_reading].
Qed.

End Consistency.

Create HintDb carry.

#[local] Hint Resolve carries_integer carries_reading carries_failing
  carries_insert_idea carries_delete_idea carries_update_ideas_vote carries_update_ideas_files
  carries_delete_idea_tag carries_insert_user carries_update_user
  carries_delete_user carries_unlink_user_tag carries_insert_group
  carries_update_group carries_delete_group carries_update_group_members
  carries_insert_feedback carries_insert_ideas_feedbacks carries_update_feedback
  carries_delete_feedback carries_delete_ideas_feedbacks
  carries_update_feedbacks_vote carries_update_tags_vote carries_insert_tags
  carries_insert_ideas_tags carries_insert_idea_tag carries_link_user_tag
  carries_select_ideas_listing : carry.

(** Walks a handler statement by statement. *)
Ltac handling :=
  repeat first
    [ apply handles_ret | apply handles_throw | apply handles_json
    | apply handles_empty200 | apply handles_env_bucket
    | apply handles_s3_write | apply handles_s3_delete | apply handles_file_key
    | apply handles_bind; [|intro]
    | apply handles_sql; solve [auto with carry]
    | apply handles_sql_rows; intro; solve [auto with carry]
    | apply handles_zValidator; intro
    | match goal with
      | |- handles (match ?x with _ => _ end) => destruct x
      end ].

Section EveryRoute.
Variable V : schemas.

Lemma handles_tags : handles Tags.all /\ (forall n, handles (Tags.get n))
                     /\ (forall c d n, handles (Tags.vote c d n)).
Proof.
  repeat match goal with |- _ /\ _ => split end; intros; unfold Tags.all, Tags.get, Tags.vote, Pg.select_tag_names,
    Pg.select_tag; handling.
Qed.

Lemma handles_ideas :
  (forall s f a, handles (Ideas.all s f a))
  /\ (forall b, handles (Ideas.create b))
  /\ (forall id, handles (Ideas.get id))
  /\ (forall id, handles (Ideas.delete id))
  /\ (forall c d id, handles (Ideas.vote c d id))
  /\ (forall u, handles (Ideas.by_user u))
  /\ (forall id f, handles (Ideas.add_file id f))
  /\ (forall id f, handles (Ideas.remove_file id f))
  /\ (forall id t, handles (Ideas.add_tag id t))
  /\ (forall id t, handles (Ideas.remove_tag id t)).
Proof.
  repeat match goal with |- _ /\ _ => split end; intros;
    unfold Ideas.all, Ideas.create, Ideas.get, Ideas.delete, Ideas.vote,
      Ideas.by_user, Ideas.add_file, Ideas.remove_file, Ideas.add_tag,
      Ideas.remove_tag, Pg.select_idea_with_tags,
      Pg.select_tag_ids, Pg.select_ideas_by_user;
    handling.
Qed.

Lemma handles_users :
  handles Users.all
  /\ (forall u, handles (Users.create u))
  /\ (forall id u, handles (Users.update id u))
  /\ (forall id, handles (Users.delete id))
  /\ (forall id, handles (Users.get id))
  /\ (forall u t, handles (Users.add_tag u t))
  /\ (forall u t, handles (Users.remove_tag u t)).
Proof.
  repeat match goal with |- _ /\ _ => split end; intros;
    unfold Users.all, Users.create, Users.update, Users.delete, Users.get,
      Users.add_tag, Users.remove_tag, Pg.select_users, Pg.select_user;
    handling.
Qed.

Lemma handles_groups :
  (forall s, handles (Groups.all s))
  /\ (forall b, handles (Groups.create b))
  /\ (forall id, handles (Groups.get id))
  /\ (forall id b, handles (Groups.update id b))
  /\ (forall id, handles (Groups.delete id))
  /\ (forall id u, handles (Groups.add_user id u))
  /\ (forall id u, handles (Groups.remove_user id u)).
Proof.
  repeat match goal with |- _ /\ _ => split end; intros;
    unfold Groups.all, Groups.create, Groups.get, Groups.update, Groups.delete,
      Groups.add_user, Groups.remove_user, Pg.select_groups_listing, Pg.select_group;
    handling.
Qed.

Lemma handles_feedbacks :
  handles Feedbacks.all
  /\ (forall id, handles (Feedbacks.get id))
  /\ (forall b, handles (Feedbacks.create b))
  /\ (forall id b, handles (Feedbacks.update id b))
  /\ (forall id, handles (Feedbacks.delete id))
  /\ (forall u, handles (Feedbacks.by_user u))
  /\ (forall c d id, handles (Feedbacks.vote c d id)).
Proof.
  repeat match goal with |- _ /\ _ => split end; intros;
    unfold Feedbacks.all, Feedbacks.get, Feedbacks.create, Feedbacks.update,
      Feedbacks.delete, Feedbacks.by_user, Feedbacks.vote, Pg.select_feedbacks,
      Pg.select_feedback, Pg.select_feedbacks_by_user;
    handling.
Qed.

Lemma handles_route e r : handles (route V e r).
Proof.
  destruct handles_tags as (T1 & T2 & T3).
  destruct handles_ideas as (I1 & I2 & I3 & I4 & I5 & I6 & I7 & I8 & I9 & I10).
  destruct handles_users as (U1 & U2 & U3 & U4 & U5 & U6 & U7).
  destruct handles_groups as (G1 & G2 & G3 & G4 & G5 & G6 & G7).
  destruct handles_feedbacks as (F1 & F2 & F3 & F4 & F5 & F6 & F7).
  destruct e; unfold route, put_user,
    Tags.up, Tags.down, Tags.remove_up, Tags.remove_down,
    Ideas.up, Ideas.down, Ideas.remove_up, Ideas.remove_down,
    Feedbacks.up, Feedbacks.down, Feedbacks.remove_up, Feedbacks.remove_down;
    repeat first [ apply handles_zValidator; intro
                 | apply handles_ret | apply handles_throw
                 | match goal with
                   | |- handles (match ?x with _ => _ end) => destruct x
                   end ];
    auto.
Qed.

Lemma fetch_consistent e r w :
  consistent (db w) -> consistent (db (snd (fetch V e r w))).
Proof.
  intros C. unfold fetch. assert (H := handles_route e r w C).
  destruct (route V e r w) as [[x|resp] w']; exact H.
Qed.

End EveryRoute.

(** From the empty store, whatever requests are served and however the
    schemas read them: tag names and tag ids stay unique, every
    (user, tag) and (idea, tag) pair is there at most once, and the tags
    sequence stays ahead of every tag id in use. *)
Theorem consistent_after_every_request :
  forall (V : schemas) (reqs : list (endpoint * request)) (bucket : string),
    consistent (db (serve V reqs (start bucket))).
Proof.
  intros V reqs bucket.
  assert (C : consistent (db (start bucket))).
  { unfold consistent, tags_seq_ahead. simpl. repeat split; constructor. }
  revert C. generalize (start bucket) as w.
  induction reqs as [|[e r] reqs IH]; intros w C; simpl; [exact C|].
  apply IH. now apply fetch_consistent.
Qed.

(* ================================================================== *)
(** * The ids a DELETE removes *)

Section Cascade.

Lemma mem_in x l : Pg.mem x l = true <-> In x l.
Proof.
  unfold Pg.mem. rewrite existsb_exists. split.
  - intros (y & I & E). apply Z.eqb_eq in E. now subst.
  - intros I. exists x. split; [exact I | apply Z.eqb_refl].
Qed.

End Cascade.

(* ================================================================== *)
(** * GET /groups *)

(** GET /groups is answered 500 with or without a sort key, and reads
    nothing: its ORDER BY text, or the empty string, reaches the store as
    the parameter of [SELECT * FROM user_groups $1]. *)
Theorem groups_listing_is_rejected :
  forall (w : world) (sort_by : option string),
    text (Groups.listing_sql sort_by) = "SELECT * FROM user_groups $1"
    /\ parameters (Groups.listing_sql sort_by) = [Groups.sort_by_sql sort_by]
    /\ status (answer (Groups.all sort_by) w) = 500
    /\ db (after (Groups.all sort_by) w) = db w.
Proof.
  intros w sort_by. unfold Groups.listing_sql, answer, after, run, Groups.all.
  repeat split.
Qed.

(* ================================================================== *)
(** * The statuses of the answers *)

Section Steps.

Lemma run_bind {A} (m : handler A) (k : A -> handler response) w :
  run (bind m k) w
  = match m w with
    | (inl x, w1) => (onError x, w1)
    | (inr a, w1) => run (k a) w1
    end.
Proof. unfold run, bind. destruct (m w) as [[x|a] w1]; reflexivity. Qed.

Lemma sql_run {A} text (q : Pg.stmt A) w :
  sql text q w
  = match q (db w) with
    | (inl e, d) =>
        (inl (PostgresError e),
         mk_world d (s3 w) (AWS_BUCKET_NAME w) (sent w ++ [text])%list)
    | (inr a, d) =>
        (inr a, mk_world d (s3 w) (AWS_BUCKET_NAME w) (sent w ++ [text])%list)
    end.
Proof. unfold sql. destruct (q (db w)) as [[e|a] d]; reflexivity. Qed.

Lemma sql_rows_some {A B} text (rows : list A) (q : list A -> Pg.stmt B) :
  rows <> [] -> sql_rows text rows q = sql text (q rows).
Proof. intros N. destruct rows; [contradiction | reflexivity]. Qed.

End Steps.

Section Statuses.
Variable S : Z -> Prop.

Lemma throws_ret {A} (a : A) : throws_within S (ret a).
Proof. intros w. exact I. Qed.

Lemma throws_throw {A} x : S (status (onError x)) -> throws_within S (@throw A x).
Proof. intros H w. exact H. Qed.

Lemma throws_bind {A B} (m : handler A) (k : A -> handler B) :
  throws_within S m -> (forall a, throws_within S (k a)) -> throws_within S (bind m k).
Proof.
  intros Hm Hk w. unfold bind. specialize (Hm w).
  destruct (m w) as [[x|a] w1]; simpl in *; [exact Hm | apply Hk].
Qed.

Lemma throws_sql {A} text (q : Pg.stmt A) : S 500 -> throws_within S (sql text q).
Proof.
  intros H w. unfold sql. destruct (q (db w)) as [[e|a] d]; simpl; [exact H | exact I].
Qed.

Lemma throws_sql_rows {A B} text (rows : list A) (q : list A -> Pg.stmt B) :
  S 500 -> throws_within S (sql_rows text rows q).
Proof.
  intros H. unfold sql_rows. destruct rows; [now apply throws_throw | now apply throws_sql].
Qed.

Lemma throws_env_bucket : throws_within S env_bucket.
Proof. intros w. exact I. Qed.

Lemma throws_s3_write k b : throws_within S (s3_write k b).
Proof. intros w. exact I. Qed.

Lemma throws_s3_delete k : throws_within S (s3_delete k).
Proof. intros w. exact I. Qed.

Lemma throws_file_key id f : S 500 -> throws_within S (Ideas.file_key id f).
Proof. intros H. destruct f; [apply throws_ret | now apply throws_throw]. Qed.

Lemma replies_ret resp : S (status resp) -> replies_within S (ret resp).
Proof. intros H w. exact H. Qed.

Lemma replies_throw x : S (status (onError x)) -> replies_within S (throw x).
Proof. intros H w. exact H. Qed.

Lemma replies_bind {A} (m : handler A) (k : A -> handler response) :
  throws_within S m -> (forall a, replies_within S (k a)) -> replies_within S (bind m k).
Proof.
  intros Hm Hk w. unfold run, bind. specialize (Hm w).
  destruct (m w) as [[x|a] w1]; simpl in *; [exact Hm | apply Hk].
Qed.

End Statuses.

(** Walks a handler statement by statement, the set of statuses given as
    a disjunction of equations. *)
Ltac replying :=
  repeat first
    [ apply replies_ret; simpl; tauto
    | apply replies_throw; simpl; tauto
    | apply throws_ret
    | apply throws_throw; simpl; tauto
    | apply throws_env_bucket | apply throws_s3_write | apply throws_s3_delete
    | apply throws_file_key; tauto
    | apply throws_sql; tauto
    | apply throws_sql_rows; tauto
    | apply replies_bind; [|intro]
    | apply throws_bind; [|intro]
    | match goal with
      | |- replies_within _ (match ?x with _ => _ end) => destruct x
      | |- replies_within _ (if ?x then _ else _) => destruct x
      end ].

Section StatusOfEveryRoute.

Let ok_or_failed (st : Z) : Prop := st = 200 \/ st = 500.
Let ok_missing_or_failed (st : Z) : Prop := st = 200 \/ st = 404 \/ st = 500.

Lemma replies_tags :
  replies_within ok_or_failed Tags.all
  /\ (forall n, replies_within ok_missing_or_failed (Tags.get n))
  /\ (forall c d n, replies_within ok_missing_or_failed (Tags.vote c d n)).
Proof.
  repeat match goal with |- _ /\ _ => split end; intros;
    unfold Tags.all, Tags.get, Tags.vote, json, empty200,
      ok_or_failed, ok_missing_or_failed;
    replying.
Qed.

Lemma replies_ideas :
  (forall s f a, replies_within ok_or_failed (Ideas.all s f a))
  /\ (forall id, replies_within ok_or_failed (Ideas.get id))
  /\ (forall id, replies_within ok_or_failed (Ideas.delete id))
  /\ (forall c d id, replies_within ok_or_failed (Ideas.vote c d id))
  /\ (forall u, replies_within ok_or_failed (Ideas.by_user u))
  /\ (forall id f, replies_within ok_or_failed (Ideas.add_file id f))
  /\ (forall id f, replies_within ok_or_failed (Ideas.remove_file id f))
  /\ (forall id t, replies_within ok_or_failed (Ideas.add_tag id t))
  /\ (forall id t, replies_within ok_or_failed (Ideas.remove_tag id t)).
Proof.
  repeat match goal with |- _ /\ _ => split end; intros;
    unfold Ideas.all, Ideas.get, Ideas.delete, Ideas.vote,
      Ideas.by_user, Ideas.add_file, Ideas.remove_file, Ideas.add_tag,
      Ideas.remove_tag, json, empty200, ok_or_failed;
    replying.
Qed.

(** POST /ideas: the handler's own 400 needs an idea with the id 0. *)
Lemma replies_create_idea b w :
  let st := status (answer (Ideas.create b) w) in
  st = 200 \/ st = 500 \/ (st = 400 /\ Pg.ideas_id_seq (db w) = 0).
Proof.
  unfold answer, Ideas.create. rewrite run_bind. unfold sql_rows.
  destruct (Ideas.tags b) as [|n ns]; [simpl; auto|].
  rewrite sql_run.
  destruct (Pg.insert_tags (n :: ns) (db w)) as [[e|u] d1] eqn:E1; [simpl; auto|].
  assert (Q : Pg.ideas_id_seq d1 = Pg.ideas_id_seq (db w)).
  { unfold Pg.insert_tags in E1.
    destruct (fst (Pg.insert_tags_rows _ _ _)); inversion E1; reflexivity. }
  rewrite run_bind, sql_run. unfold Pg.select_tag_ids, Pg.reading. cbn [db].
  rewrite run_bind, sql_run. cbn [db].
  destruct (Pg.insert_idea _ _ _ _ _ d1) as [[e|rows2] d2] eqn:E2; [simpl; auto|].
  unfold Pg.insert_idea in E2.
  destruct (Pg.has_idea _ d1); [discriminate|].
  destruct (negb (Pg.has_user _ d1)); [discriminate|].
  inversion E2; subst rows2 d2; clear E2. cbn [Pg.i_id].
  unfold Js.truthy_num. rewrite Q.
  destruct (Pg.ideas_id_seq (db w) =? 0) eqn:Z0; cbn [negb].
  - apply Z.eqb_eq in Z0. simpl. auto.
  - rewrite run_bind.
    destruct (map _ _) as [|p ps]; [simpl; auto|].
    rewrite sql_run.
    destruct (Pg.insert_ideas_tags _ _) as [[e|u'] d3]; simpl; auto.
Qed.

Lemma replies_users :
  replies_within ok_or_failed Users.all
  /\ (forall u, replies_within ok_or_failed (Users.create u))
  /\ (forall id u, replies_within ok_missing_or_failed (Users.update id u))
  /\ (forall id, replies_within ok_missing_or_failed (Users.delete id))
  /\ (forall id, replies_within ok_missing_or_failed (Users.get id))
  /\ (forall u t, replies_within ok_missing_or_failed (Users.add_tag u t))
  /\ (forall u t, replies_within ok_missing_or_failed (Users.remove_tag u t)).
Proof.
  repeat match goal with |- _ /\ _ => split end; intros;
    unfold Users.all, Users.create, Users.update, Users.delete, Users.get,
      Users.add_tag, Users.remove_tag, json, empty200,
      ok_or_failed, ok_missing_or_failed;
    replying.
Qed.

Lemma replies_groups :
  (forall s, replies_within ok_or_failed (Groups.all s))
  /\ (forall b, replies_within ok_or_failed (Groups.create b))
  /\ (forall id, replies_within ok_or_failed (Groups.get id))
  /\ (forall id b, replies_within ok_or_failed (Groups.update id b))
  /\ (forall id, replies_within ok_or_failed (Groups.delete id))
  /\ (forall id u, replies_within ok_or_failed (Groups.add_user id u))
  /\ (forall id u, replies_within ok_or_failed (Groups.remove_user id u)).
Proof.
  repeat match goal with |- _ /\ _ => split end; intros;
    unfold Groups.all, Groups.create, Groups.get, Groups.update, Groups.delete,
      Groups.add_user, Groups.remove_user, json, empty200, ok_or_failed;
    replying.
Qed.

(** POST /feedbacks: an INSERT that succeeds returns its row, so the
    handler's 400 is never thrown. *)
Lemma replies_create_feedback b : replies_within ok_or_failed (Feedbacks.create b).
Proof.
  intros w. unfold ok_or_failed, Feedbacks.create. rewrite run_bind, sql_run.
  destruct (Pg.insert_feedback _ _ _ _ _ _ _ _ (db w)) as [[e|rows] d1] eqn:E1;
    [simpl; auto|].
  unfold Pg.insert_feedback, Pg.integers in E1.
  destruct (forallb Pg.int4 _); [|discriminate].
  destruct (Pg.has_feedback _ _); [discriminate|].
  destruct (negb (Pg.has_idea _ _)); [discriminate|].
  destruct (negb (Pg.has_user _ _)); [discriminate|].
  inversion E1; subst rows d1; clear E1.
  rewrite run_bind, sql_run.
  destruct (Pg.insert_ideas_feedbacks _ _ _) as [[e|u] d2]; simpl; auto.
Qed.

Lemma replies_feedbacks :
  replies_within ok_or_failed Feedbacks.all
  /\ (forall id, replies_within ok_missing_or_failed (Feedbacks.get id))
  /\ (forall b, replies_within ok_or_failed (Feedbacks.create b))
  /\ (forall id b, replies_within ok_or_failed (Feedbacks.update id b))
  /\ (forall id, replies_within ok_or_failed (Feedbacks.delete id))
  /\ (forall u, replies_within ok_or_failed (Feedbacks.by_user u))
  /\ (forall c d id, replies_within ok_or_failed (Feedbacks.vote c d id)).
Proof.
  repeat match goal with |- _ /\ _ => split end; intros;
    try apply replies_create_feedback;
    unfold Feedbacks.all, Feedbacks.get, Feedbacks.update,
      Feedbacks.delete, Feedbacks.by_user, Feedbacks.vote, json, empty200,
      ok_or_failed, ok_missing_or_failed;
    replying.
Qed.

End StatusOfEveryRoute.

Section AnswerOfEveryRoute.
Variable V : schemas.

Lemma replies_answered (S : Z -> Prop) (h : handler response) e r w :
  replies_within S h ->
  (forall st, S st -> answered V e r w st) ->
  answered V e r w (status (answer h w)).
Proof. intros H K. apply K, H. Qed.

Lemma rejected_answered e r w :
  valid V e r = false -> answered V e r w 400.
Proof. intros H. unfold answered. auto 6. Qed.

End AnswerOfEveryRoute.

(** Every answer of every route has the status 200, 400, 404 or 500, and
    never another one (201, which POST /ideas documents, included).  404
    comes only from the routes of tags and users and from
    GET /feedbacks/:id; 400 comes only from a validator that rejects the
    request, POST /ideas with the ideas sequence at 0 apart. *)
Theorem every_answer_has_one_of_four_statuses :
  forall (V : schemas) (e : endpoint) (r : request) (w : world),
    answered V e r w (status (fst (fetch V e r w))).
Proof.
  intros V e r w.
  change (fst (fetch V e r w)) with (answer (route V e r) w).
  destruct replies_tags as (T1 & T2 & T3).
  destruct replies_ideas as (I1 & I3 & I4 & I5 & I6 & I7 & I8 & I9 & I10).
  destruct replies_users as (U1 & U2 & U3 & U4 & U5 & U6 & U7).
  destruct replies_groups as (G1 & G2 & G3 & G4 & G5 & G6 & G7).
  destruct replies_feedbacks as (F1 & F2 & F3 & F4 & F5 & F6 & F7).
  destruct e; cbn [route];
    unfold Tags.up, Tags.down, Tags.remove_up, Tags.remove_down,
      Ideas.up, Ideas.down, Ideas.remove_up, Ideas.remove_down,
      Feedbacks.up, Feedbacks.down, Feedbacks.remove_up, Feedbacks.remove_down,
      put_user;
    repeat match goal with
           | |- context [zValidator ?s ?raw _] =>
               let A := fresh "A" in
               unfold zValidator at 1; destruct (s raw) eqn:A
           end;
    try (apply rejected_answered; cbn [valid]; unfold accepted;
         repeat match goal with A : _ = _ |- _ => rewrite A; clear A end;
         reflexivity);
    try match goal with
        | |- context [match raw "id" (param r) with _ => _ end] =>
            destruct (raw "id" (param r))
        end;
    try (eapply replies_answered;
         [ solve [eauto]
         | intros st H; cbv beta in H; unfold answered; cbn [may_answer_404]; tauto ]);
    try (unfold answered; simpl; tauto).
  (* POST /ideas *)
  match goal with
  | |- context [Ideas.create ?b] => pose proof (replies_create_idea b w) as H
  end.
  cbv zeta in H.
  unfold answered. destruct H as [H|[H|[H Z0]]]; rewrite H; auto 8.
Qed.

(* ================================================================== *)
(** * What a request leaves alone *)

Section Preserved.
Variable R : world -> world -> Prop.
Hypothesis R_refl : forall w, R w w.
Hypothesis R_trans : forall a b c, R a b -> R b c -> R a c.

Lemma preserves_ret {A} (a : A) : preserves R (ret a).
Proof. intros w. apply R_refl. Qed.

Lemma preserves_throw {A} x : preserves R (@throw A x).
Proof. intros w. apply R_refl. Qed.

Lemma preserves_bind {A B} (m : handler A) (k : A -> handler B) :
  preserves R m -> (forall a, preserves R (k a)) -> preserves R (bind m k).
Proof.
  intros Hm Hk w. unfold bind. specialize (Hm w).
  destruct (m w) as [[x|a] w1]; simpl in *; [exact Hm|].
  eapply R_trans; [exact Hm | apply Hk].
Qed.

Lemma preserves_env_bucket : preserves R env_bucket.
Proof. intros w. apply R_refl. Qed.

Lemma preserves_file_key id f : preserves R (Ideas.file_key id f).
Proof. destruct f; [apply preserves_ret | apply preserves_throw]. Qed.

Lemma preserves_sql_rows {A B} text (rows : list A) (q : list A -> Pg.stmt B) :
  (forall rows, preserves R (sql text (q rows))) -> preserves R (sql_rows text rows q).
Proof. intros H. unfold sql_rows. destruct rows; [apply preserves_throw | apply H]. Qed.

Lemma preserves_zValidator {X A} (schema : X -> option A) raw next :
  (forall v, preserves R (next v)) -> preserves R (zValidator schema raw next).
Proof.
  intros H. unfold zValidator. destruct (schema raw); [apply H | apply preserves_ret].
Qed.

Lemma preserves_fetch V e r w : preserves R (route V e r) -> R w (snd (fetch V e r w)).
Proof.
  intros H. specialize (H w). unfold fetch.
  destruct (route V e r w) as [[x|resp] w']; exact H.
Qed.

End Preserved.

Section Untouched.

Lemma same_db_refl w : same_db w w.
Proof. reflexivity. Qed.

Lemma same_db_trans a b c : same_db a b -> same_db b c -> same_db a c.
Proof. unfold same_db. congruence. Qed.

Lemma same_s3_refl w : same_s3 w w.
Proof. reflexivity. Qed.

Lemma same_s3_trans a b c : same_s3 a b -> same_s3 b c -> same_s3 a c.
Proof. unfold same_s3. congruence. Qed.

(** A statement never reaches the object store. *)
Lemma same_s3_sql {A} text (q : Pg.stmt A) : preserves same_s3 (sql text q).
Proof. intros w. rewrite sql_run. destruct (q (db w)) as [[e|a] d]; reflexivity. Qed.

(** A SELECT leaves the tables as they are. *)
Lemma same_db_sql {A} text (q : Pg.stmt A) :
  (forall d, snd (q d) = d) -> preserves same_db (sql text q).
Proof.
  intros H w. rewrite sql_run. specialize (H (db w)).
  destruct (q (db w)) as [[e|a] d]; exact H.
Qed.

End Untouched.

(** Walks a handler; [on_sql] settles a statement. *)
Ltac preserving refl trans on_sql :=
  repeat first
    [ apply (preserves_ret _ refl)
    | apply (preserves_throw _ refl)
    | apply (preserves_env_bucket _ refl)
    | apply (preserves_file_key _ refl)
    | apply (preserves_bind _ trans); [|intro]
    | apply (preserves_zValidator _ refl); intro
    | apply (preserves_sql_rows _ refl); intro
    | on_sql
    | match goal with
      | |- preserves _ (match ?x with _ => _ end) => destruct x
      | |- preserves _ (if ?x then _ else _) => destruct x
      end ].

Ltac unfold_routes :=
  unfold Tags.up, Tags.down, Tags.remove_up, Tags.remove_down,
    Ideas.up, Ideas.down, Ideas.remove_up, Ideas.remove_down,
    Feedbacks.up, Feedbacks.down, Feedbacks.remove_up, Feedbacks.remove_down,
    put_user;
  unfold Tags.all, Tags.get, Tags.vote,
    Ideas.all, Ideas.create, Ideas.get, Ideas.delete, Ideas.vote, Ideas.by_user,
    Ideas.add_file, Ideas.remove_file, Ideas.add_tag, Ideas.remove_tag,
    Users.all, Users.create, Users.update, Users.delete, Users.get,
    Users.add_tag, Users.remove_tag,
    Groups.all, Groups.create, Groups.get, Groups.update, Groups.delete,
    Groups.add_user, Groups.remove_user,
    Feedbacks.all, Feedbacks.get, Feedbacks.create, Feedbacks.update,
    Feedbacks.delete, Feedbacks.by_user, Feedbacks.vote, json, empty200.

(** A GET request changes no table, whatever it is answered; and no
    request but the two on /ideas/file/:id changes the object store. *)
Theorem get_requests_change_nothing :
  forall (V : schemas) (e : endpoint) (r : request) (w : world),
    (is_get e = true -> db (snd (fetch V e r w)) = db w)
    /\ (is_file_route e = false -> s3 (snd (fetch V e r w)) = s3 w).
Proof.
  intros V e r w. split; intros H.
  - apply (preserves_fetch same_db).
    destruct e; try discriminate H; cbn [route]; unfold_routes;
      preserving same_db_refl same_db_trans
        ltac:(apply same_db_sql; intros d;
              unfold Pg.select_tag_names, Pg.select_tag, Pg.select_ideas_listing,
                Pg.select_idea_with_tags, Pg.select_ideas_by_user, Pg.select_users,
                Pg.select_user, Pg.select_groups_listing, Pg.select_group,
                Pg.select_feedbacks, Pg.select_feedback, Pg.select_feedbacks_by_user,
                Pg.integer, Pg.reading, Pg.failing;
              repeat match goal with
                     | |- context [if ?c then _ else _] => destruct c
                     | |- context [match ?c with _ => _ end] => destruct c
                     end;
              reflexivity).
  - apply (preserves_fetch same_s3).
    destruct e; try discriminate H; cbn [route]; unfold_routes;
      preserving same_s3_refl same_s3_trans ltac:(apply same_s3_sql).
Qed.

(* ================================================================== *)
(** * Tags are never removed or renamed *)

Section TagsKept.

Lemma tags_kept_refl d : tags_kept d d.
Proof. exists []. now rewrite app_nil_r. Qed.

Lemma tags_kept_trans a b c : tags_kept a b -> tags_kept b c -> tags_kept a c.
Proof.
  intros [x Hx] [y Hy]. exists (x ++ y)%list. now rewrite Hy, Hx, app_assoc.
Qed.

Lemma tags_kept_same d d' : Pg.tags d' = Pg.tags d -> tags_kept d d'.
Proof. intros E. exists []. now rewrite E, app_nil_r. Qed.

Lemma tags_kept_app d d' added : Pg.tags d' = (Pg.tags d ++ added)%list -> tags_kept d d'.
Proof. intros E. exists (map tag_key added). now rewrite E, map_app. Qed.

Lemma keeps_tag_keys_refl w : keeps_tag_keys w w.
Proof. apply tags_kept_refl. Qed.

Lemma keeps_tag_keys_trans a b c :
  keeps_tag_keys a b -> keeps_tag_keys b c -> keeps_tag_keys a c.
Proof. apply tags_kept_trans. Qed.

Lemma keeps_tag_keys_sql {A} text (q : Pg.stmt A) :
  (forall d, tags_kept d (snd (q d))) -> preserves keeps_tag_keys (sql text q).
Proof.
  intros H w. rewrite sql_run. specialize (H (db w)).
  destruct (q (db w)) as [[e|a] d]; exact H.
Qed.

Lemma keeps_tag_keys_s3_write k b : preserves keeps_tag_keys (s3_write k b).
Proof. intros w. apply tags_kept_refl. Qed.

Lemma keeps_tag_keys_s3_delete k : preserves keeps_tag_keys (s3_delete k).
Proof. intros w. apply tags_kept_refl. Qed.

(** A vote moves a counter of the tag, not its id or its name. *)
Lemma tags_kept_update_tags_vote c delta name d :
  tags_kept d (snd (Pg.update_tags_vote c delta name d)).
Proof.
  unfold Pg.update_tags_vote. cbv zeta.
  destruct (forallb _ _); [|apply tags_kept_refl].
  exists []. simpl. rewrite app_nil_r, map_map. apply map_ext.
  intros t. destruct (String.eqb (Pg.t_name t) name); [destruct c|]; reflexivity.
Qed.

Lemma tags_kept_insert_tags names d : tags_kept d (snd (Pg.insert_tags names d)).
Proof.
  unfold Pg.insert_tags. cbv zeta.
  destruct (fst (Pg.insert_tags_rows names (Pg.tags d) (Pg.tags_id_seq d)))
    as [e|ts] eqn:E; [now apply tags_kept_same|].
  destruct (insert_tags_rows_appends names _ _ _ E) as (added & -> & _).
  now apply (tags_kept_app _ _ added).
Qed.

Lemma tags_kept_link_user_tag uid name d :
  tags_kept d (snd (Pg.link_user_tag uid name d)).
Proof.
  destruct (link_user_tag_tags uid name d) as (added & E & _).
  now apply (tags_kept_app _ _ added).
Qed.

End TagsKept.

(** Settles a statement that does not write to [tags]. *)
Ltac tags_untouched :=
  intros d;
  unfold Pg.select_tag_names, Pg.select_tag, Pg.select_ideas_listing,
    Pg.select_idea_with_tags, Pg.select_ideas_by_user, Pg.select_users,
    Pg.select_user, Pg.select_groups_listing, Pg.select_group,
    Pg.select_feedbacks, Pg.select_feedback, Pg.select_feedbacks_by_user,
    Pg.select_tag_ids, Pg.insert_idea, Pg.insert_ideas_tags, Pg.delete_idea,
    Pg.update_ideas_vote, Pg.update_ideas_files, Pg.insert_idea_tag,
    Pg.delete_idea_tag, Pg.insert_user, Pg.update_user, Pg.delete_user,
    Pg.unlink_user_tag, Pg.insert_group, Pg.update_group, Pg.delete_group,
    Pg.update_group_members, Pg.insert_feedback, Pg.insert_ideas_feedbacks,
    Pg.update_feedback, Pg.delete_feedback, Pg.delete_ideas_feedbacks,
    Pg.update_feedbacks_vote, Pg.cascade_users, Pg.cascade_ideas,
    Pg.cascade_feedbacks, Pg.integer, Pg.integers, Pg.reading, Pg.failing;
  cbv beta zeta;
  repeat match goal with
         | |- context [if ?c then _ else _] => destruct c
         | |- context [match ?c with _ => _ end] => destruct c
         end;
  apply tags_kept_same; reflexivity.

Section TagsKeptByEveryRoute.
Variable V : schemas.

Lemma route_keeps_tag_keys e r : preserves keeps_tag_keys (route V e r).
Proof.
  destruct e; cbn [route]; unfold_routes;
    preserving keeps_tag_keys_refl keeps_tag_keys_trans
      ltac:(first
        [ apply keeps_tag_keys_s3_write
        | apply keeps_tag_keys_s3_delete
        | apply keeps_tag_keys_sql;
          first [ apply tags_kept_update_tags_vote
                | apply tags_kept_insert_tags
                | apply tags_kept_link_user_tag
                | tags_untouched ] ]).
Qed.

End TagsKeptByEveryRoute.

(** Whatever requests are served, a tag that is in the table stays in
    it, with its id and its name: no route deletes or renames a tag, the
    routes that delete users and ideas included. *)
Theorem tags_are_never_removed :
  forall (V : schemas) (reqs : list (endpoint * request)) (w : world),
    exists added,
      map tag_key (Pg.tags (db (serve V reqs w)))
      = (map tag_key (Pg.tags (db w)) ++ added)%list.
Proof.
  intros V reqs. induction reqs as [|[e r] reqs IH]; intros w; simpl.
  - exists []. now rewrite app_nil_r.
  - apply (tags_kept_trans _ (db (snd (fetch V e r w)))); [|apply IH].
    apply (preserves_fetch keeps_tag_keys), route_keeps_tag_keys.
Qed.

(* ================================================================== *)
(** * A vote and its removal *)

Section VoteAndRemoval.

Lemma opposite_vote r : column (opposite r) = column r /\ amount (opposite r) = - amount r.
Proof. destruct r; split; reflexivity. Qed.

Lemma bump_idea_back c delta i : Pg.bump_idea c (- delta) (Pg.bump_idea c delta i) = i.
Proof. destruct c, i; simpl; f_equal; lia. Qed.

Lemma bump_tag_back c delta t : Pg.bump_tag c (- delta) (Pg.bump_tag c delta t) = t.
Proof. destruct c, t; simpl; f_equal; lia. Qed.

Lemma bump_feedback_back c delta f :
  Pg.bump_feedback c (- delta) (Pg.bump_feedback c delta f) = f.
Proof. destruct c, f; simpl; f_equal; lia. Qed.

Lemma map_back {X} (hit : X -> bool) (f g : X -> X) l :
  (forall x, hit (f x) = hit x) -> (forall x, g (f x) = x) ->
  map (fun x => if hit x then g x else x) (map (fun x => if hit x then f x else x) l) = l.
Proof.
  intros Hh Hg. rewrite map_map. rewrite <- (map_id l) at 2. apply map_ext.
  intros x. destruct (hit x) eqn:E; [now rewrite Hh, E, Hg | now rewrite E].
Qed.

Lemma db_after_idea_vote c delta id w :
  idea_vote_fits c delta id (db w) = true ->
  db (after (Ideas.vote c delta id) w)
  = Pg.with_ideas
      (map (fun i => if Pg.i_id i =? id then Pg.bump_idea c delta i else i)
           (Pg.ideas (db w))) (db w).
Proof.
  intros F. apply andb_prop in F. destruct F as [Fi Fc].
  unfold after, run, Ideas.vote, bind, sql, Pg.update_ideas_vote, Pg.integer.
  simpl. rewrite Fi, Fc. reflexivity.
Qed.

Lemma db_after_tag_vote c delta name w :
  tag_vote_fits c delta name (db w) = true ->
  db (after (Tags.vote c delta name) w)
  = Pg.with_tags
      (map (fun t => if String.eqb (Pg.t_name t) name then Pg.bump_tag c delta t else t)
           (Pg.tags (db w))) (db w).
Proof.
  intros F. unfold tag_vote_fits in F.
  unfold after, run, Tags.vote, bind, sql, Pg.update_tags_vote. simpl.
  rewrite F. simpl. destruct (map _ (filter _ _)); reflexivity.
Qed.

Lemma db_after_feedback_vote c delta id w :
  feedback_vote_fits c delta id (db w) = true ->
  db (after (Feedbacks.vote c delta id) w)
  = Pg.with_feedbacks
      (map (fun f => if Pg.f_id f =? id then Pg.bump_feedback c delta f else f)
           (Pg.feedbacks (db w))) (db w).
Proof.
  intros F. apply andb_prop in F. destruct F as [Fi Fc].
  unfold after, run, Feedbacks.vote, bind, sql, Pg.update_feedbacks_vote, Pg.integer.
  simpl. rewrite Fi, Fc. reflexivity.
Qed.

Lemma idea_vote_not_refused c delta id w :
  status (answer (Ideas.vote c delta id) w) <> 500 ->
  idea_vote_fits c delta id (db w) = true.
Proof.
  intros H. destruct (idea_vote_fits c delta id (db w)) eqn:F; [reflexivity|].
  now destruct (idea_vote_refused c delta id w F).
Qed.

Lemma tag_vote_not_refused c delta name w :
  status (answer (Tags.vote c delta name) w) <> 500 ->
  tag_vote_fits c delta name (db w) = true.
Proof.
  intros H. destruct (tag_vote_fits c delta name (db w)) eqn:F; [reflexivity|].
  now destruct (tag_vote_refused c delta name w F).
Qed.

Lemma feedback_vote_not_refused c delta id w :
  status (answer (Feedbacks.vote c delta id) w) <> 500 ->
  feedback_vote_fits c delta id (db w) = true.
Proof.
  intros H. destruct (feedback_vote_fits c delta id (db w)) eqn:F; [reflexivity|].
  now destruct (feedback_vote_refused c delta id w F).
Qed.

Lemma bump_tag_name c delta t : Pg.t_name (Pg.bump_tag c delta t) = Pg.t_name t.
Proof. destruct c; reflexivity. Qed.

Lemma bump_feedback_id c delta f : Pg.f_id (Pg.bump_feedback c delta f) = Pg.f_id f.
Proof. destruct c; reflexivity. Qed.

End VoteAndRemoval.

(** A vote and the request that removes it cancel: when neither of the
    two is answered 500, the store after the second is the store before
    the first.  This holds for the four vote routes of ideas, tags and
    feedbacks, in either order (POST then DELETE, DELETE then POST). *)
Theorem vote_and_its_removal_cancel :
  forall (w : world) (r : vote_route),
    (forall id : Z,
        status (answer (idea_vote r id) w) <> 500 ->
        status (answer (idea_vote (opposite r) id) (after (idea_vote r id) w)) <> 500 ->
        db (after (idea_vote (opposite r) id) (after (idea_vote r id) w)) = db w)
    /\ (forall name : string,
        status (answer (tag_vote r name) w) <> 500 ->
        status (answer (tag_vote (opposite r) name) (after (tag_vote r name) w)) <> 500 ->
        db (after (tag_vote (opposite r) name) (after (tag_vote r name) w)) = db w)
    /\ (forall id : Z,
        status (answer (feedback_vote r id) w) <> 500 ->
        status (answer (feedback_vote (opposite r) id) (after (feedback_vote r id) w))
        <> 500 ->
        db (after (feedback_vote (opposite r) id) (after (feedback_vote r id) w)) = db w).
Proof.
  intros w r. destruct (opposite_vote r) as [Ec Ea].
  split; [|split].
  - intros id. rewrite !idea_vote_unfold, Ec, Ea. intros H1 H2.
    apply idea_vote_not_refused in H1. apply idea_vote_not_refused in H2.
    rewrite (db_after_idea_vote _ _ _ _ H2), (db_after_idea_vote _ _ _ _ H1).
    cbn [Pg.ideas Pg.with_ideas].
    rewrite (map_back (fun i => Pg.i_id i =? id)).
    + now destruct (db w).
    + intros i. now rewrite bump_idea_id.
    + apply bump_idea_back.
  - intros name. rewrite !tag_vote_unfold, Ec, Ea. intros H1 H2.
    apply tag_vote_not_refused in H1. apply tag_vote_not_refused in H2.
    rewrite (db_after_tag_vote _ _ _ _ H2), (db_after_tag_vote _ _ _ _ H1).
    cbn [Pg.tags Pg.with_tags].
    rewrite (map_back (fun t => String.eqb (Pg.t_name t) name)).
    + now destruct (db w).
    + intros t. now rewrite bump_tag_name.
    + apply bump_tag_back.
  - intros id. rewrite !feedback_vote_unfold, Ec, Ea. intros H1 H2.
    apply feedback_vote_not_refused in H1. apply feedback_vote_not_refused in H2.
    rewrite (db_after_feedback_vote _ _ _ _ H2), (db_after_feedback_vote _ _ _ _ H1).
    cbn [Pg.feedbacks Pg.with_feedbacks].
    rewrite (map_back (fun f => Pg.f_id f =? id)).
    + now destruct (db w).
    + intros f. now rewrite bump_feedback_id.
    + apply bump_feedback_back.
Qed.

(** An upvote of the idea of [Sample.w1] and its removal. *)
Lemma vote_and_its_removal_cancel_witness :
  status (answer (Ideas.up 1) Sample.w1) = 200
  /\ db (after (Ideas.remove_up 1) (after (Ideas.up 1) Sample.w1)) = db Sample.w1.
Proof.
  split; [reflexivity|].
  apply (proj1 (vote_and_its_removal_cancel Sample.w1 post_up) 1);
    vm_compute; discriminate.
Defined.

(* ================================================================== *)
(** * Users: written, read back, refused twice *)

Section OneGroup.
Context {A K : Type}.
Variable K_dec : forall x y : K, {x = y} + {x <> y}.

Lemma distinct_one (k : K) ks :
  ks <> [] -> (forall k', In k' ks -> k' = k) -> Rel.distinct K_dec ks = [k].
Proof.
  induction ks as [|k0 ks IH]; intros N H; [congruence|]. simpl.
  assert (k0 = k) as -> by (apply H; simpl; auto).
  destruct ks as [|k1 ks]; [reflexivity|].
  rewrite IH; [|discriminate | intros k' I; apply H; simpl in *; tauto].
  simpl. now rewrite same_refl.
Qed.

Lemma filter_all_of (p : A -> bool) l :
  (forall x, In x l -> p x = true) -> filter p l = l.
Proof.
  induction l as [|a l IH]; simpl; intros H; [reflexivity|].
  rewrite (H a) by auto. f_equal. apply IH. intros x I. apply H. auto.
Qed.

(** Rows that all have the key [k] make one group. *)
Lemma group_by_one (key : A -> K) (k : K) rows :
  rows <> [] -> (forall r, In r rows -> key r = k) ->
  Rel.group_by K_dec key rows = [(k, rows)].
Proof.
  intros N H. unfold Rel.group_by. rewrite (distinct_one k).
  - simpl. rewrite filter_all_of; [reflexivity|].
    intros r I. rewrite (H r I). apply same_refl.
  - destruct rows; [congruence | discriminate].
  - intros k' I. apply in_map_iff in I. destruct I as (r & <- & I). now apply H.
Qed.

End OneGroup.

Section UserRoundTrip.

(** Where the id is a key of [users], GET /users/:id answers with the
    columns of the row that has it. *)
Lemma get_user_by_key w u :
  In u (Pg.users (db w)) ->
  (forall u', In u' (Pg.users (db w)) -> Pg.u_id u' = Pg.u_id u -> u' = u) ->
  answer (Users.get (Pg.u_id u)) w = mk_response 200 (Some (user_read u)).
Proof.
  intros I Key.
  set (where_ := fun r : Pg.user_joined => String.eqb (Pg.u_id (fst (fst r))) (Pg.u_id u)).
  assert (G : exists l,
             Pg.select_users_with_tags where_ (db w) = [Pg.mk_uwt u l]).
  { unfold Pg.select_users_with_tags.
    rewrite (group_by_one Pg.user_dec _ u).
    - simpl. eexists. reflexivity.
    - destruct (users_joined_has (db w) u I) as (x & y & J).
      intros E.
      assert (In (u, x, y) (filter where_ (Pg.users_joined (db w)))) as F.
      { apply filter_In. split; [exact J|]. unfold where_. simpl. apply String.eqb_refl. }
      rewrite E in F. exact F.
    - intros r F. apply filter_In in F. destruct F as [J W].
      apply Key; [now apply users_joined_from | now apply String.eqb_eq]. }
  destruct G as (l & G).
  unfold answer, run, Users.get, bind, sql, Pg.select_user, Pg.reading. simpl.
  fold where_. rewrite G. reflexivity.
Qed.

End UserRoundTrip.

(** POST /users with an id that is not in use answers 200 with the
    fields it was given and adds the row; GET /users/:id then answers
    with those fields (and [pinned_tags] empty); a second POST /users
    with the same id is answered 500 and stores nothing, whatever its
    other fields. *)
Theorem created_user_is_read_back :
  forall (w : world) (u : Pg.user),
    Pg.has_user (Pg.u_id u) (db w) = false ->
    let w1 := after (Users.create u) w in
    answer (Users.create u) w = mk_response 200 (Some (user_json u))
    /\ Pg.users (db w1) = (Pg.users (db w) ++ [u])%list
    /\ answer (Users.get (Pg.u_id u)) w1 = mk_response 200 (Some (user_read u))
    /\ (forall u', Pg.u_id u' = Pg.u_id u ->
          status (answer (Users.create u') w1) = 500
          /\ db (after (Users.create u') w1) = db w1).
Proof.
  intros w u H w1.
  assert (R : run (Users.create u) w
              = (mk_response 200 (Some (user_json u)),
                 mk_world (Pg.with_users (Pg.users (db w) ++ [u]) (db w)) (s3 w)
                          (AWS_BUCKET_NAME w)
                          (sent w ++ ["INSERT INTO users (id, name, email, role, image_url) VALUES ($1, $2, $3, $4, $5) RETURNING *"])%list)).
  { unfold Users.create. rewrite run_bind, sql_run. unfold Pg.insert_user.
    rewrite H. reflexivity. }
  assert (U : Pg.users (db w1) = (Pg.users (db w) ++ [u])%list).
  { unfold w1, after. now rewrite R. }
  split; [unfold answer; now rewrite R|]. split; [exact U|]. split.
  - apply get_user_by_key.
    + rewrite U. apply in_or_app. right. simpl. auto.
    + intros u' I E. rewrite U in I. apply in_app_or in I.
      destruct I as [I|[<-|[]]]; [|reflexivity].
      exfalso. assert (Pg.has_user (Pg.u_id u) (db w) = true) as T; [|congruence].
      apply existsb_exists. exists u'. split; [exact I | now apply String.eqb_eq].
  - intros u' E.
    assert (T : Pg.has_user (Pg.u_id u') (db w1) = true).
    { apply existsb_exists. exists u. split.
      - rewrite U. apply in_or_app. right. simpl. auto.
      - rewrite E. apply String.eqb_refl. }
    unfold answer, after, Users.create. rewrite run_bind, sql_run.
    unfold Pg.insert_user. rewrite T. split; reflexivity.
Qed.

(** Alice on the empty store. *)
Lemma created_user_is_read_back_witness :
  let w := start "bucket" in
  answer (Users.get "u1") (after (Users.create Sample.alice) w)
  = mk_response 200 (Some (user_read Sample.alice))
  /\ status (answer (Users.create Sample.alice) (after (Users.create Sample.alice) w))
     = 500.
Proof.
  intros w.
  destruct (created_user_is_read_back w Sample.alice eq_refl) as (_ & _ & G & T).
  split; [exact G | exact (proj1 (T Sample.alice eq_refl))].
Defined.

(* ================================================================== *)
(** * Deleting a user *)

Section UserCascade.

Lemma mem_string_in x l : Pg.mem_string x l = true <-> In x l.
Proof.
  unfold Pg.mem_string. rewrite existsb_exists. split.
  - intros (y & I & E). apply String.eqb_eq in E. now subst.
  - intros I. exists x. split; [exact I | apply String.eqb_refl].
Qed.

Lemma removed_user_ids id (l : list Pg.user) x :
  existsb (fun u => String.eqb (Pg.u_id u) id) l = true ->
  Pg.mem_string x (map Pg.u_id (filter (fun u => String.eqb (Pg.u_id u) id) l))
  = String.eqb x id.
Proof.
  intros H. destruct (String.eqb_spec x id) as [->|N].
  - apply mem_string_in. apply existsb_exists in H. destruct H as (u & I & E).
    apply in_map_iff. exists u. split; [now apply String.eqb_eq|].
    apply filter_In. auto.
  - apply not_true_is_false. intros M. apply mem_string_in in M.
    apply in_map_iff in M. destruct M as (u & E & I). apply filter_In in I.
    destruct I as [_ I]. apply String.eqb_eq in I. congruence.
Qed.

End UserCascade.

(** DELETE /users/:id of an existing user answers 200 and takes with the
    user the pinned tags, the ideas and the feedbacks of the user, and
    with each of those ideas its tags, its feedbacks and its rows in
    ideas_feedbacks.  The tags stay, and so do the groups, member lists
    included: a deleted user is still listed.  A second DELETE is
    answered 404. *)
Theorem delete_user_cascades :
  forall (w : world) (id : string),
    Pg.has_user id (db w) = true ->
    let w' := after (Users.delete id) w in
    status (answer (Users.delete id) w) = 200
    /\ Pg.has_user id (db w') = false
    /\ (forall p, In p (Pg.users_pinned_tags (db w')) -> fst p <> id)
    /\ (forall i, In i (Pg.ideas (db w')) -> Pg.i_user_id i <> id)
    /\ (forall f, In f (Pg.feedbacks (db w')) -> Pg.f_user_id f <> id)
    /\ (forall i, In i (Pg.ideas (db w)) -> Pg.i_user_id i = id ->
          (forall p, In p (Pg.ideas_tags (db w')) -> fst p <> Pg.i_id i)
          /\ (forall f, In f (Pg.feedbacks (db w')) -> Pg.f_idea_id f <> Pg.i_id i)
          /\ (forall p, In p (Pg.ideas_feedbacks (db w')) -> fst p <> Pg.i_id i))
    /\ (forall f, In f (Pg.feedbacks (db w)) -> Pg.f_user_id f = id ->
          forall p, In p (Pg.ideas_feedbacks (db w')) -> snd p <> Pg.f_id f)
    /\ Pg.tags (db w') = Pg.tags (db w)
    /\ Pg.user_groups (db w') = Pg.user_groups (db w)
    /\ status (answer (Users.delete id) w') = 404.
Proof.
  intros w id H w'.
  assert (M := fun x => removed_user_ids id (Pg.users (db w)) x H).
  assert (D : db w' = Pg.cascade_users (fun u => String.eqb (Pg.u_id u) id) (db w)).
  { unfold w', after, Users.delete. rewrite run_bind, sql_run. unfold Pg.delete_user.
    cbv zeta. destruct (filter _ _); reflexivity. }
  assert (G : Pg.has_user id (db w') = false).
  { rewrite D. unfold Pg.has_user. simpl.
    apply not_true_is_false. intros X. apply existsb_exists in X.
    destruct X as (u & I & E). apply filter_In in I. destruct I as [_ I].
    rewrite E in I. discriminate. }
  split.
  { unfold answer, Users.delete. rewrite run_bind, sql_run. unfold Pg.delete_user.
    cbv zeta. unfold Pg.has_user in H.
    destruct (filter _ (Pg.users (db w))) eqn:F; [|reflexivity].
    apply existsb_exists in H. destruct H as (u & I & E).
    assert (In u []) as [].
    rewrite <- F. apply filter_In. auto. }
  split; [exact G|].
  clearbody w'. 
  split; [|split; [|split; [|split; [|split; [|split; [|split]]]]]].
  - intros p I E. rewrite D in I. simpl in I. apply filter_In in I.
    destruct I as [_ I]. rewrite M, E, String.eqb_refl in I. discriminate.
  - intros i I E. rewrite D in I. simpl in I. apply filter_In in I.
    destruct I as [_ I]. rewrite M, E, String.eqb_refl in I. discriminate.
  - intros f I E. rewrite D in I. simpl in I. apply filter_In in I.
    destruct I as [_ I]. rewrite M, E, String.eqb_refl in I. discriminate.
  - intros i I E.
    assert (R : Pg.mem (Pg.i_id i)
                  (map Pg.i_id
                     (filter (fun i => Pg.mem_string (Pg.i_user_id i)
                                (map Pg.u_id
                                   (filter (fun u => String.eqb (Pg.u_id u) id)
                                           (Pg.users (db w)))))
                             (Pg.ideas (db w)))) = true).
    { apply mem_in. apply in_map. apply filter_In. split; [exact I|].
      rewrite M, E. apply String.eqb_refl. }
    rewrite D. simpl. repeat split.
    + intros p J N. apply filter_In in J. destruct J as [_ J].
      rewrite N, R in J. discriminate.
    + intros f J N. apply filter_In in J. destruct J as [J _].
      apply filter_In in J. destruct J as [_ J].
      rewrite N, R in J. discriminate.
    + intros p J N. apply filter_In in J. destruct J as [J _].
      apply filter_In in J. destruct J as [_ J].
      rewrite N, R in J. discriminate.
  - intros f I E p J N. rewrite D in J. simpl in J. apply filter_In in J.
    destruct J as [J K]. apply negb_true_iff in K.
    assert (Pg.mem (snd p)
              (map Pg.f_id
                 (filter
                    (fun f => Pg.mem_string (Pg.f_user_id f)
                                (map Pg.u_id
                                   (filter (fun u => String.eqb (Pg.u_id u) id)
                                           (Pg.users (db w)))))
                    (filter
                       (fun f => negb (Pg.mem (Pg.f_idea_id f)
                          (map Pg.i_id
                             (filter (fun i => Pg.mem_string (Pg.i_user_id i)
                                (map Pg.u_id
                                   (filter (fun u => String.eqb (Pg.u_id u) id)
                                           (Pg.users (db w)))))
                                (Pg.ideas (db w))))))
                       (Pg.feedbacks (db w))))) = true) as T; [|congruence].
    destruct (Pg.mem (Pg.f_idea_id f)
                (map Pg.i_id
                   (filter (fun i => Pg.mem_string (Pg.i_user_id i)
                              (map Pg.u_id
                                 (filter (fun u => String.eqb (Pg.u_id u) id)
                                         (Pg.users (db w)))))
                           (Pg.ideas (db w))))) eqn:Q.
    + exfalso. apply filter_In in J. destruct J as [J1 J2].
      apply filter_In in J1. destruct J1 as [J1 J3].
      apply negb_true_iff in J3. rewrite N in J3.
      rewrite (proj2 (mem_in _ _)) in J3; [discriminate|].
      apply in_map. apply filter_In. split; [exact I | exact Q].
    + apply mem_in. rewrite N. apply in_map. apply filter_In. split.
      * apply filter_In. split; [exact I | now rewrite Q].
      * rewrite M, E. apply String.eqb_refl.
  - now rewrite D.
  - now rewrite D.
  - unfold answer, Users.delete. rewrite run_bind, sql_run. unfold Pg.delete_user.
    cbv zeta. unfold Pg.has_user in G. rewrite (filter_absent _ _ G). reflexivity.
Qed.

(** The user of [Sample.w1], who has one idea with two tags. *)
Lemma delete_user_cascades_witness :
  Pg.ideas (db (after (Users.delete "u1") Sample.w1)) = []
  /\ Pg.ideas_tags (db (after (Users.delete "u1") Sample.w1)) = []
  /\ map Pg.t_name (Pg.tags (db (after (Users.delete "u1") Sample.w1))) = ["x"; "y"]
  /\ status (answer (Users.delete "u1") (after (Users.delete "u1") Sample.w1)) = 404.
Proof.
  split; [reflexivity|]. split; [reflexivity|]. split; [reflexivity|].
  exact (proj2 (proj2 (proj2 (proj2 (proj2 (proj2 (proj2 (proj2 (proj2
           (delete_user_cascades Sample.w1 "u1" eq_refl)))))))))).
Defined.

(* ================================================================== *)
(** * The sequences stay ahead of the ids in use *)

Section Ahead.

Lemma Forall_below {X} (f : X -> Z) l l' s s' :
  incl (map f l') (map f l) -> s <= s' ->
  Forall (fun x => f x < s) l -> Forall (fun x => f x < s') l'.
Proof.
  intros I L H. apply Forall_forall. intros x Hx.
  assert (In (f x) (map f l)) as J by (apply I; now apply in_map).
  apply in_map_iff in J. destruct J as (y & E & J).
  rewrite Forall_forall in H. specialize (H y J). lia.
Qed.

Lemma ahead_no_new_id d d' : no_new_id d d' -> ahead d -> ahead d'.
Proof.
  intros (S1 & S2 & S3 & I1 & I2 & I3 & I4 & I5) (A1 & A2 & A3 & A4 & A5 & A6 & A7 & A8).
  unfold ahead. repeat split; try lia.
  - exact (Forall_below Pg.i_id _ _ _ _ I1 S1 A2).
  - exact (Forall_below fst _ _ _ _ I2 S1 A3).
  - exact (Forall_below Pg.f_id _ _ _ _ I3 S2 A5).
  - exact (Forall_below snd _ _ _ _ I4 S2 A6).
  - exact (Forall_below Pg.g_id _ _ _ _ I5 S3 A8).
Qed.

Lemma incl_map_filter {X Y} (f : X -> Y) p l : incl (map f (filter p l)) (map f l).
Proof.
  intros y I. apply in_map_iff in I. destruct I as (x & E & I).
  apply filter_In in I. rewrite <- E. apply in_map. tauto.
Qed.

Lemma incl_map_same {X Y} (f : X -> Y) (g : X -> X) l :
  (forall x, f (g x) = f x) -> incl (map f (map g l)) (map f l).
Proof. intros H. rewrite map_map, (map_ext _ _ H). apply incl_refl. Qed.

Lemma stays_ahead_refl w : stays_ahead w w.
Proof. intros H. exact H. Qed.

Lemma stays_ahead_trans a b c : stays_ahead a b -> stays_ahead b c -> stays_ahead a c.
Proof. unfold stays_ahead. auto. Qed.

Lemma stays_ahead_sql {A} text (q : Pg.stmt A) :
  (forall d, ahead d -> ahead (snd (q d))) -> preserves stays_ahead (sql text q).
Proof.
  intros H w. rewrite sql_run. specialize (H (db w)).
  destruct (q (db w)) as [[e|a] d]; exact H.
Qed.

Lemma stays_ahead_s3_write k b : preserves stays_ahead (s3_write k b).
Proof. intros w H. exact H. Qed.

Lemma stays_ahead_s3_delete k : preserves stays_ahead (s3_delete k).
Proof. intros w H. exact H. Qed.

Lemma has_idea_below id d : ahead d -> Pg.has_idea id d = true -> id < Pg.ideas_id_seq d.
Proof.
  intros (_ & A & _) H. apply existsb_exists in H. destruct H as (i & I & E).
  apply Z.eqb_eq in E. rewrite Forall_forall in A. specialize (A i I). lia.
Qed.

Lemma has_feedback_below id d :
  ahead d -> Pg.has_feedback id d = true -> id < Pg.feedbacks_id_seq d.
Proof.
  intros (_ & _ & _ & _ & A & _) H. apply existsb_exists in H.
  destruct H as (f & I & E).
  apply Z.eqb_eq in E. rewrite Forall_forall in A. specialize (A f I). lia.
Qed.

Lemma Forall_up {X} (f : X -> Z) s l :
  Forall (fun x => f x < s) l -> Forall (fun x => f x < s + 1) l.
Proof. apply Forall_impl. intros x. lia. Qed.

Lemma ahead_insert_idea t c u f a d : ahead d -> ahead (snd (Pg.insert_idea t c u f a d)).
Proof.
  intros (A1 & A2 & A3 & A4). unfold Pg.insert_idea. cbv zeta.
  destruct (Pg.has_idea _ d); [|destruct (negb (Pg.has_user u d))];
    unfold ahead; simpl; (split; [lia|]); (split; [|split; [|exact A4]]);
    auto using Forall_up.
  apply Forall_app. split; [auto using Forall_up|]. repeat constructor. simpl. lia.
Qed.

Lemma ahead_insert_ideas_tags rows d :
  ahead d -> ahead (snd (Pg.insert_ideas_tags rows d)).
Proof.
  intros A. unfold Pg.insert_ideas_tags.
  destruct (negb (Pg.insertable _ _ _)); [exact A|].
  destruct (forallb (fun r => Pg.has_idea (fst r) d) rows) eqn:F; [|exact A].
  destruct (negb (forallb _ rows)); [exact A|]. cbn [negb snd].
  assert (B : Forall (fun r : Z * Z => fst r < Pg.ideas_id_seq d) rows).
  { apply Forall_forall. intros r I. rewrite forallb_forall in F.
    apply (has_idea_below _ d A). now apply F. }
  destruct A as (A1 & A2 & A3 & A4). unfold ahead. simpl.
  split; [exact A1|]. split; [exact A2|]. split; [|exact A4].
  apply Forall_app. split; [exact A3 | exact B].
Qed.

Lemma ahead_insert_idea_tag id name d :
  ahead d -> ahead (snd (Pg.insert_idea_tag id name d)).
Proof.
  intros A. unfold Pg.insert_idea_tag, Pg.integer.
  destruct (Pg.int4 id); [|exact A].
  destruct (Pg.scalar_tag_id name d) as [e|[tid|]]; [exact A| |exact A].
  destruct (existsb _ _); [exact A|].
  destruct (Pg.has_idea id d) eqn:H; [|exact A]. cbn [negb snd].
  assert (B := has_idea_below id d A H).
  destruct A as (A1 & A2 & A3 & A4). unfold ahead. simpl.
  split; [exact A1|]. split; [exact A2|]. split; [|exact A4].
  apply Forall_app. split; [exact A3|]. repeat constructor. exact B.
Qed.

Lemma ahead_insert_feedback i u c f l t up down d :
  ahead d -> ahead (snd (Pg.insert_feedback i u c f l t up down d)).
Proof.
  intros A. unfold Pg.insert_feedback, Pg.integers. cbv zeta.
  destruct (forallb Pg.int4 _); [|exact A].
  destruct A as (A1 & A2 & A3 & A4 & A5 & A6 & A7).
  destruct (Pg.has_feedback _ d);
    [|destruct (negb (Pg.has_idea i d)); [|destruct (negb (Pg.has_user u d))]];
    unfold ahead; simpl; repeat split; auto using Forall_up; try lia; try apply A7.
  apply Forall_app. split; [auto using Forall_up|]. repeat constructor. simpl. lia.
Qed.

Lemma ahead_insert_ideas_feedbacks i f d :
  ahead d -> ahead (snd (Pg.insert_ideas_feedbacks i f d)).
Proof.
  intros A. unfold Pg.insert_ideas_feedbacks, Pg.integers.
  destruct (forallb Pg.int4 _); [|exact A].
  destruct (existsb _ _); [exact A|].
  destruct (negb (Pg.has_idea i d)); [exact A|].
  destruct (Pg.has_feedback f d) eqn:H; [|exact A]. cbn [negb snd].
  assert (B := has_feedback_below f d A H).
  destruct A as (A1 & A2 & A3 & A4 & A5 & A6 & A7). unfold ahead. simpl.
  repeat split; auto; try apply A7.
  apply Forall_app. split; [exact A6|]. repeat constructor. exact B.
Qed.

Lemma ahead_insert_group t de u l d : ahead d -> ahead (snd (Pg.insert_group t de u l d)).
Proof.
  intros A. unfold Pg.insert_group, Pg.integer. cbv zeta.
  destruct (Pg.int4 l); [|exact A].
  destruct A as (A1 & A2 & A3 & A4 & A5 & A6 & A7 & A8).
  destruct (existsb _ _); unfold ahead; simpl; repeat split;
    auto using Forall_up; try lia.
  apply Forall_app. split; [auto using Forall_up|]. repeat constructor. simpl. lia.
Qed.

End Ahead.

(** Settles a statement that adds no id to ideas, feedbacks, groups or
    their junctions. *)
Ltac adds_no_id :=
  intros d; apply ahead_no_new_id;
  unfold Pg.select_tag_names, Pg.select_tag, Pg.select_ideas_listing,
    Pg.select_idea_with_tags, Pg.select_ideas_by_user, Pg.select_users,
    Pg.select_user, Pg.select_groups_listing, Pg.select_group,
    Pg.select_feedbacks, Pg.select_feedback, Pg.select_feedbacks_by_user,
    Pg.select_tag_ids, Pg.insert_tags, Pg.update_tags_vote, Pg.delete_idea,
    Pg.update_ideas_vote, Pg.update_ideas_files,
    Pg.delete_idea_tag, Pg.insert_user, Pg.update_user, Pg.delete_user,
    Pg.link_user_tag, Pg.unlink_user_tag, Pg.update_group, Pg.delete_group,
    Pg.update_group_members, Pg.update_feedback, Pg.delete_feedback,
    Pg.delete_ideas_feedbacks, Pg.update_feedbacks_vote, Pg.cascade_users,
    Pg.cascade_ideas, Pg.cascade_feedbacks, Pg.integer, Pg.integers, Pg.reading,
    Pg.failing;
  cbv beta zeta;
  repeat match goal with
         | |- context [if ?c then _ else _] => destruct c
         | |- context [match ?c with _ => _ end] => destruct c
         end;
  unfold no_new_id; simpl;
  repeat match goal with |- _ /\ _ => split end;
  try apply Z.le_refl;
  repeat first
    [ apply incl_refl
    | eapply incl_tran; [apply incl_map_filter|]
    | apply incl_map_same; intros x;
      repeat match goal with
             | |- context [if ?c then _ else _] => destruct c
             | c : Pg.counter |- _ => destruct c
             end;
      reflexivity ].

Section AheadOnEveryRoute.
Variable V : schemas.

Lemma route_stays_ahead e r : preserves stays_ahead (route V e r).
Proof.
  destruct e; cbn [route]; unfold_routes;
    preserving stays_ahead_refl stays_ahead_trans
      ltac:(first
        [ apply stays_ahead_s3_write
        | apply stays_ahead_s3_delete
        | apply stays_ahead_sql;
          first [ apply ahead_insert_idea
                | apply ahead_insert_ideas_tags
                | apply ahead_insert_idea_tag
                | apply ahead_insert_feedback
                | apply ahead_insert_ideas_feedbacks
                | apply ahead_insert_group
                | adds_no_id ] ]).
Qed.

End AheadOnEveryRoute.

(** From the empty store, whatever requests are served: the sequences of
    ideas, feedbacks and groups are positive and ahead of every id in
    their table, and of every idea id in ideas_tags and every feedback id
    in ideas_feedbacks.  So the id the next INSERT draws is never 0 and
    never in use. *)
Theorem sequences_stay_ahead :
  forall (V : schemas) (reqs : list (endpoint * request)) (bucket : string),
    ahead (db (serve V reqs (start bucket))).
Proof.
  intros V reqs bucket.
  assert (A : ahead (db (start bucket))).
  { unfold ahead. simpl. repeat split; try lia; constructor. }
  revert A. generalize (start bucket) as w.
  induction reqs as [|[e r] reqs IH]; intros w A; simpl; [exact A|].
  apply IH. now apply (preserves_fetch stays_ahead _ e r w (route_stays_ahead V e r)).
Qed.

(* ================================================================== *)
(** * POST /ideas *)

Section CreateIdea.

Lemma insert_tags_rows_ok names :
  forall ts seq,
    Forall (fun t => Pg.t_id t < seq) ts ->
    exists ts',
      fst (Pg.insert_tags_rows names ts seq) = inr ts'
      /\ forall n, In n names -> In n (map Pg.t_name ts').
Proof.
  induction names as [|n names IH]; intros ts seq A; simpl.
  - exists ts. split; [reflexivity | intros n []].
  - assert (Up : Forall (fun t => Pg.t_id t < seq + 1) ts)
      by (revert A; apply Forall_impl; intros t; lia).
    destruct (existsb (fun t => String.eqb (Pg.t_name t) n) ts) eqn:E.
    + destruct (IH ts (seq + 1) Up) as (ts' & R & K).
      exists ts'. split; [exact R|]. intros m [<-|I]; [|now apply K].
      destruct (insert_tags_rows_appends names _ _ _ R) as (added & -> & _).
      rewrite map_app. apply in_or_app. left.
      apply existsb_exists in E. destruct E as (t & I & E).
      apply String.eqb_eq in E. rewrite <- E. now apply in_map.
    + assert (F : existsb (fun t => Pg.t_id t =? seq) ts = false).
      { apply not_true_is_false. intros X. apply existsb_exists in X.
        destruct X as (t & I & X). apply Z.eqb_eq in X.
        rewrite Forall_forall in A. specialize (A t I). lia. }
      rewrite F.
      destruct (IH (ts ++ [Pg.mk_tag seq n 0 0])%list (seq + 1)) as (ts' & R & K).
      { apply Forall_app. split; [exact Up|]. repeat constructor. simpl. lia. }
      exists ts'. split; [exact R|]. intros m [<-|I]; [|now apply K].
      destruct (insert_tags_rows_appends names _ _ _ R) as (added & -> & _).
      rewrite !map_app. apply in_or_app. left. apply in_or_app. right. simpl. auto.
Qed.

Lemma insertable_fresh {X} (eqb : X -> X -> bool) rows :
  (forall x y, eqb x y = true <-> x = y) ->
  forall table,
    NoDup rows -> (forall r, In r rows -> ~ In r table) ->
    Pg.insertable eqb rows table = true.
Proof.
  intros S. induction rows as [|r rows IH]; intros table N F; simpl; [reflexivity|].
  inversion N as [|? ? Nr Nrows]; subst.
  apply andb_true_iff. split.
  - apply negb_true_iff. apply not_true_is_false. intros X0.
    apply existsb_exists in X0. destruct X0 as (y & I & E).
    apply S in E. subst y. exact (F r (or_introl eq_refl) I).
  - apply IH; [exact Nrows|]. intros r' I J. apply in_app_or in J.
    destruct J as [J|[<-|[]]]; [exact (F r' (or_intror I) J) | contradiction].
Qed.

Lemma NoDup_map_filter {X Y} (f : X -> Y) p l :
  NoDup (map f l) -> NoDup (map f (filter p l)).
Proof.
  induction l as [|x l IH]; simpl; intros N; [constructor|].
  inversion N as [|? ? Nx Nl]; subst.
  destruct (p x); simpl; [|now apply IH].
  constructor; [|now apply IH].
  intros I. apply Nx. now apply (incl_map_filter f p l).
Qed.

Lemma NoDup_map_pair (a : Z) l : NoDup l -> NoDup (map (fun b : Z => (a, b)) l).
Proof.
  induction 1 as [|x l Nx N IH]; simpl; constructor; [|exact IH].
  intros I. apply in_map_iff in I. destruct I as (y & E & I).
  inversion E; subst. contradiction.
Qed.

End CreateIdea.

Section CreateIdeaRun.

(** The tables after a POST /ideas that goes through. *)
Lemma create_idea_run w b :
  consistent (db w) -> ahead (db w) ->
  Pg.has_user (Ideas.user_id b) (db w) = true ->
  Ideas.tags b <> [] ->
  exists ts',
    (forall n, In n (Ideas.tags b) -> In n (map Pg.t_name ts'))
    /\ (exists added, ts' = (Pg.tags (db w) ++ added)%list)
    /\ NoDup (map Pg.t_id ts')
    /\ NoDup (map Pg.t_name ts')
    /\ answer (Ideas.create b) w
       = mk_response 200
           (Some (Js.spread_with (idea_json (new_idea b (db w))) "tags"
                                 (Js.strings (Ideas.tags b))))
    /\ Pg.tags (db (after (Ideas.create b) w)) = ts'
    /\ Pg.ideas (db (after (Ideas.create b) w))
       = (Pg.ideas (db w) ++ [new_idea b (db w)])%list
    /\ Pg.ideas_tags (db (after (Ideas.create b) w))
       = (Pg.ideas_tags (db w)
          ++ map (fun tid => (Pg.ideas_id_seq (db w), tid))
                 (map Pg.t_id
                      (filter (fun t => Pg.mem_string (Pg.t_name t) (Ideas.tags b)) ts')))%list.
Proof.
  intros C A U T.
  destruct C as (N1 & N2 & _ & _ & S1 & _).
  destruct (insert_tags_rows_ok (Ideas.tags b) _ _ S1) as (ts' & R & K).
  destruct (insert_tags_rows_consistent _ _ _ _ R N1 N2 S1) as (N1' & N2' & _).
  exists ts'. split; [exact K|]. split.
  { destruct (insert_tags_rows_appends _ _ _ _ R) as (added & E & _). now exists added. }
  split; [exact N2'|]. split; [exact N1'|].
  assert (H0 : Pg.has_idea (Pg.ideas_id_seq (db w)) (db w) = false).
  { apply not_true_is_false. intros X. apply (has_idea_below _ _ A) in X. lia. }
  assert (Z0 : Js.truthy_num (Pg.ideas_id_seq (db w)) = true).
  { unfold Js.truthy_num. apply negb_true_iff. apply Z.eqb_neq.
    destruct A as (A1 & _). lia. }
  set (ids := map Pg.t_id
                (filter (fun t => Pg.mem_string (Pg.t_name t) (Ideas.tags b)) ts')).
  assert (Ne : ids <> []).
  { destruct (Ideas.tags b) as [|n ns] eqn:Tb; [contradiction|].
    assert (In n (map Pg.t_name ts')) as I by (apply K; simpl; auto).
    apply in_map_iff in I. destruct I as (t & E & I).
    assert (In (Pg.t_id t) ids) as J.
    { unfold ids. apply in_map. apply filter_In. split; [exact I|].
      rewrite E. simpl. now rewrite String.eqb_refl. }
    intros X. rewrite X in J. exact J. }
  assert (R' : exists log, run (Ideas.create b) w
          = (mk_response 200
               (Some (Js.spread_with (idea_json (new_idea b (db w))) "tags"
                                     (Js.strings (Ideas.tags b)))),
             mk_world
               (Pg.with_ideas_tags
                  (Pg.ideas_tags (db w)
                   ++ map (fun tid => (Pg.ideas_id_seq (db w), tid)) ids)
                  (Pg.with_ideas (Pg.ideas (db w) ++ [new_idea b (db w)])
                     (Pg.with_ideas_id_seq (Pg.ideas_id_seq (db w) + 1)
                        (Pg.with_tags ts'
                           (Pg.with_tags_id_seq
                              (snd (Pg.insert_tags_rows (Ideas.tags b)
                                      (Pg.tags (db w)) (Pg.tags_id_seq (db w))))
                              (db w))))))
               (s3 w) (AWS_BUCKET_NAME w) log)).
  { unfold Ideas.create at 1. rewrite run_bind, (sql_rows_some _ _ _ T).
    rewrite sql_run. unfold Pg.insert_tags. cbv zeta. rewrite R.
    rewrite run_bind, sql_run. unfold Pg.select_tag_ids, Pg.reading. cbn [db Pg.tags Pg.with_tags].
    rewrite run_bind, sql_run. cbn [db]. unfold Pg.insert_idea. cbv zeta.
    unfold Pg.has_idea, Pg.has_user in *.
    cbn [db s3 AWS_BUCKET_NAME sent Pg.ideas_id_seq Pg.with_tags Pg.with_tags_id_seq
         Pg.clock Pg.ideas Pg.users].
    rewrite H0, U. cbn [negb]. fold (new_idea b (db w)).
    change (Pg.i_id (new_idea b (db w))) with (Pg.ideas_id_seq (db w)).
    rewrite Z0. fold ids. rewrite run_bind.
    set (rows := map (fun tag_id : Z => (Pg.ideas_id_seq (db w), tag_id)) ids).
    assert (Nr : rows <> []).
    { intros X. apply map_eq_nil in X. contradiction. }
    set (d2 := Pg.with_ideas _ _).
    assert (Fst : forall r, In r rows -> fst r = Pg.ideas_id_seq (db w)).
    { intros r I. apply in_map_iff in I. now destruct I as (x & <- & _). }
    assert (I1 : Pg.insertable Pg.pair_eqb rows (Pg.ideas_tags d2) = true).
    { apply insertable_fresh.
      - intros x y. apply pair_eqb_eq.
      - apply NoDup_map_pair. unfold ids. now apply NoDup_map_filter.
      - intros r I J. apply Fst in I. destruct A as (_ & _ & A3 & _).
        rewrite Forall_forall in A3. specialize (A3 r J). lia. }
    assert (I2 : forallb (fun r => Pg.has_idea (fst r) d2) rows = true).
    { apply forallb_forall. intros r I. rewrite (Fst r I).
      unfold Pg.has_idea, d2. cbn [Pg.ideas Pg.with_ideas]. rewrite existsb_app.
      simpl. now rewrite Z.eqb_refl, !orb_true_r. }
    assert (I3 : forallb (fun r => Pg.has_tag (snd r) d2) rows = true).
    { apply forallb_forall. intros r I. apply in_map_iff in I.
      destruct I as (x & <- & I). unfold ids in I. apply in_map_iff in I.
      destruct I as (t & <- & I). apply filter_In in I. destruct I as [I _].
      unfold Pg.has_tag, d2. simpl. apply existsb_exists. exists t.
      split; [exact I | apply Z.eqb_refl]. }
    rewrite (sql_rows_some _ _ _ Nr), sql_run. cbn [db]. unfold Pg.insert_ideas_tags.
    rewrite I1, I2, I3. cbn [negb]. eexists. reflexivity. }
  destruct R' as (log & R').
  unfold answer, after. rewrite R'. repeat split.
Qed.

End CreateIdeaRun.

(** POST /ideas for an existing user and with at least one tag, on a
    store that is consistent and whose sequences are ahead: the answer is
    200 with the stored row and the tags of the body; the row has the
    next id of the sequence and both counters at 0, whatever counters the
    body carries; every tag of the body is in the tags table and linked
    to the idea, and nothing else is linked. *)
Theorem created_idea_is_stored_with_its_tags :
  forall (w : world) (b : Ideas.body),
    consistent (db w) -> ahead (db w) ->
    Pg.has_user (Ideas.user_id b) (db w) = true ->
    Ideas.tags b <> [] ->
    let w' := after (Ideas.create b) w in
    let id := Pg.ideas_id_seq (db w) in
    answer (Ideas.create b) w
    = mk_response 200
        (Some (Js.spread_with (idea_json (new_idea b (db w))) "tags"
                              (Js.strings (Ideas.tags b))))
    /\ Pg.ideas (db w') = (Pg.ideas (db w) ++ [new_idea b (db w)])%list
    /\ (forall n, In n (Ideas.tags b) ->
          exists t, In t (Pg.tags (db w')) /\ Pg.t_name t = n
                    /\ In (id, Pg.t_id t) (Pg.ideas_tags (db w')))
    /\ (forall p, In p (Pg.ideas_tags (db w')) ->
          In p (Pg.ideas_tags (db w))
          \/ (fst p = id
              /\ exists t, In t (Pg.tags (db w')) /\ Pg.t_id t = snd p
                           /\ In (Pg.t_name t) (Ideas.tags b)))
    /\ (forall t, In t (Pg.tags (db w)) -> In t (Pg.tags (db w'))).
Proof.
  intros w b C A U T w' id.
  destruct (create_idea_run w b C A U T)
    as (ts' & K & (added & Ea) & N & _ & R & Et & Ei & El).
  fold w' in Et, Ei, El. split; [exact R|]. split; [exact Ei|].
  rewrite Et, El. split; [|split].
  - intros n I. specialize (K n I). apply in_map_iff in K.
    destruct K as (t & E & J). exists t. split; [exact J|]. split; [exact E|].
    apply in_or_app. right. apply in_map_iff. exists (Pg.t_id t). split; [reflexivity|].
    apply in_map. apply filter_In. split; [exact J|].
    apply mem_string_in. now rewrite E.
  - intros p I. apply in_app_or in I. destruct I as [I|I]; [now left|]. right.
    apply in_map_iff in I. destruct I as (x & <- & I). split; [reflexivity|].
    apply in_map_iff in I. destruct I as (t & <- & I). apply filter_In in I.
    destruct I as [I M]. exists t. split; [exact I|]. split; [reflexivity|].
    now apply mem_string_in.
  - intros t I. rewrite Ea. apply in_or_app. now left.
Qed.

(** The first idea of Alice, sent with counters 7 and 9. *)
Lemma created_idea_is_stored_with_its_tags_witness :
  Pg.ideas (db (after (Ideas.create (Ideas.mk_body "T" "C" "u1" [] "public" 7 9 ["x"]))
                      Sample.w0))
  = [Pg.mk_idea 1 "T" "C" "u1" [] "public" 0 0 0].
Proof.
  refine (proj1 (proj2 (created_idea_is_stored_with_its_tags Sample.w0
                          (Ideas.mk_body "T" "C" "u1" [] "public" 7 9 ["x"])
                          _ _ eq_refl _))).
  - unfold consistent, tags_seq_ahead. simpl. repeat split; constructor.
  - unfold ahead. simpl. repeat split; try lia; constructor.
  - discriminate.
Defined.

(** POST /ideas is not one transaction.  With an empty tag list the
    handler throws before anything is sent: 500, and the world is as it
    was.  With tags but for a user that does not exist, the tags are
    upserted first and stay, the INSERT of the idea then fails: 500, no
    idea and no link stored, every tag of the body in the tags table,
    and one id of the ideas sequence used up. *)
Theorem failed_create_idea_keeps_its_tags :
  forall (w : world) (b : Ideas.body),
    let w' := after (Ideas.create b) w in
    (Ideas.tags b = [] -> status (answer (Ideas.create b) w) = 500 /\ w' = w)
    /\ (Ideas.tags b <> [] ->
        tags_seq_ahead (db w) ->
        Pg.has_user (Ideas.user_id b) (db w) = false ->
        status (answer (Ideas.create b) w) = 500
        /\ Pg.ideas (db w') = Pg.ideas (db w)
        /\ Pg.ideas_tags (db w') = Pg.ideas_tags (db w)
        /\ (forall n, In n (Ideas.tags b) -> In n (map Pg.t_name (Pg.tags (db w'))))
        /\ Pg.ideas_id_seq (db w') = Pg.ideas_id_seq (db w) + 1).
Proof.
  intros w b w'. split.
  - intros E. unfold w', answer, after, run, Ideas.create, bind, sql_rows.
    rewrite E. split; reflexivity.
  - intros T (S1 & _) U.
    destruct (insert_tags_rows_ok (Ideas.tags b) _ _ S1) as (ts' & R & K).
    assert (R' : exists e log, Ideas.create b w
               = (inl (PostgresError e),
                  mk_world
                    (Pg.with_ideas_id_seq (Pg.ideas_id_seq (db w) + 1)
                       (Pg.with_tags ts'
                          (Pg.with_tags_id_seq
                             (snd (Pg.insert_tags_rows (Ideas.tags b)
                                     (Pg.tags (db w)) (Pg.tags_id_seq (db w))))
                             (db w))))
                    (s3 w) (AWS_BUCKET_NAME w) log)).
    { unfold Ideas.create, bind. rewrite (sql_rows_some _ _ _ T), sql_run.
      unfold Pg.insert_tags. cbv zeta. rewrite R.
      rewrite sql_run. unfold Pg.select_tag_ids, Pg.reading.
      rewrite sql_run. cbn [db]. unfold Pg.insert_idea. cbv zeta.
      unfold Pg.has_user in *.
      cbn [db s3 AWS_BUCKET_NAME sent Pg.ideas_id_seq Pg.with_tags Pg.with_tags_id_seq
           Pg.users].
      rewrite U. cbn [negb].
      destruct (Pg.has_idea _ _); eexists; eexists; reflexivity. }
    destruct R' as (e & log & R').
    unfold w', answer, after, run. rewrite R'. simpl. repeat split. exact K.
Qed.

(** Tags x and y for a user nobody has created. *)
Lemma failed_create_idea_keeps_its_tags_witness :
  let w := start "bucket" in
  status (answer (Ideas.create Sample.idea_T) w) = 500
  /\ Pg.ideas (db (after (Ideas.create Sample.idea_T) w)) = []
  /\ In "x" (map Pg.t_name (Pg.tags (db (after (Ideas.create Sample.idea_T) w)))).
Proof.
  intros w.
  assert (S : tags_seq_ahead (db w)) by (split; constructor).
  destruct (proj2 (failed_create_idea_keeps_its_tags w Sample.idea_T)
                  ltac:(discriminate) S eq_refl) as (H1 & H2 & _ & H4 & _).
  split; [exact H1|]. split; [exact H2|]. apply H4. simpl. auto.
Defined.

(* ================================================================== *)
(** * POST /feedbacks *)

(** POST /feedbacks on an existing idea by an existing user, its numbers
    within INTEGER, on a store whose sequences are ahead: the answer is
    200 with the stored row, which has the next id of the sequence and
    the counters of the body; the row is added to feedbacks and the pair
    (idea, feedback) to ideas_feedbacks. *)
Theorem created_feedback_is_linked_to_its_idea :
  forall (w : world) (b : Feedbacks.body),
    ahead (db w) ->
    Pg.has_idea (Feedbacks.idea_id b) (db w) = true ->
    Pg.has_user (Feedbacks.user_id b) (db w) = true ->
    forallb Pg.int4 (feedback_integers b) = true ->
    Pg.int4 (Pg.feedbacks_id_seq (db w)) = true ->
    let w' := after (Feedbacks.create b) w in
    answer (Feedbacks.create b) w
    = mk_response 200 (Some (feedback_json (new_feedback b (db w))))
    /\ Pg.feedbacks (db w') = (Pg.feedbacks (db w) ++ [new_feedback b (db w)])%list
    /\ Pg.ideas_feedbacks (db w')
       = (Pg.ideas_feedbacks (db w)
          ++ [(Feedbacks.idea_id b, Pg.feedbacks_id_seq (db w))])%list.
Proof.
  intros w b A I U F Fs w'.
  assert (H0 : Pg.has_feedback (Pg.feedbacks_id_seq (db w)) (db w) = false).
  { apply not_true_is_false. intros X. apply (has_feedback_below _ _ A) in X. lia. }
  assert (P0 : existsb (Pg.pair_eqb (Feedbacks.idea_id b, Pg.feedbacks_id_seq (db w)))
                       (Pg.ideas_feedbacks (db w)) = false).
  { apply not_true_is_false. intros X. apply existsb_exists in X.
    destruct X as (p & J & E). apply pair_eqb_eq in E. subst p.
    destruct A as (_ & _ & _ & _ & _ & A6 & _).
    rewrite Forall_forall in A6. specialize (A6 _ J). simpl in A6. lia. }
  assert (Fi : Pg.int4 (Feedbacks.idea_id b) = true).
  { unfold feedback_integers in F. simpl in F. now apply andb_prop in F. }
  assert (R : exists log, run (Feedbacks.create b) w
            = (mk_response 200 (Some (feedback_json (new_feedback b (db w)))),
               mk_world
                 (Pg.with_ideas_feedbacks
                    (Pg.ideas_feedbacks (db w)
                     ++ [(Feedbacks.idea_id b, Pg.feedbacks_id_seq (db w))])
                    (Pg.with_feedbacks (Pg.feedbacks (db w) ++ [new_feedback b (db w)])
                       (Pg.with_feedbacks_id_seq (Pg.feedbacks_id_seq (db w) + 1) (db w))))
                 (s3 w) (AWS_BUCKET_NAME w) log)).
  { unfold Feedbacks.create. rewrite run_bind, sql_run.
    unfold Pg.insert_feedback, Pg.integers. cbv zeta.
    fold (feedback_integers b). rewrite F, H0, I, U. cbn [negb].
    fold (new_feedback b (db w)).
    rewrite run_bind, sql_run. cbn [db]. unfold Pg.insert_ideas_feedbacks, Pg.integers.
    change (Pg.f_id (new_feedback b (db w))) with (Pg.feedbacks_id_seq (db w)).
    cbn [forallb]. rewrite Fi, Fs. cbn [andb].
    unfold Pg.has_idea, Pg.has_feedback in *.
    cbn [Pg.ideas_feedbacks Pg.with_feedbacks Pg.with_feedbacks_id_seq Pg.ideas
         Pg.feedbacks].
    rewrite P0, I, existsb_app. cbn [negb existsb Pg.f_id new_feedback].
    rewrite Z.eqb_refl, !orb_true_r. cbn [negb]. eexists. reflexivity. }
  destruct R as (log & R). unfold w', answer, after. rewrite R. repeat split.
Qed.

(** A feedback on the idea of [Sample.w1], sent with 3 upvotes. *)
Lemma created_feedback_is_linked_to_its_idea_witness :
  let b := Feedbacks.mk_body 1 "u1" "F" [] [] None 3 0 in
  Pg.feedbacks (db (after (Feedbacks.create b) Sample.w1))
  = [Pg.mk_feedback 1 1 "u1" "F" [] [] None 3 0 0]
  /\ Pg.ideas_feedbacks (db (after (Feedbacks.create b) Sample.w1)) = [(1, 1)].
Proof.
  intros b.
  refine (proj2 (created_feedback_is_linked_to_its_idea Sample.w1 b
                   _ eq_refl eq_refl eq_refl eq_refl)).
  unfold ahead. vm_compute. repeat split; repeat constructor.
Defined.

(* ================================================================== *)
(** * The listings by user *)

Section NewestFirst.
Context {X : Type}.
Variable at_ : X -> Z.

Lemma insert_desc_permutation x l : Permutation (Pg.insert_desc at_ x l) (x :: l).
Proof.
  induction l as [|y l IH]; simpl; [reflexivity|].
  destruct (at_ y <? at_ x); [reflexivity|].
  rewrite IH. apply perm_swap.
Qed.

Lemma order_desc_permutation l : Permutation (Pg.order_desc at_ l) l.
Proof.
  induction l as [|x l IH]; simpl; [constructor|].
  unfold Pg.order_desc in *. simpl. rewrite insert_desc_permutation.
  now constructor.
Qed.

Lemma insert_desc_sorted x l :
  StronglySorted (fun a b => at_ b <= at_ a) l ->
  StronglySorted (fun a b => at_ b <= at_ a) (Pg.insert_desc at_ x l).
Proof.
  induction 1 as [|y l S IH F]; simpl.
  - constructor; constructor.
  - destruct (at_ y <? at_ x) eqn:E.
    + apply Z.ltb_lt in E. constructor; [now constructor|].
      constructor; [lia|]. revert F. apply Forall_impl. intros z. lia.
    + apply Z.ltb_ge in E. constructor; [exact IH|].
      eapply Permutation_Forall.
      * symmetry. apply insert_desc_permutation.
      * constructor; [exact E | exact F].
Qed.

Lemma order_desc_sorted l :
  StronglySorted (fun a b => at_ b <= at_ a) (Pg.order_desc at_ l).
Proof.
  induction l as [|x l IH]; [constructor|].
  unfold Pg.order_desc in *. simpl. now apply insert_desc_sorted.
Qed.

End NewestFirst.

(** GET /ideas/user/:user_id and GET /feedbacks/user/:user_id answer 200
    with the rows of that user and no others, each once, the newest
    first; a user without rows, or who does not exist, gets the empty
    list and not a 404. *)
Theorem listings_by_user_are_newest_first :
  forall (w : world) (user_id : string),
    (exists rows,
        answer (Ideas.by_user user_id) w
        = mk_response 200 (Some (Js.Arr (map idea_json rows)))
        /\ Permutation rows
             (filter (fun i => String.eqb (Pg.i_user_id i) user_id) (Pg.ideas (db w)))
        /\ StronglySorted (fun a b => Pg.i_created_at b <= Pg.i_created_at a) rows)
    /\ (exists rows,
        answer (Feedbacks.by_user user_id) w
        = mk_response 200 (Some (Js.Arr (map feedback_json rows)))
        /\ Permutation rows
             (filter (fun f => String.eqb (Pg.f_user_id f) user_id) (Pg.feedbacks (db w)))
        /\ StronglySorted (fun a b => Pg.f_created_at b <= Pg.f_created_at a) rows).
Proof.
  intros w user_id. split.
  - exists (Pg.order_desc Pg.i_created_at
              (filter (fun i => String.eqb (Pg.i_user_id i) user_id) (Pg.ideas (db w)))).
    split; [reflexivity|].
    split; [apply order_desc_permutation | apply order_desc_sorted].
  - exists (Pg.order_desc Pg.f_created_at
              (filter (fun f => String.eqb (Pg.f_user_id f) user_id)
                      (Pg.feedbacks (db w)))).
    split; [reflexivity|].
    split; [apply order_desc_permutation | apply order_desc_sorted].
Qed.

(* ================================================================== *)
(** * Unpinning a tag *)

(** DELETE /user/:user_id/:tag of a pinned tag answers 200 and removes
    that one pair; the tag itself stays in the tags table (no route
    removes it), and the other pairs stay.  When the pair is not there
    (the tag unknown, or not pinned by this user) the answer is 404 and
    nothing changes, so a second DELETE is answered 404. *)
Theorem unpinned_tag_stays_a_tag :
  forall (w : world) (user_id name : string),
    let w' := after (Users.remove_tag user_id name) w in
    (forall tid,
        Pg.tag_id_of name (db w) = Some tid ->
        In (user_id, tid) (Pg.users_pinned_tags (db w)) ->
        status (answer (Users.remove_tag user_id name) w) = 200
        /\ ~ In (user_id, tid) (Pg.users_pinned_tags (db w'))
        /\ (forall p, In p (Pg.users_pinned_tags (db w)) -> p <> (user_id, tid) ->
              In p (Pg.users_pinned_tags (db w')))
        /\ Pg.tags (db w') = Pg.tags (db w)
        /\ status (answer (Users.remove_tag user_id name) w') = 404)
    /\ ((forall tid, Pg.tag_id_of name (db w) = Some tid ->
           ~ In (user_id, tid) (Pg.users_pinned_tags (db w))) ->
        status (answer (Users.remove_tag user_id name) w) = 404 /\ db w' = db w).
Proof.
  intros w user_id name w'.
  assert (Gone : forall d tid,
             Pg.tag_id_of name d = Some tid ->
             ~ In (user_id, tid) (Pg.users_pinned_tags d) ->
             filter (fun r => Pg.pin_eqb r (user_id, tid)) (Pg.users_pinned_tags d) = []).
  { intros d tid T N. apply filter_nil_of. intros p I.
    apply not_true_is_false. intros E. apply pin_eqb_eq in E. now subst p. }
  assert (Missing : forall v,
             (forall tid, Pg.tag_id_of name (db v) = Some tid ->
                ~ In (user_id, tid) (Pg.users_pinned_tags (db v))) ->
             status (answer (Users.remove_tag user_id name) v) = 404
             /\ db (after (Users.remove_tag user_id name) v) = db v).
  { intros v N. unfold answer, after, Users.remove_tag. rewrite run_bind, sql_run.
    unfold Pg.unlink_user_tag.
    destruct (Pg.tag_id_of name (db v)) as [tid|] eqn:T; [|split; reflexivity].
    cbv zeta. rewrite (Gone (db v) tid T (N tid eq_refl)).
    cbn [run throw fst snd status onError db]. split; [reflexivity|].
    rewrite (filter_all_of _ (Pg.users_pinned_tags (db v))); [now destruct (db v)|].
    intros p I. apply negb_true_iff. apply not_true_is_false. intros E.
    apply pin_eqb_eq in E. subst p. exact (N tid eq_refl I). }
  split; [|apply Missing].
  intros tid T I.
  assert (R : exists p ps log, Users.remove_tag user_id name w
            = (inr (mk_response 200 None),
               mk_world
                 (Pg.with_users_pinned_tags
                    (filter (fun r => negb (Pg.pin_eqb r (user_id, tid)))
                            (Pg.users_pinned_tags (db w))) (db w))
                 (s3 w) (AWS_BUCKET_NAME w) log)
              /\ filter (fun r => Pg.pin_eqb r (user_id, tid))
                        (Pg.users_pinned_tags (db w)) = p :: ps).
  { unfold Users.remove_tag, bind. rewrite sql_run. unfold Pg.unlink_user_tag.
    rewrite T. cbv zeta.
    destruct (filter (fun r => Pg.pin_eqb r (user_id, tid))
                     (Pg.users_pinned_tags (db w))) as [|p ps] eqn:F.
    - exfalso. assert (In (user_id, tid) []) as [].
      rewrite <- F. apply filter_In. split; [exact I | now apply pin_eqb_eq].
    - exists p, ps. eexists. split; reflexivity. }
  destruct R as (p & ps & log & R & _).
  assert (D : db w' = Pg.with_users_pinned_tags
                        (filter (fun r => negb (Pg.pin_eqb r (user_id, tid)))
                                (Pg.users_pinned_tags (db w))) (db w)).
  { unfold w', after, run. now rewrite R. }
  assert (N : ~ In (user_id, tid) (Pg.users_pinned_tags (db w'))).
  { rewrite D. simpl. intros J. apply filter_In in J. destruct J as [_ J].
    apply negb_true_iff in J.
    rewrite (proj2 (pin_eqb_eq (user_id, tid) (user_id, tid)) eq_refl) in J.
    discriminate. }
  split; [unfold answer, run; now rewrite R|]. split; [exact N|].
  split; [|split].
  - intros q J Nq. rewrite D. simpl. apply filter_In. split; [exact J|].
    apply negb_true_iff. apply not_true_is_false. intros E.
    apply pin_eqb_eq in E. contradiction.
  - now rewrite D.
  - apply Missing. intros tid' T'.
    assert (Pg.tag_id_of name (db w') = Pg.tag_id_of name (db w)) as Et
      by (now rewrite D).
    rewrite Et, T in T'. inversion T'; subst tid'. exact N.
Qed.

(** The tag x that u1 has pinned. *)
Lemma unpinned_tag_stays_a_tag_witness :
  let w := after (Users.add_tag "u1" "x") Sample.w0 in
  Pg.users_pinned_tags (db w) = [("u1", 1)]
  /\ status (answer (Users.remove_tag "u1" "x") w) = 200
  /\ Pg.tags (db (after (Users.remove_tag "u1" "x") w)) = [Pg.mk_tag 1 "x" 0 0].
Proof.
  intros w. split; [reflexivity|].
  destruct (proj1 (unpinned_tag_stays_a_tag w "u1" "x") 1 eq_refl
                  (or_introl eq_refl)) as (H1 & _ & _ & H4 & _).
  split; [exact H1 | exact H4].
Defined.

(* ================================================================== *)
(** * The statement of GET /ideas *)

Section ListingText.

Lemma shape_app (t t' : template) : shape (t ++ t')%list = (shape t ++ shape t')%list.
Proof. apply map_app. Qed.

Lemma filter_sql_shape f f' :
  Js.truthy f = Js.truthy f' -> shape (Ideas.filter_sql f) = shape (Ideas.filter_sql f').
Proof.
  destruct f as [f|], f' as [f'|]; simpl; intros H;
    try rewrite H; try rewrite <- H;
    repeat match goal with |- context [Js.truthy_string ?x] =>
             destruct (Js.truthy_string x) end;
    try reflexivity; discriminate.
Qed.

Lemma sort_sql_shape s s' :
  Js.truthy s = Js.truthy s' -> shape (Ideas.sort_by_sql s) = shape (Ideas.sort_by_sql s').
Proof.
  destruct s as [s|], s' as [s'|]; simpl; intros H;
    repeat match goal with |- context [Js.truthy_string ?x] =>
             destruct (Js.truthy_string x) end;
    try reflexivity; discriminate.
Qed.

Lemma access_sql_shape f f' a a' :
  Js.truthy f = Js.truthy f' -> Ideas.restricted a = Ideas.restricted a' ->
  shape (Ideas.access_sql f a) = shape (Ideas.access_sql f' a').
Proof.
  intros Hf Ha. unfold Ideas.access_sql. rewrite <- Hf.
  destruct a as [a|], a' as [a'|]; rewrite <- ?Ha;
    try (destruct (Ideas.restricted (Some a)); [|reflexivity]);
    try (destruct (Ideas.restricted (Some a')) eqn:E; [|reflexivity]);
    try (destruct (Js.truthy f); reflexivity);
    simpl in *; try discriminate; reflexivity.
Qed.

End ListingText.

(** The text of the statement of GET /ideas does not depend on the values
    the caller sends, only on which of them are there: sort_by and filter
    non-empty or not, access one of the restricted kinds or not.  The
    values travel as the bound parameters of the statement, filter first,
    then access, then sort_by, so none of them is ever read as SQL. *)
Theorem listing_text_is_independent_of_the_values :
  forall sort_by filter access sort_by' filter' access' : option string,
    Js.truthy sort_by = Js.truthy sort_by' ->
    Js.truthy filter = Js.truthy filter' ->
    Ideas.restricted access = Ideas.restricted access' ->
    text (Ideas.listing_sql sort_by filter access)
    = text (Ideas.listing_sql sort_by' filter' access')
    /\ parameters (Ideas.listing_sql sort_by filter access)
       = (bound (Ideas.given filter)
          ++ bound (if Ideas.restricted access then access else None)
          ++ bound (Ideas.given sort_by))%list.
Proof.
  intros s f a s' f' a' Hs Hf Ha. split.
  - unfold text. apply text_from_shape. unfold Ideas.listing_sql.
    rewrite !shape_app.
    now rewrite (filter_sql_shape f f' Hf), (access_sql_shape f f' a a' Hf Ha),
      (sort_sql_shape s s' Hs).
  - unfold Ideas.listing_sql. rewrite !parameters_app. simpl.
    rewrite app_nil_r. f_equal; [|f_equal].
    + destruct f as [f|]; simpl; [destruct (Js.truthy_string f)|]; reflexivity.
    + unfold Ideas.access_sql. destruct a as [a|]; [|reflexivity].
      destruct (Ideas.restricted (Some a)); [|reflexivity].
      destruct (Js.truthy f); reflexivity.
    + destruct s as [s|]; simpl; [destruct (Js.truthy_string s)|]; reflexivity.
Qed.

(** A filter that carries SQL and one that does not. *)
Lemma listing_text_is_independent_of_the_values_witness :
  text (Ideas.listing_sql None (Some "x' OR 1=1 --") (Some "group:7"))
  = text (Ideas.listing_sql None (Some "x") (Some "private:u1"))
  /\ parameters (Ideas.listing_sql None (Some "x' OR 1=1 --") (Some "group:7"))
     = ["x' OR 1=1 --"; "group:7"].
Proof.
  exact (listing_text_is_independent_of_the_values
           None (Some "x' OR 1=1 --") (Some "group:7")
           None (Some "x") (Some "private:u1") eq_refl eq_refl eq_refl).
Defined.

(* ================================================================== *)
(** * Primary keys stay unique *)

Section Keyed.

Lemma stays_keyed_refl w : stays_keyed w w.
Proof. intros H. exact H. Qed.

Lemma stays_keyed_trans a b c : stays_keyed a b -> stays_keyed b c -> stays_keyed a c.
Proof. unfold stays_keyed. auto. Qed.

Lemma stays_keyed_sql {A} text (q : Pg.stmt A) :
  (forall d, keyed d -> keyed (snd (q d))) -> preserves stays_keyed (sql text q).
Proof.
  intros H w. rewrite sql_run. specialize (H (db w)).
  destruct (q (db w)) as [[e|a] d]; exact H.
Qed.

Lemma stays_keyed_s3_write k b : preserves stays_keyed (s3_write k b).
Proof. intros w H. exact H. Qed.

Lemma stays_keyed_s3_delete k : preserves stays_keyed (s3_delete k).
Proof. intros w H. exact H. Qed.

Lemma NoDup_map_same {X Y} (f : X -> Y) (g : X -> X) l :
  (forall x, f (g x) = f x) -> NoDup (map f l) -> NoDup (map f (map g l)).
Proof. intros H. now rewrite map_map, (map_ext _ _ H). Qed.

Lemma NoDup_map_snoc {X} (f : X -> Z) l x :
  existsb (fun y => f y =? f x) l = false ->
  NoDup (map f l) -> NoDup (map f (l ++ [x])).
Proof.
  intros E N. rewrite map_app. simpl. apply NoDup_snoc; [exact N|].
  intros I. apply in_map_iff in I. destruct I as (y & Ey & I).
  assert (existsb (fun y => f y =? f x) l = true) as T; [|congruence].
  apply existsb_exists. exists y. split; [exact I | now apply Z.eqb_eq].
Qed.

Lemma keyed_insert_user u d : keyed d -> keyed (snd (Pg.insert_user u d)).
Proof.
  intros K. unfold Pg.insert_user. destruct (Pg.has_user (Pg.u_id u) d) eqn:H; [exact K|].
  destruct K as (K1 & K2). split; [|exact K2]. simpl. rewrite map_app. simpl.
  apply NoDup_snoc; [exact K1|]. intros I. apply in_map_iff in I.
  destruct I as (y & Ey & I).
  assert (Pg.has_user (Pg.u_id u) d = true) as T; [|congruence].
  apply existsb_exists. exists y. split; [exact I | now apply String.eqb_eq].
Qed.

Lemma keyed_insert_idea t c u f a d : keyed d -> keyed (snd (Pg.insert_idea t c u f a d)).
Proof.
  intros (K1 & K2 & K3). unfold Pg.insert_idea. cbv zeta.
  destruct (Pg.has_idea _ d) eqn:H; [now split|].
  destruct (negb (Pg.has_user u d)); [now split|].
  split; [exact K1|]. split; [|exact K3]. simpl.
  now apply (NoDup_map_snoc Pg.i_id).
Qed.

Lemma keyed_insert_feedback i u c f l t up down d :
  keyed d -> keyed (snd (Pg.insert_feedback i u c f l t up down d)).
Proof.
  intros K. unfold Pg.insert_feedback, Pg.integers. cbv zeta.
  destruct (forallb Pg.int4 _); [|exact K].
  destruct K as (K1 & K2 & K3 & K4).
  destruct (Pg.has_feedback _ d) eqn:H; [now repeat split|].
  destruct (negb (Pg.has_idea i d)); [now repeat split|].
  destruct (negb (Pg.has_user u d)); [now repeat split|].
  split; [exact K1|]. split; [exact K2|]. split; [|exact K4]. simpl.
  now apply (NoDup_map_snoc Pg.f_id).
Qed.

Lemma keyed_insert_group t de u l d : keyed d -> keyed (snd (Pg.insert_group t de u l d)).
Proof.
  intros K. unfold Pg.insert_group, Pg.integer. cbv zeta.
  destruct (Pg.int4 l); [|exact K].
  destruct K as (K1 & K2 & K3 & K4).
  destruct (existsb _ (Pg.user_groups d)) eqn:H; [now repeat split|].
  split; [exact K1|]. split; [exact K2|]. split; [exact K3|]. simpl.
  now apply (NoDup_map_snoc Pg.g_id).
Qed.

End Keyed.

(** Settles a statement that inserts no row into users, ideas, feedbacks
    or groups. *)
Ltac inserts_no_row :=
  intros d (K1 & K2 & K3 & K4);
  unfold Pg.select_tag_names, Pg.select_tag, Pg.select_ideas_listing,
    Pg.select_idea_with_tags, Pg.select_ideas_by_user, Pg.select_users,
    Pg.select_user, Pg.select_groups_listing, Pg.select_group,
    Pg.select_feedbacks, Pg.select_feedback, Pg.select_feedbacks_by_user,
    Pg.select_tag_ids, Pg.insert_tags, Pg.update_tags_vote, Pg.delete_idea,
    Pg.update_ideas_vote, Pg.update_ideas_files, Pg.insert_ideas_tags,
    Pg.insert_idea_tag, Pg.insert_ideas_feedbacks,
    Pg.delete_idea_tag, Pg.update_user, Pg.delete_user,
    Pg.link_user_tag, Pg.unlink_user_tag, Pg.update_group, Pg.delete_group,
    Pg.update_group_members, Pg.update_feedback, Pg.delete_feedback,
    Pg.delete_ideas_feedbacks, Pg.update_feedbacks_vote, Pg.cascade_users,
    Pg.cascade_ideas, Pg.cascade_feedbacks, Pg.integer, Pg.integers, Pg.reading,
    Pg.failing;
  cbv beta zeta;
  repeat match goal with
         | |- context [if ?c then _ else _] => destruct c
         | |- context [match ?c with _ => _ end] => destruct c
         end;
  unfold keyed; simpl;
  repeat match goal with |- _ /\ _ => split end;
  repeat first
    [ assumption
    | apply NoDup_map_filter
    | apply NoDup_map_same;
      [ intros x;
        repeat match goal with
               | |- context [if ?c then _ else _] => destruct c
               | c : Pg.counter |- _ => destruct c
               end;
        reflexivity | ] ].

Section KeyedOnEveryRoute.
Variable V : schemas.

Lemma route_stays_keyed e r : preserves stays_keyed (route V e r).
Proof.
  destruct e; cbn [route]; unfold_routes;
    preserving stays_keyed_refl stays_keyed_trans
      ltac:(first
        [ apply stays_keyed_s3_write
        | apply stays_keyed_s3_delete
        | apply stays_keyed_sql;
          first [ apply keyed_insert_user
                | apply keyed_insert_idea
                | apply keyed_insert_feedback
                | apply keyed_insert_group
                | inserts_no_row ] ]).
Qed.

End KeyedOnEveryRoute.

(** From the empty store, whatever requests are served: no two users,
    no two ideas, no two feedbacks and no two groups have the same id. *)
Theorem primary_keys_stay_unique :
  forall (V : schemas) (reqs : list (endpoint * request)) (bucket : string),
    keyed (db (serve V reqs (start bucket))).
Proof.
  intros V reqs bucket.
  assert (K : keyed (db (start bucket))) by (repeat split; constructor).
  revert K. generalize (start bucket) as w.
  induction reqs as [|[e r] reqs IH]; intros w K; simpl; [exact K|].
  apply IH. now apply (preserves_fetch stays_keyed _ e r w (route_stays_keyed V e r)).
Qed.

(* ================================================================== *)
(** * The listings show every row once *)

Section Blocks.
Context {K : Type}.
Variable K_dec : forall x y : K, {x = y} + {x <> y}.

Lemma filter_twice {X} (p : X -> bool) l : filter p (filter p l) = filter p l.
Proof.
  apply filter_all_of. intros x I. apply filter_In in I. tauto.
Qed.

(** A run of one key, then the rest. *)
Lemma distinct_run (c : K) ks rest :
  ks <> [] -> (forall k, In k ks -> k = c) ->
  Rel.distinct K_dec (ks ++ rest)
  = c :: filter (fun k' => negb (Rel.same K_dec k' c)) (Rel.distinct K_dec rest).
Proof.
  induction ks as [|k ks IH]; intros N H; [congruence|].
  assert (k = c) as -> by (apply H; simpl; auto).
  destruct ks as [|k1 ks]; [reflexivity|].
  change (Rel.distinct K_dec ((c :: k1 :: ks) ++ rest))
    with (c :: filter (fun k' => negb (Rel.same K_dec k' c))
                      (Rel.distinct K_dec ((k1 :: ks) ++ rest))).
  rewrite IH; [|discriminate | intros k I; apply H; simpl in *; tauto].
  simpl. rewrite same_refl. simpl. now rewrite filter_twice.
Qed.

Lemma distinct_blocks {A X} (k : X -> K) (k' : A -> K) (g : A -> list X) l :
  (forall a, g a <> []) -> (forall a x, In x (g a) -> k x = k' a) ->
  Rel.distinct K_dec (map k (flat_map g l)) = Rel.distinct K_dec (map k' l).
Proof.
  intros N H. induction l as [|a l IH]; [reflexivity|].
  simpl. rewrite map_app, (distinct_run (k' a)), IH; [reflexivity | |].
  - specialize (N a). destruct (g a); [congruence | discriminate].
  - intros c I. apply in_map_iff in I. destruct I as (x & <- & I). now apply H.
Qed.

Lemma distinct_NoDup ks : NoDup ks -> Rel.distinct K_dec ks = ks.
Proof.
  induction 1 as [|k ks Nk N IH]; [reflexivity|]. simpl. rewrite IH. f_equal.
  apply filter_all_of. intros k' I. apply negb_true_iff.
  apply not_true_is_false. intros E. apply same_true in E. now subst k'.
Qed.

(** The keys of a left join, each once: those of its left side. *)
Lemma distinct_left_join {A B} (k' : A -> K) (on : A -> B -> bool) l r :
  Rel.distinct K_dec (map (fun x => k' (fst x)) (Rel.left_join on l r))
  = Rel.distinct K_dec (map k' l).
Proof.
  unfold Rel.left_join. apply distinct_blocks.
  - intros a. destruct (filter (on a) r); discriminate.
  - intros a x I. destruct (filter (on a) r) as [|b bs].
    + destruct I as [<-|[]]. reflexivity.
    + apply in_map_iff in I. destruct I as (y & <- & _). reflexivity.
Qed.

Lemma group_by_keys {A} (key : A -> K) rows :
  map fst (Rel.group_by K_dec key rows) = Rel.distinct K_dec (map key rows).
Proof. unfold Rel.group_by. rewrite map_map. simpl. apply map_id. Qed.

End Blocks.

Section EveryRowOnce.

Lemma ideas_listed_once d :
  NoDup (map Pg.i_id (Pg.ideas d)) ->
  map Pg.iw_cols (Pg.select_ideas_with_tags (Pg.ideas_where None None) d)
  = map Pg.cols_of (Pg.ideas d).
Proof.
  intros N. unfold Pg.select_ideas_with_tags. rewrite map_map. cbn [Pg.iw_cols].
  change (map (fun g => fst g) ?l) with (map fst l).
  rewrite group_by_keys. unfold Pg.ideas_where. rewrite filter_all.
  unfold Pg.ideas_joined, Pg.joined_idea.
  etransitivity;
    [apply (distinct_left_join Pg.idea_cols_dec (fun l => Pg.cols_of (fst l)))|].
  etransitivity; [apply (distinct_left_join Pg.idea_cols_dec Pg.cols_of)|].
  apply distinct_NoDup.
  apply (NoDup_map_inv Pg.c_id). now rewrite map_map.
Qed.

Lemma users_listed_once d :
  NoDup (map Pg.u_id (Pg.users d)) ->
  map Pg.uw_user (Pg.select_users_with_tags (fun _ => true) d) = Pg.users d.
Proof.
  intros N. unfold Pg.select_users_with_tags. rewrite map_map. cbn [Pg.uw_user].
  change (map (fun g => fst g) ?l) with (map fst l).
  rewrite group_by_keys, filter_all. unfold Pg.users_joined.
  etransitivity; [apply (distinct_left_join Pg.user_dec (fun l => fst l))|].
  etransitivity; [apply (distinct_left_join Pg.user_dec (fun u => u))|].
  rewrite map_id. apply distinct_NoDup. now apply NoDup_map_inv in N.
Qed.

End EveryRowOnce.

(** GET /ideas without query parameters and GET /users answer 200 with
    one row for every idea, and for every user, and no other row, each
    with the columns of the table, where ids are unique. *)
Theorem listings_show_every_row_once :
  forall w : world,
    (NoDup (map Pg.i_id (Pg.ideas (db w))) ->
     exists rows,
       answer (Ideas.all None None None) w
       = mk_response 200 (Some (Js.Arr (map idea_with_tags_json rows)))
       /\ Permutation (map Pg.iw_cols rows) (map Pg.cols_of (Pg.ideas (db w))))
    /\ (NoDup (map Pg.u_id (Pg.users (db w))) ->
        exists rows,
          answer Users.all w
          = mk_response 200 (Some (Js.Arr (map user_with_tags_json rows)))
          /\ Permutation (map Pg.uw_user rows) (Pg.users (db w))).
Proof.
  intros w. split; intros N.
  - exists (Pg.select_ideas_with_tags (Pg.ideas_where None None) (db w)).
    split; [reflexivity|]. now rewrite ideas_listed_once.
  - exists (Pg.select_users_with_tags (fun _ => true) (db w)).
    split; [reflexivity|]. now rewrite users_listed_once.
Qed.

(** The idea and the user of [Sample.w1]. *)
Lemma listings_show_every_row_once_witness :
  (exists rows,
      answer (Ideas.all None None None) Sample.w1
      = mk_response 200 (Some (Js.Arr (map idea_with_tags_json rows)))
      /\ Permutation (map Pg.iw_cols rows) [Pg.mk_cols 1 "T" "C" "u1" [] "public" 0 0])
  /\ (exists rows,
        answer Users.all Sample.w1
        = mk_response 200 (Some (Js.Arr (map user_with_tags_json rows)))
        /\ Permutation (map Pg.uw_user rows) [Sample.alice]).
Proof.
  split.
  - apply (proj1 (listings_show_every_row_once Sample.w1)).
    simpl. repeat constructor. intros [].
  - apply (proj2 (listings_show_every_row_once Sample.w1)).
    simpl. repeat constructor. intros [].
Defined.

(* ================================================================== *)
(** * The join of one idea *)

Section JoinOfOneRow.

Lemma filter_left_join {A B} (p : A -> bool) (on : A -> B -> bool) l r :
  filter (fun x => p (fst x)) (Rel.left_join on l r) = Rel.left_join on (filter p l) r.
Proof.
  unfold Rel.left_join.
  set (g := fun a => match filter (on a) r with
                     | [] => [(a, None)]
                     | bs => map (fun b => (a, Some b)) bs
                     end).
  assert (G : forall a x, In x (g a) -> fst x = a).
  { intros a x I. unfold g in I. destruct (filter (on a) r) as [|b bs].
    - now destruct I as [<-|[]].
    - apply in_map_iff in I. now destruct I as (y & <- & _). }
  induction l as [|a l IH]; [reflexivity|].
  change (flat_map g (a :: l)) with (g a ++ flat_map g l)%list.
  rewrite filter_app, IH. cbn [filter].
  destruct (p a) eqn:E.
  - change (flat_map g (a :: filter p l)) with (g a ++ flat_map g (filter p l))%list.
    f_equal. apply filter_all_of. intros x I. now rewrite (G a x I).
  - rewrite filter_nil_of; [reflexivity|]. intros x I. now rewrite (G a x I).
Qed.

Lemma filter_key_one {X} (f : X -> Z) l x :
  NoDup (map f l) -> In x l -> filter (fun y => f x =? f y) l = [x].
Proof.
  induction l as [|y l IH]; simpl; intros N I; [contradiction|].
  inversion N as [|? ? Ny Nl]; subst.
  destruct I as [->|I].
  - rewrite Z.eqb_refl. f_equal. apply filter_nil_of. intros z J.
    apply Z.eqb_neq. intros E. apply Ny. rewrite E. now apply in_map.
  - destruct (f x =? f y) eqn:E; [|now apply IH].
    apply Z.eqb_eq in E. exfalso. apply Ny. rewrite <- E. now apply in_map.
Qed.

(** The aggregate row of an idea whose links lead to the tags [L]. *)
Lemma select_idea_with_its_tags d i L :
  filter (fun j => Pg.i_id j =? Pg.i_id i) (Pg.ideas d) = [i] ->
  L <> [] ->
  filter (fun it : Z * Z => Pg.i_id i =? fst it) (Pg.ideas_tags d)
  = map (fun t => (Pg.i_id i, Pg.t_id t)) L ->
  (forall t, In t L -> In t (Pg.tags d)) ->
  NoDup (map Pg.t_id (Pg.tags d)) ->
  Pg.select_ideas_with_tags (fun r => Pg.i_id (Pg.joined_idea r) =? Pg.i_id i) d
  = [Pg.mk_iwt (Pg.cols_of i) (map (fun t => Some (Pg.t_name t)) L)].
Proof.
  intros Hi Ne Hl Ht N.
  assert (J : filter (fun r => Pg.i_id (Pg.joined_idea r) =? Pg.i_id i) (Pg.ideas_joined d)
              = map (fun t => ((i, Some (Pg.i_id i, Pg.t_id t)), Some t)) L).
  { unfold Pg.ideas_joined, Pg.joined_idea.
    match goal with
    | |- filter _ (Rel.left_join ?on2 (Rel.left_join ?on1 _ _) _) = _ =>
        pose proof (filter_left_join
                      (fun l : Pg.idea * option (Z * Z) => Pg.i_id (fst l) =? Pg.i_id i)
                      on2 (Rel.left_join on1 (Pg.ideas d) (Pg.ideas_tags d))
                      (Pg.tags d)) as E2;
        pose proof (filter_left_join (fun j => Pg.i_id j =? Pg.i_id i)
                      on1 (Pg.ideas d) (Pg.ideas_tags d)) as E1
    end.
    cbv beta in E1, E2. etransitivity; [exact E2|]. rewrite E1, Hi. clear E1 E2.
    unfold Rel.left_join at 2. simpl. rewrite Hl, app_nil_r.
    clear Hl Hi.
    assert (G : forall M : list Pg.tag,
               (forall t, In t M -> In t (Pg.tags d)) ->
               Rel.left_join
                 (fun (l : Pg.idea * option (Z * Z)) (t : Pg.tag) =>
                    match snd l with
                    | Some it => snd it =? Pg.t_id t
                    | None => false
                    end)
                 (map (fun t => (i, Some (Pg.i_id i, Pg.t_id t))) M) (Pg.tags d)
               = map (fun t => ((i, Some (Pg.i_id i, Pg.t_id t)), Some t)) M).
    { unfold Rel.left_join. induction M as [|t M IH]; intros HM; [reflexivity|].
      simpl. rewrite (filter_key_one Pg.t_id (Pg.tags d) t N) by (apply HM; simpl; auto).
      simpl. f_equal. apply IH. intros t' I. apply HM. simpl. auto. }
    destruct L as [|t0 L0]; [contradiction|].
    rewrite <- (G (t0 :: L0) Ht). simpl. now rewrite map_map. }
  unfold Pg.select_ideas_with_tags. rewrite J.
  rewrite (group_by_one Pg.idea_cols_dec _ (Pg.cols_of i)).
  - simpl. rewrite map_map. unfold Pg.joined_tag_name. simpl.
    destruct L; [contradiction | reflexivity].
  - destruct L; [contradiction | discriminate].
  - intros r I. apply in_map_iff in I. now destruct I as (t & <- & _).
Qed.

End JoinOfOneRow.

(* ================================================================== *)
(** * What the validators let through *)

Section ZodReading.
Variable F : Zod.formats.

Lemma lookup_params k ps :
  Js.lookup k (map (fun p : string * string => (fst p, Js.Str (snd p))) ps)
  = match raw k ps with Some s => Js.Str s | None => Js.Undefined end.
Proof.
  induction ps as [|[k' v] ps IH]; simpl; [reflexivity|].
  destruct (String.eqb k k'); [reflexivity | exact IH].
Qed.

(** A string parameter is accepted as it is. *)
Lemma string_param k ps : Zod.key k Zod.string_ (Zod.params ps) = raw k ps.
Proof.
  unfold Zod.key, Zod.params. rewrite lookup_params. now destruct (raw k ps).
Qed.

(** A numeric parameter is refused: the path hands over a string. *)
Lemma number_param k ps : Zod.key k Zod.number (Zod.params ps) = None.
Proof.
  unfold Zod.key, Zod.params. rewrite lookup_params. now destruct (raw k ps).
Qed.

Lemma numbered_route_invalid e r :
  takes_number e = true -> valid (Zod.validators F) e r = false.
Proof.
  destruct e; try discriminate; intros _; simpl; unfold accepted; simpl;
    unfold Zod.id_number, Zod.id_number_tag, Zod.id_number_user_id;
    rewrite number_param; reflexivity.
Qed.

(** Every request on a route with a numeric id ends at the validator. *)
Lemma numbered_route_rejects e r w :
  takes_number e = true -> fetch (Zod.validators F) e r w = (rejection, w).
Proof.
  intros H. unfold fetch.
  now rewrite (route_rejects _ e r w (numbered_route_invalid e r H)).
Qed.

Lemma serve_rejected reqs w :
  Forall (fun q : endpoint * request => takes_number (fst q) = true) reqs ->
  serve (Zod.validators F) reqs w = w.
Proof.
  induction 1 as [|[e r] reqs H _ IH]; simpl; [reflexivity|].
  simpl in H. now rewrite (numbered_route_rejects e r w H).
Qed.

Lemma tag_route_runs e r name :
  names_a_tag e = true -> raw "name" (param r) = Some name ->
  route (Zod.validators F) e r
  = match e with
    | GET_tags_name => Tags.get name
    | POST_tags_up => Tags.up name
    | POST_tags_down => Tags.down name
    | DELETE_tags_up => Tags.remove_up name
    | _ => Tags.remove_down name
    end.
Proof.
  intros H P. destruct e; try discriminate; simpl; unfold zValidator; simpl;
    unfold Zod.name_string; rewrite string_param, P; reflexivity.
Qed.

Lemma tag_absent_404 e name w :
  names_a_tag e = true ->
  existsb (fun t => String.eqb (Pg.t_name t) name) (Pg.tags (db w)) = false ->
  status (fst (run match e with
                   | GET_tags_name => Tags.get name
                   | POST_tags_up => Tags.up name
                   | POST_tags_down => Tags.down name
                   | DELETE_tags_up => Tags.remove_up name
                   | _ => Tags.remove_down name
                   end w)) = 404.
Proof.
  intros H A.
  destruct e; try discriminate;
    unfold run, Tags.get, Tags.up, Tags.down, Tags.remove_up, Tags.remove_down,
      Tags.vote, bind, sql, Pg.select_tag, Pg.update_tags_vote, Pg.reading; simpl;
    now rewrite (filter_absent _ _ A).
Qed.

End ZodReading.

(** C3, as the code has it.  When no tag has the name, the five routes
    on /tags that take a name answer 404, and when no user has the id so
    do GET, PUT and DELETE /users/:id.  The routes that take the id of an
    idea, a group or a feedback validate it with [z.number()]; the path
    hands it over as a string, so every request on them is answered 400,
    whether a row has the id or not, and nothing is done. *)
Theorem absent_row_status :
  forall (F : Zod.formats) (e : endpoint) (r : request) (w : world),
    (forall name,
        names_a_tag e = true -> raw "name" (param r) = Some name ->
        existsb (fun t => String.eqb (Pg.t_name t) name) (Pg.tags (db w)) = false ->
        status (fst (fetch (Zod.validators F) e r w)) = 404)
    /\ (forall id,
        e = GET_users_id \/ e = DELETE_users_id
        \/ (e = PUT_users_id /\ accepted (Zod.userSchema F) (json_body r) = true) ->
        raw "id" (param r) = Some id ->
        Pg.has_user id (db w) = false ->
        status (fst (fetch (Zod.validators F) e r w)) = 404)
    /\ (takes_number e = true ->
        fetch (Zod.validators F) e r w = (rejection, w)).
Proof.
  intros F e r w. split; [|split].
  - intros name H P A.
    change (fetch (Zod.validators F) e r w) with (run (route (Zod.validators F) e r) w).
    rewrite (tag_route_runs F e r name H P). now apply tag_absent_404.
  - intros id H P A. unfold Pg.has_user in A.
    destruct H as [->|[->|[-> B]]]; unfold fetch, route, zValidator; simpl;
      unfold Zod.id_string; rewrite string_param, P.
    + unfold Users.get, bind, sql, Pg.select_user, Pg.reading. simpl.
      now rewrite (select_user_absent _ _ A).
    + unfold Users.delete, bind, sql, Pg.delete_user. simpl.
      now rewrite (filter_absent _ _ A).
    + unfold accepted in B. destruct (Zod.userSchema F (json_body r)) as [u|];
        [|discriminate].
      unfold put_user. rewrite P.
      unfold Users.update, bind, sql, Pg.update_user. simpl.
      now rewrite (filter_absent _ _ A).
  - apply numbered_route_rejects.
Qed.

(** POST /feedbacks/up/7 and GET /ideas/7 when there is no feedback and
    no idea at all, GET /tags/nope when there is no tag. *)
Lemma absent_row_status_witness :
  status (fst (fetch Sample.parsers POST_feedbacks_up
                 (Sample.at_path [("id", "7")]) Sample.w0)) = 400
  /\ status (fst (fetch Sample.parsers GET_ideas_id
                    (Sample.at_path [("id", "7")]) Sample.w0)) = 400
  /\ status (fst (fetch Sample.parsers GET_tags_name
                    (Sample.at_path [("name", "nope")]) Sample.w0)) = 404.
Proof.
  split; [|split].
  - exact (f_equal (fun p => status (fst p))
             (proj2 (proj2 (absent_row_status Sample.formats POST_feedbacks_up
                              (Sample.at_path [("id", "7")]) Sample.w0)) eq_refl)).
  - exact (f_equal (fun p => status (fst p))
             (proj2 (proj2 (absent_row_status Sample.formats GET_ideas_id
                              (Sample.at_path [("id", "7")]) Sample.w0)) eq_refl)).
  - exact (proj1 (absent_row_status Sample.formats GET_tags_name
                    (Sample.at_path [("name", "nope")]) Sample.w0)
             "nope" eq_refl eq_refl eq_refl).
Defined.

(* ================================================================== *)
(** * The votes on a tag, the member routes of a group *)

Section TagVotes.
Variable F : Zod.formats.







End TagVotes.




(** C10, as the code has it.  POST and DELETE /groups/:id/:user_id
    validate the id of the path with [z.number()] and get a string: every
    request on them is answered 400 and nothing is done, so whatever is
    sent, and however often, the member lists stay as they are. *)
Theorem group_member_requests_change_nothing :
  forall (F : Zod.formats) (reqs : list (endpoint * request)) (w : world),
    Forall (fun q : endpoint * request =>
              fst q = POST_groups_user \/ fst q = DELETE_groups_user) reqs ->
    Forall (fun q : endpoint * request =>
              forall w', fetch (Zod.validators F) (fst q) (snd q) w' = (rejection, w'))
           reqs
    /\ serve (Zod.validators F) reqs w = w.
Proof.
  intros F reqs w H.
  assert (N : Forall (fun q : endpoint * request => takes_number (fst q) = true) reqs).
  { eapply Forall_impl; [|exact H]. intros [e r] [->| ->]; reflexivity. }
  split; [|now apply serve_rejected].
  eapply Forall_impl; [|exact N]. intros [e r] T w'. now apply numbered_route_rejects.
Qed.

(** POST /groups/1/u2 sent twice to the group that POST /groups has just
    created: no occurrence of u2, not two. *)
Lemma group_member_requests_change_nothing_witness :
  let add := (POST_groups_user, Sample.at_path [("id", "1"); ("user_id", "u2")]) in
  Pg.user_groups (db Sample.w_group) = [Pg.mk_group 1 "G" "D" ["u1"] 0]
  /\ status (fst (fetch Sample.parsers (fst add) (snd add) Sample.w_group)) = 400
  /\ Pg.user_groups (db (serve Sample.parsers [add; add] Sample.w_group))
     = [Pg.mk_group 1 "G" "D" ["u1"] 0].
Proof.
  intros add.
  pose proof (group_member_requests_change_nothing Sample.formats [add; add]
                Sample.w_group) as H.
  destruct H as [A S].
  - repeat constructor.
  - split; [reflexivity|]. split.
    + inversion A as [|? ? A1 _]; subst.
      exact (f_equal (fun p => status (fst p)) (A1 Sample.w_group)).
    + exact (f_equal (fun x => Pg.user_groups (db x)) S).
Defined.

(* ================================================================== *)
(** * The access parameter of GET /ideas *)

Section AccessOfListing.
Variable F : Zod.formats.

Lemma listing_request_accepted sort_by filter access :
  Zod.ideas_query (query (listing_request sort_by filter access))
  = Some (sort_by, filter, access).
Proof. destruct sort_by, filter, access; reflexivity. Qed.

Lemma listing_fetch sort_by filter access w :
  fetch (Zod.validators F) GET_ideas (listing_request sort_by filter access) w
  = run (Ideas.all sort_by filter access) w.
Proof.
  unfold fetch, run, route, zValidator. cbn [ideas_query Zod.validators].
  now rewrite listing_request_accepted.
Qed.




End AccessOfListing.

Section UnsortedListing.
Variable F : Zod.formats.




End UnsortedListing.



(* ================================================================== *)
(** * A user without pinned tags *)

Section UserWithoutTags.

Lemma left_join_one {A B} (on : A -> B -> bool) a r :
  (forall b, In b r -> on a b = false) -> Rel.left_join on [a] r = [(a, None)].
Proof.
  intros H. unfold Rel.left_join. simpl. now rewrite (filter_nil_of _ _ H).
Qed.

Lemma filter_same_one {K} (K_dec : forall x y : K, {x = y} + {x <> y}) l k :
  NoDup l -> In k l -> filter (fun x => Rel.same K_dec x k) l = [k].
Proof.
  induction l as [|y l IH]; simpl; intros N I; [contradiction|].
  inversion N as [|? ? Ny Nl]; subst.
  destruct I as [->|I].
  - rewrite same_refl. f_equal. apply filter_nil_of. intros z J.
    apply not_true_is_false. intros E. apply same_true in E. now subst z.
  - destruct (Rel.same K_dec y k) eqn:E; [|now apply IH].
    apply same_true in E. now subst y.
Qed.

(** The aggregate row of a user without a pinned tag: one NULL. *)
Lemma user_without_tags_row d u :
  NoDup (map Pg.u_id (Pg.users d)) ->
  In u (Pg.users d) ->
  (forall p, In p (Pg.users_pinned_tags d) -> fst p <> Pg.u_id u) ->
  In (Pg.mk_uwt u [None]) (Pg.select_users_with_tags (fun _ => true) d).
Proof.
  intros N I P. unfold Pg.select_users_with_tags. rewrite filter_all.
  apply in_map_iff. exists (u, [(u, None, None)]). split; [reflexivity|].
  unfold Rel.group_by. apply in_map_iff. exists u. split.
  - f_equal. unfold Pg.users_joined.
    match goal with
    | |- filter _ (Rel.left_join ?on2 (Rel.left_join ?on1 _ _) _) = _ =>
        pose proof (filter_left_join
                      (fun l : Pg.user * option (string * Z) =>
                         Rel.same Pg.user_dec (fst l) u)
                      on2 (Rel.left_join on1 (Pg.users d) (Pg.users_pinned_tags d))
                      (Pg.tags d)) as E2;
        pose proof (filter_left_join (fun x => Rel.same Pg.user_dec x u)
                      on1 (Pg.users d) (Pg.users_pinned_tags d)) as E1
    end.
    cbv beta in E1, E2. etransitivity; [exact E2|]. rewrite E1. clear E1 E2.
    rewrite (filter_same_one Pg.user_dec); [|now apply NoDup_map_inv in N | exact I].
    rewrite left_join_one.
    + apply left_join_one. reflexivity.
    + intros p Ip. apply String.eqb_neq. intros E. now apply (P p Ip).
  - apply distinct_in. destruct (users_joined_has d u I) as (x & y & J).
    apply in_map_iff. exists (u, x, y). split; [reflexivity | exact J].
Qed.

End UserWithoutTags.

(** C2, as the code has it.  For a user without a pinned tag GET /users
    lists [pinned_tags] neither as the empty list nor as a list holding
    null, but as the list holding the string "NULL": the outer joins give
    the user one row with a NULL tag name, ARRAY_AGG collects that NULL,
    COALESCE sees an array and not NULL, and the driver hands the element
    of the array over as its text. *)
Theorem no_tags_listed_as_null :
  forall (V : schemas) (r : request) (w : world) (u : Pg.user),
    NoDup (map Pg.u_id (Pg.users (db w))) ->
    In u (Pg.users (db w)) ->
    (forall p, In p (Pg.users_pinned_tags (db w)) -> fst p <> Pg.u_id u) ->
    exists rows,
      fst (fetch V GET_users r w) = mk_response 200 (Some (Js.Arr rows))
      /\ In (Js.Obj [("id", Js.Str (Pg.u_id u)); ("name", Js.Str (Pg.u_name u));
                     ("email", Js.Str (Pg.u_email u)); ("role", Js.Str (Pg.u_role u));
                     ("image_url", Js.Str (Pg.u_image_url u));
                     ("pinned_tags", Js.Arr [Js.Str "NULL"])]) rows.
Proof.
  intros V r w u N I P.
  eexists. split; [reflexivity|].
  apply in_map_iff. exists (Pg.mk_uwt u [None]). split; [reflexivity|].
  now apply user_without_tags_row.
Qed.

(** POST /users for Alice on the empty store, then GET /users. *)
Lemma no_tags_listed_as_null_witness :
  let w := serve Sample.parsers [(POST_users, Sample.post_alice)] (start "bucket") in
  fst (fetch Sample.parsers GET_users Sample.no_input w)
  = mk_response 200
      (Some (Js.Arr [Js.Obj [("id", Js.Str "u1"); ("name", Js.Str "Alice");
                             ("email", Js.Str "alice@example.com");
                             ("role", Js.Str "admin");
                             ("image_url", Js.Str "https://example.com/a.jpg");
                             ("pinned_tags", Js.Arr [Js.Str "NULL"])]]))
  /\ exists rows,
      fst (fetch Sample.parsers GET_users Sample.no_input w)
      = mk_response 200 (Some (Js.Arr rows))
      /\ In (Js.Obj [("id", Js.Str "u1"); ("name", Js.Str "Alice");
                     ("email", Js.Str "alice@example.com");
                     ("role", Js.Str "admin");
                     ("image_url", Js.Str "https://example.com/a.jpg");
                     ("pinned_tags", Js.Arr [Js.Str "NULL"])]) rows.
Proof.
  intros w. split; [reflexivity|].
  refine (no_tags_listed_as_null Sample.parsers Sample.no_input w Sample.alice _ _ _).
  - vm_compute. constructor; [intros [] | constructor].
  - vm_compute. auto.
  - intros p [].
Defined.

(* ================================================================== *)
(** * What no request changes *)

Section Settled.

Lemma settled_refl d : settled d d.
Proof.
  unfold settled. repeat split; try apply Z.le_refl; auto.
  exists []. now rewrite app_nil_r.
Qed.

Lemma settled_trans a b c : settled a b -> settled b c -> settled a c.
Proof.
  intros (A1 & A2 & A3 & A4 & A5 & A6 & (x & A7)) (B1 & B2 & B3 & B4 & B5 & B6 & (y & B7)).
  unfold settled. repeat split; try lia.
  - intros i I L. apply A3; [apply B3; [exact I | lia] | exact L].
  - intros p I L. apply A4; [apply B4; [exact I | lia] | exact L].
  - intros f I L. apply A5; [apply B5; [exact I | lia] | exact L].
  - intros p I L. apply A6; [apply B6; [exact I | lia] | exact L].
  - exists (x ++ y)%list. now rewrite B7, A7, app_assoc.
Qed.

(** A statement that at most removes rows of the five tables. *)
Lemma settled_narrow d d' :
  Pg.ideas_id_seq d <= Pg.ideas_id_seq d' ->
  Pg.feedbacks_id_seq d <= Pg.feedbacks_id_seq d' ->
  incl (Pg.ideas d') (Pg.ideas d) ->
  incl (Pg.ideas_tags d') (Pg.ideas_tags d) ->
  incl (Pg.feedbacks d') (Pg.feedbacks d) ->
  incl (Pg.ideas_feedbacks d') (Pg.ideas_feedbacks d) ->
  Pg.user_groups d' = Pg.user_groups d ->
  settled d d'.
Proof.
  intros S1 S2 I1 I2 I3 I4 G. unfold settled. rewrite G.
  repeat split; auto.
  exists []. now rewrite app_nil_r.
Qed.

Lemma stays_settled_refl w : stays_settled w w.
Proof. split; [apply settled_refl | reflexivity]. Qed.

Lemma stays_settled_trans a b c :
  stays_settled a b -> stays_settled b c -> stays_settled a c.
Proof.
  intros [A1 A2] [B1 B2]. split; [eapply settled_trans; eassumption | congruence].
Qed.

Lemma stays_settled_sql {A} text (q : Pg.stmt A) :
  (forall d, settled d (snd (q d))) -> preserves stays_settled (sql text q).
Proof.
  intros H w. rewrite sql_run. specialize (H (db w)).
  destruct (q (db w)) as [[e|a] d]; split; try exact H; reflexivity.
Qed.

Lemma insert_tags_rows_seq_only names d :
  settled d (snd (Pg.insert_tags names d)).
Proof.
  unfold Pg.insert_tags.
  destruct (fst (Pg.insert_tags_rows names (Pg.tags d) (Pg.tags_id_seq d)));
    apply settled_narrow; try apply Z.le_refl; try reflexivity; apply incl_refl.
Qed.

Lemma settled_insert_group t de u l d : settled d (snd (Pg.insert_group t de u l d)).
Proof.
  unfold Pg.insert_group, Pg.integer. destruct (Pg.int4 l); [|apply settled_refl].
  destruct (existsb _ _).
  - apply settled_narrow; try apply Z.le_refl; try reflexivity; apply incl_refl.
  - unfold settled. simpl. repeat split; try apply Z.le_refl; auto. eexists. reflexivity.
Qed.

End Settled.

(** The statement removes rows at most. *)
Ltac narrows :=
  intros d;
  unfold Pg.select_tag_names, Pg.select_tag, Pg.select_ideas_listing,
    Pg.select_ideas_by_user, Pg.select_users, Pg.select_user,
    Pg.select_groups_listing, Pg.select_feedbacks, Pg.select_feedbacks_by_user,
    Pg.select_tag_ids, Pg.update_tags_vote, Pg.insert_user, Pg.update_user,
    Pg.delete_user, Pg.link_user_tag, Pg.unlink_user_tag, Pg.cascade_users,
    Pg.cascade_ideas, Pg.cascade_feedbacks, Pg.reading, Pg.failing;
  cbv beta zeta;
  repeat match goal with
         | |- context [if ?c then _ else _] => destruct c
         | |- context [match ?c with _ => _ end] => destruct c
         end;
  apply settled_narrow; simpl; try apply Z.le_refl; try reflexivity;
  repeat first [ apply incl_refl | eapply incl_tran; [apply incl_filter|] ].

Section SettledOnEveryRoute.
Variable F : Zod.formats.

(** POST /ideas: the new idea and its links have the id the sequence
    handed out. *)
Lemma create_idea_settled b : preserves stays_settled (Ideas.create b).
Proof.
  unfold Ideas.create.
  apply (preserves_bind _ stays_settled_trans).
  { apply (preserves_sql_rows _ stays_settled_refl). intros rows.
    apply stays_settled_sql. apply insert_tags_rows_seq_only. }
  intros _. apply (preserves_bind _ stays_settled_trans).
  { apply stays_settled_sql. narrows. }
  intros rows1 w. unfold bind. rewrite sql_run.
  unfold Pg.insert_idea. cbv beta zeta.
  assert (N : forall d', Pg.ideas_id_seq d' = Pg.ideas_id_seq (db w) + 1 ->
                Pg.feedbacks_id_seq d' = Pg.feedbacks_id_seq (db w) ->
                Pg.ideas d' = (Pg.ideas (db w)
                               ++ [Pg.mk_idea (Pg.ideas_id_seq (db w)) (Ideas.title b)
                                     (Ideas.content b) (Ideas.user_id b)
                                     (Ideas.files_url b) (Ideas.access b) 0 0
                                     (Pg.clock (db w))])%list ->
                (exists l, Pg.ideas_tags d'
                           = (Pg.ideas_tags (db w)
                              ++ map (fun t : Z => (Pg.ideas_id_seq (db w), t)) l)%list) ->
                Pg.feedbacks d' = Pg.feedbacks (db w) ->
                Pg.ideas_feedbacks d' = Pg.ideas_feedbacks (db w) ->
                Pg.user_groups d' = Pg.user_groups (db w) ->
                settled (db w) d').
  { intros d' S1 S2 I (l & T) Fb Fl G. unfold settled.
    rewrite S1, S2, I, T, Fb, Fl, G. repeat split; try lia; auto.
    - intros i J L. apply in_app_or in J. destruct J as [J|[<-|[]]]; [exact J|].
      simpl in L. lia.
    - intros p J L. apply in_app_or in J. destruct J as [J|J]; [exact J|].
      apply in_map_iff in J. destruct J as (t & <- & _). simpl in L. lia.
    - exists []. now rewrite app_nil_r. }
  destruct (Pg.has_idea _ _); [|destruct (negb _)]; cbn [fst snd];
    try (split; [|reflexivity]; apply settled_narrow; simpl; try lia;
         try reflexivity; apply incl_refl).
  cbn [Pg.i_id]. destruct (Js.truthy_num _); [|split; [|reflexivity]].
  - unfold bind, sql_rows. destruct (map _ rows1) as [|p ps] eqn:M.
    + split; [|reflexivity]. apply N; try reflexivity. exists []. simpl.
      now rewrite app_nil_r.
    + rewrite sql_run. unfold Pg.insert_ideas_tags.
      repeat match goal with
             | |- context [if ?c then _ else _] => destruct c
             end; cbn [fst snd]; (split; [|reflexivity]); apply N; try reflexivity.
      all: try (exists []; simpl; now rewrite app_nil_r).
      exists rows1. simpl. now rewrite M.
  - apply N; try reflexivity. exists []. simpl. now rewrite app_nil_r.
Qed.

(** POST /feedbacks: the new feedback and its link have the id the
    sequence handed out. *)
Lemma create_feedback_settled b : preserves stays_settled (Feedbacks.create b).
Proof.
  intros w. unfold Feedbacks.create, bind. rewrite sql_run.
  unfold Pg.insert_feedback, Pg.integers. cbv beta zeta.
  assert (N : forall d' l,
                Pg.ideas_id_seq d' = Pg.ideas_id_seq (db w) ->
                Pg.feedbacks_id_seq d' = Pg.feedbacks_id_seq (db w) + 1 ->
                Pg.ideas d' = Pg.ideas (db w) ->
                Pg.ideas_tags d' = Pg.ideas_tags (db w) ->
                Pg.feedbacks d'
                = (Pg.feedbacks (db w)
                   ++ [Pg.mk_feedback (Pg.feedbacks_id_seq (db w)) (Feedbacks.idea_id b)
                         (Feedbacks.user_id b) (Feedbacks.content b)
                         (Feedbacks.files_url b) (Feedbacks.feedback_links b)
                         (Feedbacks.user_tag b) (Feedbacks.upvotes b)
                         (Feedbacks.downvotes b) (Pg.clock (db w))])%list ->
                Pg.ideas_feedbacks d'
                = (Pg.ideas_feedbacks (db w)
                   ++ map (fun i : Z => (i, Pg.feedbacks_id_seq (db w))) l)%list ->
                Pg.user_groups d' = Pg.user_groups (db w) ->
                settled (db w) d').
  { intros d' l S1 S2 I T Fb Fl G. unfold settled.
    rewrite S1, S2, I, T, Fb, Fl, G. repeat split; try lia; auto.
    - intros f J L. apply in_app_or in J. destruct J as [J|[<-|[]]]; [exact J|].
      simpl in L. lia.
    - intros p J L. apply in_app_or in J. destruct J as [J|J]; [exact J|].
      apply in_map_iff in J. destruct J as (t & <- & _). simpl in L. lia.
    - exists []. now rewrite app_nil_r. }
  repeat match goal with
         | |- context [if ?c then _ else _] => destruct c
         end; cbn [fst snd];
    try (split; [|reflexivity]; apply settled_narrow; simpl; try lia;
         try reflexivity; apply incl_refl).
  unfold bind. rewrite sql_run. unfold Pg.insert_ideas_feedbacks, Pg.integers.
  cbn [Pg.f_id].
  repeat match goal with
         | |- context [if ?c then _ else _] => destruct c
         end; cbn [fst snd]; (split; [|reflexivity]).
  all: first [ apply (N _ [Feedbacks.idea_id b]); reflexivity
             | apply (N _ []); try reflexivity; simpl; now rewrite app_nil_r ].
Qed.

Lemma route_stays_settled e r : preserves stays_settled (route (Zod.validators F) e r).
Proof.
  destruct (takes_number e) eqn:T.
  - intros w.
    assert (E : route (Zod.validators F) e r w = (inr rejection, w)).
    { apply route_rejects. now apply numbered_route_invalid. }
    rewrite E. apply stays_settled_refl.
  - destruct e; try discriminate T; cbn [route];
      try (apply (preserves_zValidator _ stays_settled_refl); intro;
           first [apply create_idea_settled | apply create_feedback_settled]);
      unfold_routes;
      preserving stays_settled_refl stays_settled_trans
        ltac:(apply stays_settled_sql;
              first [ apply settled_insert_group | narrows ]).
Qed.

Lemma serve_stays_settled reqs : forall w,
  stays_settled w (serve (Zod.validators F) reqs w).
Proof.
  induction reqs as [|[e r] reqs IH]; intros w; [apply stays_settled_refl|].
  simpl. eapply stays_settled_trans; [|apply IH].
  apply (preserves_fetch stays_settled). apply route_stays_settled.
Qed.

End SettledOnEveryRoute.

Section FromTheStart.
Variable V : schemas.

Lemma serve_ahead reqs : forall w, ahead (db w) -> ahead (db (serve V reqs w)).
Proof.
  induction reqs as [|[e r] reqs IH]; intros w A; simpl; [exact A|].
  apply IH. now apply (preserves_fetch stays_ahead _ e r w (route_stays_ahead V e r)).
Qed.

Lemma serve_keyed reqs : forall w, keyed (db w) -> keyed (db (serve V reqs w)).
Proof.
  induction reqs as [|[e r] reqs IH]; intros w K; simpl; [exact K|].
  apply IH. now apply (preserves_fetch stays_keyed _ e r w (route_stays_keyed V e r)).
Qed.

Lemma start_ahead bucket : ahead (db (start bucket)).
Proof. unfold ahead. simpl. repeat split; try lia; constructor. Qed.

Lemma start_keyed bucket : keyed (db (start bucket)).
Proof. repeat split; constructor. Qed.

End FromTheStart.

(** No request reaches the object store: the two routes that write and
    delete objects, POST and DELETE /ideas/file/:id, take a numeric id
    and end at their validator. *)
Theorem object_store_never_changes :
  forall (F : Zod.formats) (reqs : list (endpoint * request)) (w : world),
    s3 (serve (Zod.validators F) reqs w) = s3 w.
Proof.
  intros F reqs w. exact (proj2 (serve_stays_settled F reqs w)).
Qed.

(** From the empty store, whatever requests are served: an idea that is
    stored keeps every column for as long as it is there, and so does a
    feedback; no link to a tag is added to a stored idea, and none to an
    idea for a stored feedback.  The routes that would change them all
    take a numeric id and end at their validator; what is left removes
    rows (the cascade of DELETE /users/:id) or adds new ones. *)
Theorem stored_ideas_and_feedbacks_are_never_modified :
  forall (F : Zod.formats) (bucket : string) (before later : list (endpoint * request)),
    let w := serve (Zod.validators F) before (start bucket) in
    let w' := serve (Zod.validators F) later w in
    (forall i i', In i (Pg.ideas (db w)) -> In i' (Pg.ideas (db w')) ->
        Pg.i_id i' = Pg.i_id i -> i' = i)
    /\ (forall f f', In f (Pg.feedbacks (db w)) -> In f' (Pg.feedbacks (db w')) ->
        Pg.f_id f' = Pg.f_id f -> f' = f)
    /\ (forall i p, In i (Pg.ideas (db w)) -> In p (Pg.ideas_tags (db w')) ->
        fst p = Pg.i_id i -> In p (Pg.ideas_tags (db w)))
    /\ (forall f p, In f (Pg.feedbacks (db w)) -> In p (Pg.ideas_feedbacks (db w')) ->
        snd p = Pg.f_id f -> In p (Pg.ideas_feedbacks (db w))).
Proof.
  intros F bucket before later w w'.
  assert (A : ahead (db w)) by (apply serve_ahead, start_ahead).
  assert (K : keyed (db w)) by (apply serve_keyed, start_keyed).
  destruct (serve_stays_settled F later w) as [(_ & _ & S3 & S4 & S5 & S6 & _) _].
  fold w' in S3, S4, S5, S6.
  destruct A as (_ & A2 & _ & _ & A5 & _). rewrite Forall_forall in A2, A5.
  destruct K as (_ & K2 & K3 & _).
  split; [|split; [|split]].
  - intros i i' I I' E. apply (key_row Pg.i_id (Pg.ideas (db w))); auto.
    apply S3; [exact I'|]. rewrite E. now apply A2.
  - intros f f' I I' E. apply (key_row Pg.f_id (Pg.feedbacks (db w))); auto.
    apply S5; [exact I'|]. rewrite E. now apply A5.
  - intros i p I Ip E. apply S4; [exact Ip|]. rewrite E. now apply A2.
  - intros f p I Ip E. apply S6; [exact Ip|]. rewrite E. now apply A5.
Qed.

Section CreateGroup.
Variable F : Zod.formats.

Lemma post_groups_fetch r b w :
  Zod.groupsSchema (json_body r) = Some b ->
  fetch (Zod.validators F) POST_groups r w = run (Groups.create b) w.
Proof.
  intros H. unfold fetch, run, route, zValidator. cbn [groupsSchema Zod.validators].
  now rewrite H.
Qed.

End CreateGroup.

(** POST /groups, its [likes] within INTEGER, on a store whose sequences
    are ahead, answers 200 with the stored row, which has the next id of
    the sequence and the fields of the body.  Whatever requests follow,
    the group stays in the table as it was stored, after the groups that
    were there: no request changes or removes a group, for PUT and
    DELETE /groups/:id and the two member routes take a numeric id and
    end at their validator. *)
Theorem created_group_stays_as_it_is :
  forall (F : Zod.formats) (r : request) (b : Groups.body) (w : world)
         (reqs : list (endpoint * request)),
    Zod.groupsSchema (json_body r) = Some b ->
    ahead (db w) ->
    Pg.int4 (Groups.likes b) = true ->
    let w1 := snd (fetch (Zod.validators F) POST_groups r w) in
    fst (fetch (Zod.validators F) POST_groups r w)
    = mk_response 200 (Some (group_json (new_group b (db w))))
    /\ exists added,
        Pg.user_groups (db (serve (Zod.validators F) reqs w1))
        = (Pg.user_groups (db w) ++ new_group b (db w) :: added)%list.
Proof.
  intros F r b w reqs H A Fl w1. unfold w1. clear w1.
  rewrite (post_groups_fetch F r b w H).
  set (id := Pg.user_groups_id_seq (db w)).
  assert (B : forall g, In g (Pg.user_groups (db w)) -> (Pg.g_id g =? id) = false).
  { intros g I. apply Z.eqb_neq. destruct A as (_ & _ & _ & _ & _ & _ & _ & A8).
    rewrite Forall_forall in A8. specialize (A8 g I). unfold id. lia. }
  assert (H0 : existsb (fun g => Pg.g_id g =? id) (Pg.user_groups (db w)) = false).
  { apply not_true_is_false. intros X. apply existsb_exists in X.
    destruct X as (g & I & E). rewrite (B g I) in E. discriminate. }
  assert (R : exists log, run (Groups.create b) w
            = (mk_response 200 (Some (group_json (new_group b (db w)))),
               mk_world
                 (Pg.with_user_groups (Pg.user_groups (db w) ++ [new_group b (db w)])
                    (Pg.with_user_groups_id_seq (id + 1) (db w)))
                 (s3 w) (AWS_BUCKET_NAME w) log)).
  { unfold Groups.create. rewrite run_bind, sql_run.
    unfold Pg.insert_group, Pg.integer. cbv zeta. fold id. rewrite Fl, H0.
    eexists. reflexivity. }
  destruct R as (log & R). rewrite R. cbn [fst snd]. split; [reflexivity|].
  match goal with |- context [serve _ reqs ?w1] =>
    destruct (serve_stays_settled F reqs w1) as [(_ & _ & _ & _ & _ & _ & (added & G)) _]
  end.
  exists added. rewrite G. cbn [db Pg.user_groups Pg.with_user_groups].
  now rewrite <- app_assoc.
Qed.

(** The first group of the empty store, and after it PUT, DELETE and
    the removal of its member. *)
Lemma created_group_stays_as_it_is_witness :
  let w1 := snd (fetch Sample.parsers POST_groups Sample.post_group (start "bucket")) in
  let reqs := [(PUT_groups_id, mk_request [("id", "1")] []
                                 (Js.Obj [("title", Js.Str "H");
                                          ("description", Js.Str "E");
                                          ("user_id", Js.strings [])]) None);
               (DELETE_groups_user, Sample.at_path [("id", "1"); ("user_id", "u1")]);
               (DELETE_groups_id, Sample.at_path [("id", "1")])] in
  Pg.user_groups (db (serve Sample.parsers reqs w1)) = [Pg.mk_group 1 "G" "D" ["u1"] 0]
  /\ exists added,
      Pg.user_groups (db (serve Sample.parsers reqs w1))
      = ([] ++ Pg.mk_group 1 "G" "D" ["u1"] 0 :: added)%list.
Proof.
  intros w1 reqs. split; [reflexivity|].
  refine (proj2 (created_group_stays_as_it_is Sample.formats Sample.post_group
                   (Groups.mk_body "G" "D" ["u1"] 0) (start "bucket") reqs
                   eq_refl _ eq_refl)).
  apply start_ahead.
Defined.

(* ================================================================== *)
(** * An idea listed with its tags *)

Section ListedIdea.
Variable F : Zod.formats.

Lemma post_ideas_fetch r b w :
  Zod.ideasSchemaWithTags F (json_body r) = Some b ->
  fetch (Zod.validators F) POST_ideas r w = run (Ideas.create b) w.
Proof.
  intros H. unfold fetch, run, route, zValidator.
  cbn [ideasSchemaWithTags Zod.validators]. now rewrite H.
Qed.

(** The SELECT of one idea gives the rows of the listing that have its id. *)
Lemma select_idea_of_listing id d :
  Pg.select_ideas_with_tags (fun r => Pg.i_id (Pg.joined_idea r) =? id) d
  = filter (fun row => Pg.c_id (Pg.iw_cols row) =? id)
           (Pg.select_ideas_with_tags (Pg.ideas_where None None) d).
Proof.
  unfold Pg.select_ideas_with_tags, Pg.ideas_where. rewrite filter_all.
  rewrite (group_by_filter_key Pg.idea_cols_dec
             (fun r : Pg.idea_joined => Pg.cols_of (Pg.joined_idea r))
             (fun c => Pg.c_id c =? id)).
  apply map_filter_through. reflexivity.
Qed.

End ListedIdea.

(** POST /ideas for an existing user and with at least one tag, on a
    consistent store whose sequences are ahead, and GET /ideas after it:
    the listing holds one row with the id of the new idea, and it has the
    columns that were stored and the tags of the body, each tag once
    however often the body named it. *)
Theorem created_idea_is_listed_with_its_tags :
  forall (F : Zod.formats) (r : request) (b : Ideas.body) (w : world),
    Zod.ideasSchemaWithTags F (json_body r) = Some b ->
    consistent (db w) -> ahead (db w) ->
    Pg.has_user (Ideas.user_id b) (db w) = true ->
    Ideas.tags b <> [] ->
    let w' := snd (fetch (Zod.validators F) POST_ideas r w) in
    exists rows names,
      fst (fetch (Zod.validators F) GET_ideas (listing_request None None None) w')
      = listed rows
      /\ In (Pg.mk_iwt (Pg.cols_of (new_idea b (db w))) (map Some names)) rows
      /\ (forall row, In row rows ->
            Pg.c_id (Pg.iw_cols row) = Pg.ideas_id_seq (db w) ->
            row = Pg.mk_iwt (Pg.cols_of (new_idea b (db w))) (map Some names))
      /\ NoDup names
      /\ (forall n, In n names <-> In n (Ideas.tags b)).
Proof.
  intros F r b w H C A U T w'. unfold w'. clear w'.
  rewrite (post_ideas_fetch F r b w H).
  fold (after (Ideas.create b) w). set (w' := after (Ideas.create b) w).
  destruct (create_idea_run w b C A U T)
    as (ts' & K & _ & N & Nn & _ & Et & Ei & El).
  fold w' in Et, Ei, El.
  set (L := filter (fun t => Pg.mem_string (Pg.t_name t) (Ideas.tags b)) ts') in *.
  assert (Old : forall j, In j (Pg.ideas (db w)) ->
                  (Pg.i_id j =? Pg.ideas_id_seq (db w)) = false).
  { intros j I. apply Z.eqb_neq. destruct A as (_ & A2 & _).
    rewrite Forall_forall in A2. specialize (A2 j I). lia. }
  assert (OldL : forall p : Z * Z, In p (Pg.ideas_tags (db w)) ->
                   (Pg.ideas_id_seq (db w) =? fst p) = false).
  { intros p I. apply Z.eqb_neq. destruct A as (_ & _ & A3 & _).
    rewrite Forall_forall in A3. specialize (A3 p I). lia. }
  assert (NeL : L <> []).
  { destruct (Ideas.tags b) as [|n ns] eqn:Tb; [contradiction|].
    assert (In n (map Pg.t_name ts')) as I by (apply K; simpl; auto).
    apply in_map_iff in I. destruct I as (t & E & I).
    assert (In t L) as J.
    { unfold L. apply filter_In. split; [exact I|].
      rewrite E. simpl. now rewrite String.eqb_refl. }
    intros X. rewrite X in J. exact J. }
  assert (S : Pg.select_ideas_with_tags
                (fun r => Pg.i_id (Pg.joined_idea r) =? Pg.ideas_id_seq (db w)) (db w')
              = [Pg.mk_iwt (Pg.cols_of (new_idea b (db w)))
                           (map (fun t => Some (Pg.t_name t)) L)]).
  { apply (select_idea_with_its_tags (db w') (new_idea b (db w)) L);
      change (Pg.i_id (new_idea b (db w))) with (Pg.ideas_id_seq (db w)).
    - rewrite Ei, filter_app, (filter_nil_of _ _ Old). simpl.
      now rewrite Z.eqb_refl.
    - exact NeL.
    - rewrite El, filter_app, (filter_nil_of _ _ OldL). simpl.
      rewrite !map_map. rewrite filter_all_of; [reflexivity|].
      intros p I. apply in_map_iff in I. destruct I as (t & <- & _).
      simpl. apply Z.eqb_refl.
    - rewrite Et. intros t I. unfold L in I. apply filter_In in I. tauto.
    - now rewrite Et. }
  rewrite select_idea_of_listing in S.
  exists (Pg.select_ideas_with_tags (Pg.ideas_where None None) (db w')).
  exists (map Pg.t_name L).
  rewrite map_map.
  split; [|split; [|split; [|split]]].
  - now rewrite listing_fetch.
  - assert (In (Pg.mk_iwt (Pg.cols_of (new_idea b (db w)))
                          (map (fun t => Some (Pg.t_name t)) L))
               (filter (fun row => Pg.c_id (Pg.iw_cols row) =? Pg.ideas_id_seq (db w))
                       (Pg.select_ideas_with_tags (Pg.ideas_where None None) (db w'))))
      as I by (rewrite S; simpl; auto).
    apply filter_In in I. tauto.
  - intros row I E.
    assert (In row (filter (fun row => Pg.c_id (Pg.iw_cols row) =? Pg.ideas_id_seq (db w))
                           (Pg.select_ideas_with_tags (Pg.ideas_where None None) (db w'))))
      as J by (apply filter_In; split; [exact I | now apply Z.eqb_eq]).
    rewrite S in J. destruct J as [<-|[]]. reflexivity.
  - unfold L. now apply NoDup_map_filter.
  - intros n. split.
    + intros I. apply in_map_iff in I. destruct I as (t & <- & I).
      unfold L in I. apply filter_In in I. destruct I as [_ I].
      now apply mem_string_in.
    + intros I. specialize (K n I). apply in_map_iff in K.
      destruct K as (t & <- & J). apply in_map. unfold L. apply filter_In.
      split; [exact J | now apply mem_string_in].
Qed.

(** Alice's first idea, sent with the tag x named twice and the tag y. *)
Lemma created_idea_is_listed_with_its_tags_witness :
  let r := Sample.sending
             (Js.Obj [("title", Js.Str "T"); ("content", Js.Str "C");
                      ("user_id", Js.Str "u1"); ("files_url", Js.Arr []);
                      ("access", Js.Str "public"); ("upvotes", Js.Num 0);
                      ("downvotes", Js.Num 0); ("tags", Js.strings ["x"; "x"; "y"])]) in
  let w' := snd (fetch Sample.parsers POST_ideas r Sample.w0) in
  fst (fetch Sample.parsers GET_ideas (listing_request None None None) w')
  = listed [Pg.mk_iwt (Pg.mk_cols 1 "T" "C" "u1" [] "public" 0 0) [Some "x"; Some "y"]]
  /\ exists rows names,
      fst (fetch Sample.parsers GET_ideas (listing_request None None None) w')
      = listed rows
      /\ In (Pg.mk_iwt (Pg.mk_cols 1 "T" "C" "u1" [] "public" 0 0) (map Some names)) rows
      /\ (forall row, In row rows -> Pg.c_id (Pg.iw_cols row) = 1 ->
            row = Pg.mk_iwt (Pg.mk_cols 1 "T" "C" "u1" [] "public" 0 0) (map Some names))
      /\ NoDup names
      /\ (forall n, In n names <-> In n ["x"; "x"; "y"]).
Proof.
  intros r w'. split; [reflexivity|].
  refine (created_idea_is_listed_with_its_tags Sample.formats r
            (Ideas.mk_body "T" "C" "u1" [] "public" 0 0 ["x"; "x"; "y"]) Sample.w0
            eq_refl _ _ eq_refl _).
  - unfold consistent, tags_seq_ahead. simpl. repeat split; constructor.
  - unfold ahead. simpl. repeat split; try lia; constructor.
  - discriminate.
Defined.
